(** * Kafka learning demo: resolver, producer endpoint, consumer loop, diagnostic

    A shallow embedding of [config.py], [producer.py], [consumer.py] and
    [diagnose_kafka.py].  Python values are modelled by [pyval]; a Python
    [str] is a Rocq [string] holding its UTF-8 encoding; effects (standard
    output, the logger, the broker client handles) live in explicit world
    records that are threaded through a small state-and-exception monad. *)

From Stdlib Require Import String Ascii List ZArith NArith Lia Bool Arith.
From Stdlib.Strings Require Import Byte.
From Stdlib Require Import DecimalString.
Import ListNotations.
Set Warnings "-register-all".
Set Warnings "-notation-overridden".
Set Warnings "-notation-incompatible-prefix".
Local Open Scope string_scope.

(** ** Python data *)

Module Py.

(** Values that the scripts build, serialise or receive from [json.loads]. *)
Inductive pyval : Type :=
| PNone
| PBool (b : bool)
| PInt (z : Z)
| PFloat (lexeme : string)
| PStr (s : string)
| PList (items : list pyval)
| PDict (items : list (string * pyval)).

(** A [dict] keeps insertion order; keys are unique. *)
Definition dict := list (string * pyval).

Fixpoint dict_get {V : Type} (d : list (string * V)) (k : string) : option V :=
  match d with
  | [] => None
  | (k', v) :: r => if String.eqb k' k then Some v else dict_get r k
  end.

Fixpoint dict_set {V : Type} (d : list (string * V)) (k : string) (v : V)
  : list (string * V) :=
  match d with
  | [] => [(k, v)]
  | (k', v') :: r =>
      if String.eqb k' k then (k', v) :: r else (k', v') :: dict_set r k v
  end.

(** [d.update(other)] *)
Definition dict_update {V : Type} (d other : list (string * V))
  : list (string * V) :=
  fold_left (fun acc kv => dict_set acc (fst kv) (snd kv)) other d.

Definition dict_keys {V : Type} (d : list (string * V)) : list string :=
  map fst d.

(** [d.get(k, default)] *)
Definition get_default {V : Type} (d : list (string * V)) (k : string)
           (default : V) : V :=
  match dict_get d k with Some v => v | None => default end.

(** Truthiness of an optional string: [not s] holds for [None] and [''] . *)
Definition truthy (s : option string) : bool :=
  match s with
  | None => false
  | Some EmptyString => false
  | Some _ => true
  end.

Definition str_of_nat (n : nat) : string :=
  NilEmpty.string_of_uint (Nat.to_uint n).

Definition str_of_Z (z : Z) : string :=
  NilZero.string_of_int (Z.to_int z).

Fixpoint repeat_str (s : string) (n : nat) : string :=
  match n with
  | O => EmptyString
  | S k => s ++ repeat_str s k
  end.

(** [str.lower()] on the ASCII range.  Bytes of a multi-byte UTF-8
    sequence are left as they are; no code point outside ASCII has a
    lower-case form written with the letters [a], [w] or [s], which is all
    that the comparison in [get_kafka_config] looks at. *)
Definition ascii_lower (c : ascii) : ascii :=
  let n := nat_of_ascii c in
  if (65 <=? n)%nat && (n <=? 90)%nat then ascii_of_nat (n + 32) else c.

Fixpoint lower (s : string) : string :=
  match s with
  | EmptyString => EmptyString
  | String c r => String (ascii_lower c) (lower r)
  end.

(** *** Exceptions *)

(** Subclasses of [Exception] that the scripts can meet. *)
Inductive exception_class : Type :=
| JSONDecodeError
| UnicodeDecodeError
| AttributeError
| KafkaException
| BufferError
| OSError.

(** [KeyboardInterrupt] and [SystemExit] derive from [BaseException]
    only, so an [except Exception] clause lets them through. *)
Inductive exn : Type :=
| KeyboardInterrupt
| SystemExit (code : Z)
| Exception (cls : exception_class) (msg : string).

(** *** The effect monad

    A computation over a world [W] either returns, raises, or is still
    [Running] when the scripted behaviour of its environment ends (an
    endless loop that nothing has stopped yet). *)
Inductive outcome (A : Type) : Type :=
| Ret (a : A)
| Raise (e : exn)
| Running.
Arguments Ret {A} a.
Arguments Raise {A} e.
Arguments Running {A}.

Definition M (W A : Type) : Type := W -> outcome A * W.

Definition ret {W A} (a : A) : M W A := fun w => (Ret a, w).

Definition bind {W A B} (m : M W A) (k : A -> M W B) : M W B :=
  fun w =>
    match m w with
    | (Ret a, w') => k a w'
    | (Raise e, w') => (Raise e, w')
    | (Running, w') => (Running, w')
    end.

Definition raise {W A} (e : exn) : M W A := fun w => (Raise e, w).

Definition gets {W A} (f : W -> A) : M W A := fun w => (Ret (f w), w).

Definition modify {W} (f : W -> W) : M W unit := fun w => (Ret tt, f w).

(** [try: body except <clauses>]: [handler e] is [None] when no clause
    matches [e]. *)
Definition try_except {W A} (body : M W A) (handler : exn -> option (M W A))
  : M W A :=
  fun w =>
    match body w with
    | (Raise e, w') =>
        match handler e with
        | Some h => h w'
        | None => (Raise e, w')
        end
    | r => r
    end.

(** [try: body finally: fin]: [fin] runs when [body] returns or raises;
    an exception of [fin] replaces the pending outcome. *)
Definition try_finally {W A} (body : M W A) (fin : M W unit) : M W A :=
  fun w =>
    match body w with
    | (Running, w') => (Running, w')
    | (r, w') =>
        match fin w' with
        | (Ret _, w'') => (r, w'')
        | (Raise e, w'') => (Raise e, w'')
        | (Running, w'') => (Running, w'')
        end
    end.

(** The clause [except Exception as e]. *)
Definition except_Exception {W A} (h : exception_class -> string -> M W A)
  : exn -> option (M W A) :=
  fun e =>
    match e with
    | Exception c m => Some (h c m)
    | _ => None
    end.

End Py.

Import Py.

Declare Scope py_scope.
Delimit Scope py_scope with py.
Notation "x <- m ;; k" := (bind m (fun x => k))
  (at level 61, m at next level, right associativity) : py_scope.
Notation "m ;; k" := (bind m (fun _ => k))
  (at level 61, right associativity) : py_scope.
Local Open Scope py_scope.

(** ** config.py *)

Module Config.

(** [os.environ] once [load_dotenv()] has run. *)
Definition environ := list (string * string).

(** [os.getenv(key, default)] *)
Definition getenv (env : environ) (key default : string) : string :=
  get_default env key default.

Definition ENVIRONMENT (env : environ) : string :=
  getenv env "KAFKA_ENV" "local".

Definition LOCAL_CONFIG : dict :=
  [ ("bootstrap.servers", PStr "localhost:9092");
    ("security.protocol", PStr "PLAINTEXT");
    ("auto.offset.reset", PStr "earliest");
    ("api.version.request", PBool true);
    ("api.version.fallback.ms", PInt 0);
    ("broker.version.fallback", PStr "0.10.0.0") ].

Definition AWS_CONFIG (env : environ) : dict :=
  [ ("bootstrap.servers",
      PStr (getenv env "MSK_BOOTSTRAP_SERVERS" "your-msk-cluster-endpoint:9092"));
    ("security.protocol", PStr "SASL_SSL");
    ("sasl.mechanism", PStr "AWS_MSK_IAM");
    ("sasl.aws.region", PStr (getenv env "AWS_REGION" "us-east-1"));
    ("auto.offset.reset", PStr "earliest") ].

Definition get_kafka_config (env : environ) : dict :=
  if String.eqb (lower (ENVIRONMENT env)) "aws"
  then AWS_CONFIG env
  else LOCAL_CONFIG.

Definition get_environment (env : environ) : string := ENVIRONMENT env.

(** The broker-address list of a profile. *)
Definition bootstrap_servers (cfg : dict) : option pyval :=
  dict_get cfg "bootstrap.servers".

End Config.

(** ** Text: UTF-8, [str()] and [repr()] *)

Module Text.

Definition bytes := list byte.

Definition continuation (b : N) : bool := ((128 <=? b) && (b <=? 191))%N.

(** Well-formed UTF-8 (no overlong forms, no surrogates, at most
    U+10FFFF), the byte sequences that [bytes.decode('utf-8')] accepts. *)
Fixpoint utf8_valid (bs : list N) : bool :=
  match bs with
  | [] => true
  | b0 :: r0 =>
      if (b0 <=? 127)%N then utf8_valid r0
      else
        match r0 with
        | [] => false
        | b1 :: r1 =>
            if ((194 <=? b0) && (b0 <=? 223))%N
            then continuation b1 && utf8_valid r1
            else
              match r1 with
              | [] => false
              | b2 :: r2 =>
                  if ((224 <=? b0) && (b0 <=? 239))%N
                  then
                    (((if b0 =? 224 then 160 else 128) <=? b1)
                     && (b1 <=? (if b0 =? 237 then 159 else 191)))%N
                    && continuation b2 && utf8_valid r2
                  else
                    match r2 with
                    | [] => false
                    | b3 :: r3 =>
                        if ((240 <=? b0) && (b0 <=? 244))%N
                        then
                          (((if b0 =? 240 then 144 else 128) <=? b1)
                           && (b1 <=? (if b0 =? 244 then 143 else 191)))%N
                          && continuation b2 && continuation b3
                          && utf8_valid r3
                        else false
                    end
              end
        end
  end.

(** The bytes of a [str], and the strings that are well-formed UTF-8. *)
Definition bytes_of (s : string) : list N :=
  map N_of_ascii (list_ascii_of_string s).

Definition utf8_text (s : string) : Prop := utf8_valid (bytes_of s) = true.

(** Texts of the ASCII range. *)
Fixpoint ascii_only (s : string) : bool :=
  match s with
  | EmptyString => true
  | String c r => (N_of_ascii c <? 128)%N && ascii_only r
  end.

(** [b.decode('utf-8')]: [None] stands for [UnicodeDecodeError]. *)
Definition decode_utf8 (b : bytes) : option string :=
  if utf8_valid (map Byte.to_N b) then Some (string_of_list_byte b) else None.

(** [s.encode('utf-8')] *)
Definition encode_utf8 (s : string) : bytes := list_byte_of_string s.

Definition chr (n : N) : ascii := ascii_of_N n.

(** The UTF-8 encoding of one code point. *)
Definition encode_code_point (n : N) : string :=
  if (n <? 128)%N then String (chr n) EmptyString
  else if (n <? 2048)%N then
    String (chr (192 + n / 64)) (String (chr (128 + n mod 64)) EmptyString)
  else if (n <? 65536)%N then
    String (chr (224 + n / 4096))
      (String (chr (128 + (n / 64) mod 64))
         (String (chr (128 + n mod 64)) EmptyString))
  else
    String (chr (240 + n / 262144))
      (String (chr (128 + (n / 4096) mod 64))
         (String (chr (128 + (n / 64) mod 64))
            (String (chr (128 + n mod 64)) EmptyString))).

(** [str.strip()].  The white space characters are the code points for
    which [str.isspace()] holds: U+0009 to U+000D, U+001C to U+0020,
    U+0085, U+00A0, U+1680, U+2000 to U+200A, U+2028, U+2029, U+202F,
    U+205F and U+3000.  A [str] is held as its UTF-8 bytes, so each is a
    sequence of one, two or three bytes. *)
Definition unicode_spaces : list N :=
  [ 9; 10; 11; 12; 13; 28; 29; 30; 31; 32; 133; 160; 5760;
    8192; 8193; 8194; 8195; 8196; 8197; 8198; 8199; 8200; 8201; 8202;
    8232; 8233; 8239; 8287; 12288 ]%N.

Definition space_characters : list string :=
  map encode_code_point unicode_spaces.

Definition is_space (ch : string) : bool :=
  existsb (String.eqb ch) space_characters.

(** The characters of [s] as far as white space goes, each with its first
    byte apart: a white space character is one item with all its bytes,
    any other byte is an item of its own.  No white space character starts
    inside another character, since each starts with an ASCII byte or a
    lead byte. *)
Fixpoint units (s : string) : list (ascii * string) :=
  match s with
  | EmptyString => []
  | String c r =>
      match r with
      | EmptyString => [(c, EmptyString)]
      | String d r2 =>
          if is_space (String c (String d EmptyString))
          then (c, String d EmptyString) :: units r2
          else
            match r2 with
            | EmptyString => (c, EmptyString) :: units r
            | String e r3 =>
                if is_space (String c (String d (String e EmptyString)))
                then (c, String d (String e EmptyString)) :: units r3
                else (c, EmptyString) :: units r
            end
      end
  end.

Definition space_unit (u : ascii * string) : bool :=
  is_space (String (fst u) (snd u)).

Fixpoint drop_spaces (l : list (ascii * string)) : list (ascii * string) :=
  match l with
  | [] => []
  | u :: r => if space_unit u then drop_spaces r else l
  end.

Fixpoint join_units (l : list (ascii * string)) : string :=
  match l with
  | [] => EmptyString
  | u :: r => String (fst u) (snd u ++ join_units r)
  end.

Definition strip (s : string) : string :=
  join_units (rev (drop_spaces (rev (drop_spaces (units s))))).

(** The code points of a UTF-8 string. *)
Fixpoint code_points (s : string) : list N :=
  match s with
  | EmptyString => []
  | String c0 r0 =>
      let b0 := N_of_ascii c0 in
      if (b0 <? 192)%N then b0 :: code_points r0
      else
        match r0 with
        | EmptyString => [b0]
        | String c1 r1 =>
            let b1 := (N_of_ascii c1 mod 64)%N in
            if (b0 <? 224)%N then ((b0 mod 32) * 64 + b1)%N :: code_points r1
            else
              match r1 with
              | EmptyString => [b0]
              | String c2 r2 =>
                  let b2 := (N_of_ascii c2 mod 64)%N in
                  if (b0 <? 240)%N
                  then ((b0 mod 16) * 4096 + b1 * 64 + b2)%N :: code_points r2
                  else
                    match r2 with
                    | EmptyString => [b0]
                    | String c3 r3 =>
                        let b3 := (N_of_ascii c3 mod 64)%N in
                        ((b0 mod 8) * 262144 + b1 * 4096 + b2 * 64 + b3)%N
                          :: code_points r3
                    end
              end
        end
  end.

Fixpoint join (sep : string) (l : list string) : string :=
  match l with
  | [] => EmptyString
  | [x] => x
  | x :: r => x ++ sep ++ join sep r
  end.

(** [repr(s)] for a string without quotes, backslashes or control
    characters: the text between single quotes. *)
Definition repr_str (s : string) : string := "'" ++ s ++ "'".

(** [repr(v)]; a float is shown by the literal it was read from. *)
Fixpoint repr (v : pyval) : string :=
  match v with
  | PNone => "None"
  | PBool true => "True"
  | PBool false => "False"
  | PInt z => str_of_Z z
  | PFloat lexeme => lexeme
  | PStr s => repr_str s
  | PList items => "[" ++ join ", " (map repr items) ++ "]"
  | PDict items =>
      "{" ++ join ", "
               (map (fun kv => repr_str (fst kv) ++ ": " ++ repr (snd kv)) items)
          ++ "}"
  end.

(** [str(v)], what an f-string field shows: to the letter for [None],
    booleans, integers and texts.  A float is shown by its literal, which
    is Python's form only when the literal is the shortest one ([1.5], not
    [1.50] or [1e5]), and a text inside a list or a dictionary is quoted
    as [repr_str] does. *)
Definition str (v : pyval) : string :=
  match v with
  | PStr s => s
  | _ => repr v
  end.

End Text.

Import Text.

(** ** The [json] library *)

(** [json.loads] and [json.dumps] as the scripts use them: [json_loads]
    answers [None] where the library raises [JSONDecodeError]. *)
Class JsonLib : Type := {
  json_loads : string -> option pyval;
  json_dumps : pyval -> string
}.

(** *** A reference implementation

    A recursive-descent reader and a writer that follow the library's
    scanner ([null], [true], [false], [NaN], [Infinity], numbers, strings
    with escapes, arrays, objects; white space is space, tab, line feed and
    carriage return) and its ASCII-only writer with [", "] and [": "]
    separators.  It stands for the library on the texts that stay within
    the interpreter's limits: past its nesting depth the library raises
    [RecursionError], past its limit on the digits of an integer
    [ValueError], and neither is a [JSONDecodeError]. *)

Module RefJson.

Definition dquote : ascii := ascii_of_nat 34.
Definition backslash : ascii := ascii_of_nat 92.

Definition is_ws (c : ascii) : bool :=
  let n := N_of_ascii c in
  ((n =? 32) || (n =? 9) || (n =? 10) || (n =? 13))%N.

Fixpoint skip_ws (s : string) : string :=
  match s with
  | String c r => if is_ws c then skip_ws r else s
  | EmptyString => s
  end.

Definition is_digit (c : ascii) : bool :=
  let n := N_of_ascii c in ((48 <=? n) && (n <=? 57))%N.

Fixpoint span_digits (s : string) : string * string :=
  match s with
  | String c r =>
      if is_digit c
      then let (ds, rest) := span_digits r in (String c ds, rest)
      else (EmptyString, s)
  | EmptyString => (EmptyString, s)
  end.

Fixpoint digits_value (acc : Z) (ds : string) : Z :=
  match ds with
  | String c r => digits_value (10 * acc + Z.of_N (N_of_ascii c - 48)) r
  | EmptyString => acc
  end.

Definition starts_with_digit (s : string) : bool :=
  match s with
  | String c _ => is_digit c
  | EmptyString => false
  end.

(** [0|[1-9][0-9]*] *)
Definition scan_int (s : string) : option (string * string) :=
  match s with
  | String "0" r => Some ("0", r)
  | String c _ => if is_digit c then Some (span_digits s) else None
  | EmptyString => None
  end.

(** [(\.[0-9]+)?] *)
Definition scan_frac (s : string) : string * string :=
  match s with
  | String "." r =>
      if starts_with_digit r
      then let (ds, rest) := span_digits r in ("." ++ ds, rest)
      else (EmptyString, s)
  | _ => (EmptyString, s)
  end.

(** [([eE][-+]?[0-9]+)?] *)
Definition scan_exp (s : string) : string * string :=
  match s with
  | String e r =>
      if (Ascii.eqb e "e" || Ascii.eqb e "E")%bool then
        match r with
        | String sg r' =>
            if ((Ascii.eqb sg "+" || Ascii.eqb sg "-") && starts_with_digit r')%bool
            then let (ds, rest) := span_digits r' in
                 (String e (String sg ds), rest)
            else if is_digit sg
                 then let (ds, rest) := span_digits r in (String e ds, rest)
                 else (EmptyString, s)
        | EmptyString => (EmptyString, s)
        end
      else (EmptyString, s)
  | EmptyString => (EmptyString, s)
  end.

Definition scan_number (s : string) : option (pyval * string) :=
  let (neg, body) :=
    match s with
    | String "-" r => (true, r)
    | _ => (false, s)
    end in
  match scan_int body with
  | None => None
  | Some (ip, r0) =>
      let (fp, r1) := scan_frac r0 in
      let (ep, r2) := scan_exp r1 in
      let sign := if neg then "-" else EmptyString in
      match fp, ep with
      | EmptyString, EmptyString =>
          Some (PInt (if neg then - digits_value 0 ip else digits_value 0 ip), r2)
      | _, _ => Some (PFloat (sign ++ ip ++ fp ++ ep), r2)
      end
  end.

Definition hex_val (c : ascii) : option N :=
  let n := N_of_ascii c in
  if ((48 <=? n) && (n <=? 57))%N then Some (n - 48)%N
  else if ((97 <=? n) && (n <=? 102))%N then Some (n - 87)%N
  else if ((65 <=? n) && (n <=? 70))%N then Some (n - 55)%N
  else None.

Definition hex4 (a b c d : ascii) : option N :=
  match hex_val a, hex_val b, hex_val c, hex_val d with
  | Some x, Some y, Some z, Some w => Some (x * 4096 + y * 256 + z * 16 + w)%N
  | _, _, _, _ => None
  end.

Definition is_high_surrogate (n : N) : bool := ((55296 <=? n) && (n <=? 56319))%N.
Definition is_low_surrogate (n : N) : bool := ((56320 <=? n) && (n <=? 57343))%N.

(** One more piece of text in front of what the rest of a literal gives. *)
Definition attach (t : string) (k : option (string * string))
  : option (string * string) :=
  match k with
  | Some (body, rest) => Some (t ++ body, rest)
  | None => None
  end.

(** The body of a string literal, after the opening quote; control
    characters are refused. *)
Fixpoint scan_string (s : string) : option (string * string) :=
  match s with
  | EmptyString => None
  | String c r =>
      if Ascii.eqb c dquote then Some (EmptyString, r)
      else if Ascii.eqb c backslash then
        match r with
        | EmptyString => None
        | String e r' =>
            let one (n : N) := attach (String (chr n) EmptyString) (scan_string r') in
            if Ascii.eqb e dquote then one 34%N
            else if Ascii.eqb e backslash then one 92%N
            else if Ascii.eqb e "/" then one 47%N
            else if Ascii.eqb e "b" then one 8%N
            else if Ascii.eqb e "f" then one 12%N
            else if Ascii.eqb e "n" then one 10%N
            else if Ascii.eqb e "r" then one 13%N
            else if Ascii.eqb e "t" then one 9%N
            else if Ascii.eqb e "u" then
              match r' with
              | String h1 (String h2 (String h3 (String h4 r4))) =>
                  match hex4 h1 h2 h3 h4 with
                  | None => None
                  | Some u =>
                      let single := attach (encode_code_point u) (scan_string r4) in
                      if is_high_surrogate u then
                        match r4 with
                        | String b (String "u"
                            (String l1 (String l2 (String l3 (String l4 r8))))) =>
                            match hex4 l1 l2 l3 l4 with
                            | Some u2 =>
                                if Ascii.eqb b backslash && is_low_surrogate u2
                                then attach (encode_code_point
                                             (65536 + (u - 55296) * 1024
                                              + (u2 - 56320))%N)
                                          (scan_string r8)
                                else single
                            | None => single
                            end
                        | _ => single
                        end
                      else single
                  end
              | _ => None
              end
            else None
        end
      else if (N_of_ascii c <? 32)%N then None
      else attach (String c EmptyString) (scan_string r)
  end.

Fixpoint strip_prefix (p s : string) : option string :=
  match p, s with
  | EmptyString, _ => Some s
  | String a p', String b s' => if Ascii.eqb a b then strip_prefix p' s' else None
  | String _ _, EmptyString => None
  end.

Definition dict_of_pairs (kvs : list (string * pyval)) : list (string * pyval) :=
  fold_left (fun d kv => dict_set d (fst kv) (snd kv)) kvs [].

Definition scan_literal (s : string) : option (pyval * string) :=
  match strip_prefix "null" s with
  | Some r => Some (PNone, r)
  | None =>
  match strip_prefix "true" s with
  | Some r => Some (PBool true, r)
  | None =>
  match strip_prefix "false" s with
  | Some r => Some (PBool false, r)
  | None =>
  match scan_number s with
  | Some res => Some res
  | None =>
  match strip_prefix "NaN" s with
  | Some r => Some (PFloat "nan", r)
  | None =>
  match strip_prefix "Infinity" s with
  | Some r => Some (PFloat "inf", r)
  | None =>
  match strip_prefix "-Infinity" s with
  | Some r => Some (PFloat "-inf", r)
  | None => None
  end end end end end end end.

Fixpoint scan_value (fuel : nat) (s : string) {struct fuel}
  : option (pyval * string) :=
  match fuel with
  | O => None
  | S f =>
      match s with
      | String "{" r =>
          match skip_ws r with
          | String "}" rest => Some (PDict [], rest)
          | r' =>
              match scan_members f r' with
              | Some (kvs, rest) => Some (PDict (dict_of_pairs kvs), rest)
              | None => None
              end
          end
      | String "[" r =>
          match skip_ws r with
          | String "]" rest => Some (PList [], rest)
          | r' =>
              match scan_elements f r' with
              | Some (vs, rest) => Some (PList vs, rest)
              | None => None
              end
          end
      | String c r =>
          if Ascii.eqb c dquote then
            match scan_string r with
            | Some (t, rest) => Some (PStr t, rest)
            | None => None
            end
          else scan_literal s
      | EmptyString => None
      end
  end

with scan_elements (fuel : nat) (s : string) {struct fuel}
  : option (list pyval * string) :=
  match fuel with
  | O => None
  | S f =>
      match scan_value f s with
      | None => None
      | Some (v, r) =>
          match skip_ws r with
          | String "]" rest => Some ([v], rest)
          | String "," r' =>
              match scan_elements f (skip_ws r') with
              | Some (vs, rest) => Some (v :: vs, rest)
              | None => None
              end
          | _ => None
          end
      end
  end

with scan_members (fuel : nat) (s : string) {struct fuel}
  : option (list (string * pyval) * string) :=
  match fuel with
  | O => None
  | S f =>
      match s with
      | String c r =>
          if negb (Ascii.eqb c dquote) then None else
          match scan_string r with
          | None => None
          | Some (k, r0) =>
              match skip_ws r0 with
              | String ":" r1 =>
                  match scan_value f (skip_ws r1) with
                  | None => None
                  | Some (v, r2) =>
                      match skip_ws r2 with
                      | String "}" rest => Some ([(k, v)], rest)
                      | String "," r3 =>
                          match scan_members f (skip_ws r3) with
                          | Some (kvs, rest) => Some ((k, v) :: kvs, rest)
                          | None => None
                          end
                      | _ => None
                      end
                  end
              | _ => None
              end
          end
      | EmptyString => None
      end
  end.

(** [json.loads(s)]: one value, white space around it, nothing else. *)
Definition loads (s : string) : option pyval :=
  match scan_value (2 * String.length s + 2) (skip_ws s) with
  | Some (v, rest) =>
      match skip_ws rest with
      | EmptyString => Some v
      | _ => None
      end
  | None => None
  end.

Definition hex_digit (n : N) : ascii :=
  if (n <? 10)%N then chr (48 + n) else chr (87 + n).

(** [\uXXXX] with lower-case digits. *)
Definition u_escape (n : N) : string :=
  String backslash (String "u"
    (String (hex_digit (n / 4096))
       (String (hex_digit ((n / 256) mod 16))
          (String (hex_digit ((n / 16) mod 16))
             (String (hex_digit (n mod 16)) EmptyString))))).

Definition escape_code_point (n : N) : string :=
  if (n =? 34)%N then String backslash (String dquote EmptyString)
  else if (n =? 92)%N then String backslash (String backslash EmptyString)
  else if (n =? 10)%N then String backslash "n"
  else if (n =? 13)%N then String backslash "r"
  else if (n =? 9)%N then String backslash "t"
  else if (n =? 8)%N then String backslash "b"
  else if (n =? 12)%N then String backslash "f"
  else if ((32 <=? n) && (n <=? 126))%N then String (chr n) EmptyString
  else if (n <? 65536)%N then u_escape n
  else u_escape (55296 + (n - 65536) / 1024)
         ++ u_escape (56320 + (n - 65536) mod 1024).

(** The text of a string between its quotes. *)
Definition escape (s : string) : string :=
  String.concat EmptyString (map escape_code_point (code_points s)).

Definition dumps_str (s : string) : string :=
  String dquote (escape s) ++ String dquote EmptyString.

(** One member of an object whose values are strings. *)
Definition member_text (kv : string * string) : string :=
  dumps_str (fst kv) ++ ": " ++ dumps_str (snd kv).

Fixpoint dumps (v : pyval) : string :=
  match v with
  | PNone => "null"
  | PBool true => "true"
  | PBool false => "false"
  | PInt z => str_of_Z z
  | PFloat lexeme => lexeme
  | PStr s => dumps_str s
  | PList items => "[" ++ join ", " (map dumps items) ++ "]"
  | PDict items =>
      "{" ++ join ", "
               (map (fun kv => dumps_str (fst kv) ++ ": " ++ dumps (snd kv)) items)
          ++ "}"
  end.

End RefJson.

#[export] Instance ref_json : JsonLib :=
  {| json_loads := RefJson.loads; json_dumps := RefJson.dumps |}.

(** ** Logging *)

Module Logging.

Inductive level : Type := DEBUG | INFO | ERROR.

(** One call of a [logger] method: its level and the formatted text. *)
Definition entry : Type := level * string.

End Logging.

Import Logging.

(** A fault of the client library or the network: the class of the
    exception that the call raises and its text. *)
Definition fault : Type := exception_class * string.

Definition newline : string := String (ascii_of_nat 10) EmptyString.

(** ** producer.py *)

Module Producer.

Import Config.

(** What the broker makes of one queued record by the time [flush]
    returns. *)
Inductive delivery : Type :=
| Delivered (partition offset : Z)
| DeliveryFailed (err : string)
| Unacknowledged.

(** The transport as the endpoint meets it: [produce] may refuse a
    record on the spot; [flush] serves the delivery reports. *)
Record transport : Type := {
  produce_fault : string -> string -> option fault;
  report : string -> string -> delivery
}.

(** The record handed to the delivery callback. *)
Record KafkaMessage : Type := {
  km_topic : string;
  km_partition : Z;
  km_offset : Z
}.

Record world : Type := {
  log : list entry;
  produce_calls : list (string * string);
  flush_calls : nat;
  queue : list (string * string)
}.

Definition initial : world :=
  {| log := []; produce_calls := []; flush_calls := 0; queue := [] |}.

Definition logger (lv : level) (text : string) : M world unit :=
  modify (fun w =>
    {| log := log w ++ [(lv, text)];
       produce_calls := produce_calls w;
       flush_calls := flush_calls w;
       queue := queue w |}).

Record request : Type := { args : list (string * string) }.

(** [request.args.get(key)] *)
Definition args_get (req : request) (key : string) : option string :=
  dict_get (args req) key.

Record response : Type := { body : pyval; status : Z }.

(** [jsonify(d)]: a response with the default status. *)
Definition jsonify (d : dict) : response := {| body := PDict d; status := 200 |}.

(** [return resp, code] *)
Definition with_status (r : response) (code : Z) : response :=
  {| body := body r; status := code |}.

Definition unwrap (s : option string) : string :=
  match s with Some t => t | None => EmptyString end.

Definition delivery_callback (err : option string) (msg : KafkaMessage)
  : M world unit :=
  match err with
  | Some e => logger ERROR ("Message delivery failed: " ++ e)
  | None =>
      logger INFO ("Message delivered to " ++ km_topic msg
                   ++ " [" ++ str_of_Z (km_partition msg) ++ "] at offset "
                   ++ str_of_Z (km_offset msg))
  end.

Section Endpoint.

Context {json : JsonLib}.
Variable env : environ.
Variable net : transport.

(** [producer.produce(topic=..., value=..., callback=delivery_callback)] *)
Definition producer_produce (topic value : string) : M world unit :=
  modify (fun w =>
    {| log := log w;
       produce_calls := produce_calls w ++ [(topic, value)];
       flush_calls := flush_calls w;
       queue := queue w |}) ;;
  match produce_fault net topic value with
  | Some (c, m) => raise (Exception c m)
  | None =>
      modify (fun w =>
        {| log := log w;
           produce_calls := produce_calls w;
           flush_calls := flush_calls w;
           queue := queue w ++ [(topic, value)] |})
  end.

(** Serving the queue: every reported record has its callback called
    and leaves the queue; the others stay. *)
Fixpoint serve (q : list (string * string)) : M world (list (string * string)) :=
  match q with
  | [] => ret []
  | (t, v) :: r =>
      match report net t v with
      | Delivered p o =>
          delivery_callback None
            {| km_topic := t; km_partition := p; km_offset := o |} ;;
          serve r
      | DeliveryFailed e =>
          delivery_callback (Some e)
            {| km_topic := t; km_partition := -1; km_offset := -1001 |} ;;
          serve r
      | Unacknowledged =>
          rest <- serve r ;;
          ret ((t, v) :: rest)
      end
  end.

(** [producer.flush(timeout=...)]: the number of records still queued
    when the timeout has passed. *)
Definition producer_flush (timeout : Z) : M world nat :=
  q <- gets queue ;;
  rest <- serve q ;;
  modify (fun w =>
    {| log := log w;
       produce_calls := produce_calls w;
       flush_calls := S (flush_calls w);
       queue := rest |}) ;;
  ret (List.length rest).

(** [GET /produce]; [now] is [datetime.now().isoformat()]. *)
Definition produce_message (req : request) (now : string) : M world response :=
  try_except
    (let topic := args_get req "topic" in
     let message := args_get req "msg" in
     if negb (truthy topic) then
       ret (with_status
              (jsonify [ ("success", PBool false);
                         ("error", PStr "Topic parameter is required") ])
              400)
     else if negb (truthy message) then
       ret (with_status
              (jsonify [ ("success", PBool false);
                         ("error", PStr "Message parameter is required") ])
              400)
     else
       let topic := unwrap topic in
       let message := unwrap message in
       let message_data :=
         [ ("message", PStr message);
           ("timestamp", PStr now);
           ("environment", PStr (get_environment env)) ] in
       let message_json := json_dumps (PDict message_data) in
       producer_produce topic message_json ;;
       _ <- producer_flush 10 ;;
       logger INFO ("Successfully produced message to topic: " ++ topic) ;;
       ret (jsonify [ ("success", PBool true);
                      ("message", PStr "Message produced successfully");
                      ("topic", PStr topic);
                      ("data", PDict message_data) ]))
    (except_Exception (fun _ e =>
       logger ERROR ("Error producing message: " ++ e) ;;
       ret (with_status
              (jsonify [ ("success", PBool false);
                         ("error", PStr ("Failed to produce message: " ++ e)) ])
              500))).

(** [GET /health] *)
Definition health_check : response :=
  jsonify [ ("status", PStr "healthy");
            ("environment", PStr (get_environment env));
            ("kafka_config", PDict (get_kafka_config env)) ].

(** [GET /] *)
Definition index : response :=
  jsonify
    [ ("message", PStr "Kafka Producer API");
      ("endpoints",
        PDict [ ("produce", PStr "GET /produce?topic=<topic_name>&msg=<message>");
                ("health", PStr "GET /health") ]);
      ("example",
        PStr "GET /produce?topic=payments&msg=Payment processed for order 123") ].

End Endpoint.

(** A response reports success when its body says [success: True]. *)
Definition is_success (r : response) : bool :=
  match body r with
  | PDict d =>
      match dict_get d "success" with
      | Some (PBool true) => true
      | _ => false
      end
  | _ => false
  end.

Definition has_error_message (r : response) : bool :=
  match body r with
  | PDict d =>
      match dict_get d "error" with
      | Some (PStr _) => true
      | _ => false
      end
  | _ => false
  end.

End Producer.

(** ** consumer.py *)

Module Consumer.

Import Config.

Record KafkaError : Type := { code : Z; reason : string }.

(** [KafkaError._PARTITION_EOF] *)
Definition _PARTITION_EOF : Z := -191.

(** What [poll] hands back: a record, or an event that carries an
    error.  A record without a payload has [value = None]. *)
Record Message : Type := {
  topic : string;
  partition : Z;
  offset : Z;
  value : option bytes;
  error : option KafkaError
}.

(** One call of [consumer.poll(timeout=1.0)] as the loop meets it. *)
Inductive poll_event : Type :=
| Idle                                   (* the wait times out: [None] *)
| Polled (msg : Message)
| Interrupted                            (* Ctrl+C during the wait *)
| Faulted (f : fault).                   (* [poll] raises *)

(** Faults of the client handle outside [poll]. *)
Record client : Type := {
  create_fault : option fault;
  subscribe_fault : option fault;
  close_fault : option fault
}.

(** The world of one run.  [message_count] and [consumer_bound] are the
    locals of [consume_messages] that its handlers read; [sigint] is the
    number of [print] calls that still complete before a pending Ctrl+C
    is delivered ([None]: no signal pending). *)
Record world : Type := {
  stdout : list string;
  log : list entry;
  sigint : option nat;
  opened : nat;
  subscriptions : list (list string);
  closes : nat;
  consumer_bound : bool;
  message_count : nat
}.

Definition start (signal : option nat) : world :=
  {| stdout := []; log := []; sigint := signal; opened := 0;
     subscriptions := []; closes := 0; consumer_bound := false;
     message_count := 0 |}.

Definition set_stdout (f : list string -> list string) (w : world) : world :=
  {| stdout := f (stdout w); log := log w; sigint := sigint w;
     opened := opened w; subscriptions := subscriptions w; closes := closes w;
     consumer_bound := consumer_bound w; message_count := message_count w |}.

Definition set_log (f : list entry -> list entry) (w : world) : world :=
  {| stdout := stdout w; log := f (log w); sigint := sigint w;
     opened := opened w; subscriptions := subscriptions w; closes := closes w;
     consumer_bound := consumer_bound w; message_count := message_count w |}.

Definition set_sigint (s : option nat) (w : world) : world :=
  {| stdout := stdout w; log := log w; sigint := s;
     opened := opened w; subscriptions := subscriptions w; closes := closes w;
     consumer_bound := consumer_bound w; message_count := message_count w |}.

Definition set_message_count (n : nat) (w : world) : world :=
  {| stdout := stdout w; log := log w; sigint := sigint w;
     opened := opened w; subscriptions := subscriptions w; closes := closes w;
     consumer_bound := consumer_bound w; message_count := n |}.

Definition logger (lv : level) (text : string) : M world unit :=
  modify (set_log (fun l => (l ++ [(lv, text)])%list)).

(** Delivery of a pending Ctrl+C at a [print]. *)
Definition checkpoint : M world unit :=
  fun w =>
    match sigint w with
    | None => (Ret tt, w)
    | Some O => (Raise KeyboardInterrupt, set_sigint None w)
    | Some (S k) => (Ret tt, set_sigint (Some k) w)
    end.

(** [print(line)]: the output stream is taken to accept every text it is
    given, as a UTF-8 terminal does for well-formed texts. *)
Definition print (line : string) : M world unit :=
  checkpoint ;;
  modify (set_stdout (fun out => (out ++ [line])%list)).

(** [sys.exit(code)] *)
Definition sys_exit {A} (status : Z) : M world A := raise (SystemExit status).

Definition type_name (v : pyval) : string :=
  match v with
  | PNone => "NoneType"
  | PBool _ => "bool"
  | PInt _ => "int"
  | PFloat _ => "float"
  | PStr _ => "str"
  | PList _ => "list"
  | PDict _ => "dict"
  end.

(** [v.get(key, default)]: a method of [dict] only. *)
Definition method_get (v : pyval) (key : string) (default : pyval)
  : M world pyval :=
  match v with
  | PDict d => ret (get_default d key default)
  | _ => raise (Exception AttributeError
                  ("'" ++ type_name v ++ "' object has no attribute 'get'"))
  end.

(** [msg.value().decode('utf-8')]; the texts of the exceptions are
    shortened. *)
Definition value_decode (msg : Message) : M world string :=
  match value msg with
  | None => raise (Exception AttributeError
                     "'NoneType' object has no attribute 'decode'")
  | Some b =>
      match decode_utf8 b with
      | Some text => ret text
      | None => raise (Exception UnicodeDecodeError
                         "'utf-8' codec can't decode bytes")
      end
  end.

Definition separator : string := repeat_str "-" 60.

Section Loop.

Context {json : JsonLib}.
Variable env : environ.
Variable lib : client.

(** [json.loads(text)] *)
Definition loads (text : string) : M world pyval :=
  match json_loads text with
  | Some v => ret v
  | None => raise (Exception JSONDecodeError "Expecting value")
  end.

Definition header (msg : Message) : M world unit :=
  n <- gets message_count ;;
  print ("📨 Message #" ++ str_of_nat n) ;;
  print ("   Topic: " ++ topic msg) ;;
  print ("   Partition: " ++ str_of_Z (partition msg)) ;;
  print ("   Offset: " ++ str_of_Z (offset msg)).

(** The structured rendering: the body of the inner [try]. *)
Definition render_json (msg : Message) : M world unit :=
  text <- value_decode msg ;;
  message_data <- loads text ;;
  header msg ;;
  ts <- method_get message_data "timestamp" (PStr "N/A") ;;
  print ("   Timestamp: " ++ str ts) ;;
  en <- method_get message_data "environment" (PStr "N/A") ;;
  print ("   Environment: " ++ str en) ;;
  content <- method_get message_data "message" (PStr "N/A") ;;
  print ("   Content: " ++ str content) ;;
  print separator.

(** The fallback rendering: the [except json.JSONDecodeError] clause. *)
Definition render_raw (msg : Message) : M world unit :=
  header msg ;;
  text <- value_decode msg ;;
  print ("   Content: " ++ text) ;;
  print separator.

(** "Process the message". *)
Definition process (msg : Message) : M world unit :=
  n <- gets message_count ;;
  modify (set_message_count (n + 1)) ;;
  try_except (render_json msg)
    (fun e =>
       match e with
       | Exception JSONDecodeError _ => Some (render_raw msg)
       | _ => None
       end).

Definition consumer_poll (ev : poll_event) : M world (option Message) :=
  match ev with
  | Idle => ret None
  | Polled msg => ret (Some msg)
  | Interrupted => raise KeyboardInterrupt
  | Faulted (c, m) => raise (Exception c m)
  end.

(** One turn of [while True]. *)
Definition iteration (ev : poll_event) : M world unit :=
  polled <- consumer_poll ev ;;
  match polled with
  | None => ret tt
  | Some msg =>
      match error msg with
      | Some err =>
          if (code err =? _PARTITION_EOF)%Z then
            logger DEBUG ("End of partition reached for " ++ topic msg
                          ++ " [" ++ str_of_Z (partition msg) ++ "]")
          else
            logger ERROR ("Consumer error: " ++ reason err)
      | None => process msg
      end
  end.

(** [while True: ...] against the scripted polls; the loop is still
    [Running] when the script ends. *)
Fixpoint poll_loop (script : list poll_event) : M world unit :=
  match script with
  | [] => fun w => (Running, w)
  | ev :: rest => iteration ev ;; poll_loop rest
  end.

(** [Consumer(config)]: binds the local [consumer]. *)
Definition Consumer_new (config : dict) : M world unit :=
  match create_fault lib with
  | Some (c, m) => raise (Exception c m)
  | None =>
      modify (fun w =>
        {| stdout := stdout w; log := log w; sigint := sigint w;
           opened := S (opened w); subscriptions := subscriptions w;
           closes := closes w; consumer_bound := true;
           message_count := message_count w |})
  end.

Definition consumer_subscribe (topics : list string) : M world unit :=
  match subscribe_fault lib with
  | Some (c, m) => raise (Exception c m)
  | None =>
      modify (fun w =>
        {| stdout := stdout w; log := log w; sigint := sigint w;
           opened := opened w; subscriptions := subscriptions w ++ [topics];
           closes := closes w; consumer_bound := consumer_bound w;
           message_count := message_count w |})
  end.

Definition consumer_close : M world unit :=
  modify (fun w =>
    {| stdout := stdout w; log := log w; sigint := sigint w;
       opened := opened w; subscriptions := subscriptions w;
       closes := S (closes w); consumer_bound := consumer_bound w;
       message_count := message_count w |}) ;;
  match close_fault lib with
  | Some (c, m) => raise (Exception c m)
  | None => ret tt
  end.

Definition consumer_settings : dict :=
  [ ("group.id", PStr "kafka-learn-consumer-group");
    ("enable.auto.commit", PBool true);
    ("auto.commit.interval.ms", PInt 1000);
    ("session.timeout.ms", PInt 30000);
    ("max.poll.interval.ms", PInt 300000) ].

(** The clause [except KeyboardInterrupt:] around the loop. *)
Definition on_interrupt : exn -> option (M world unit) :=
  fun e =>
    match e with
    | KeyboardInterrupt =>
        Some (print (newline ++ newline ++ "🛑 Consumer stopped by user") ;;
              n <- gets message_count ;;
              print ("📊 Total messages consumed: " ++ str_of_nat n))
    | _ => None
    end.

(** The clause [except Exception as e:] of the function. *)
Definition on_exception : exn -> option (M world unit) :=
  except_Exception (fun _ e =>
    logger ERROR ("Error in consumer: " ++ e) ;;
    print ("❌ Error: " ++ e) ;;
    sys_exit 1).

(** The [finally:] block: [if 'consumer' in locals(): ...]. *)
Definition cleanup : M world unit :=
  bound <- gets consumer_bound ;;
  if bound then
    consumer_close ;;
    logger INFO "Consumer closed"
  else ret tt.

Definition consume_messages (topic_name : string) (script : list poll_event)
  : M world unit :=
  try_finally
    (try_except
       (let kafka_config := get_kafka_config env in
        let consumer_config := dict_update kafka_config consumer_settings in
        Consumer_new consumer_config ;;
        logger INFO ("Starting consumer for topic: " ++ topic_name) ;;
        logger INFO ("Environment: " ++ get_environment env) ;;
        logger INFO ("Kafka config: " ++ repr (PDict kafka_config)) ;;
        consumer_subscribe [topic_name] ;;
        print (newline ++ "🚀 Consumer started! Listening to topic: '"
               ++ topic_name ++ "'") ;;
        print ("Press Ctrl+C to stop the consumer" ++ newline) ;;
        print separator ;;
        modify (set_message_count 0) ;;
        try_except (poll_loop script) on_interrupt)
       on_exception)
    cleanup.

(** [main()] with [sys.argv]. *)
Definition main (argv : list string) (script : list poll_event) : M world unit :=
  if negb (List.length argv =? 2)%nat then
    print "Usage: python consumer.py <topic_name>" ;;
    print (newline ++ "Example:") ;;
    print "  python consumer.py payments" ;;
    print "  python consumer.py orders" ;;
    print "  python consumer.py logs" ;;
    sys_exit 1
  else
    let topic_name := nth 1 argv EmptyString in
    if negb (truthy (Some topic_name)) || negb (truthy (Some (strip topic_name)))
    then
      print "❌ Error: Topic name cannot be empty" ;;
      sys_exit 1
    else consume_messages (strip topic_name) script.

End Loop.

End Consumer.

(** ** diagnose_kafka.py *)

Module Diagnose.

(** The network and the broker as the probes meet them.  [connect_ex]
    answers an error number, or raises; the other calls succeed or
    raise. *)
Record network : Type := {
  connect_ex : string -> Z -> Z + fault;
  tls_connect : string -> Z -> option fault;
  new_producer : dict -> option fault;
  list_topics : dict -> list string + fault;
  close_producer : dict -> option fault
}.

(** An entry of [configs_to_test]. *)
Record config_test : Type := { name : string; config : dict }.

(** The world of one run: what was printed, how often each socket probe
    ran, and the configurations a producer handle was opened with. *)
Record world : Type := {
  stdout : list string;
  tcp_probes : nat;
  ssl_probes : nat;
  attempts : list dict
}.

Definition start : world :=
  {| stdout := []; tcp_probes := 0; ssl_probes := 0; attempts := [] |}.

Definition print (line : string) : M world unit :=
  modify (fun w =>
    {| stdout := (stdout w ++ [line])%list; tcp_probes := tcp_probes w;
       ssl_probes := ssl_probes w; attempts := attempts w |}).

Definition raise_fault {A} (f : fault) : M world A :=
  raise (Exception (fst f) (snd f)).

Section Probes.

Variable net : network.

(** [sock.connect_ex((host, port))] *)
Definition sock_connect_ex (host : string) (port : Z) : M world Z :=
  modify (fun w =>
    {| stdout := stdout w; tcp_probes := S (tcp_probes w);
       ssl_probes := ssl_probes w; attempts := attempts w |}) ;;
  match connect_ex net host port with
  | inl errno => ret errno
  | inr f => raise_fault f
  end.

Definition test_connection (host : string) (port : Z) : M world bool :=
  try_except
    (result <- sock_connect_ex host port ;;
     ret (result =? 0)%Z)
    (except_Exception (fun _ e =>
       print ("Connection test failed: " ++ e) ;;
       ret false)).

(** [ssl_sock.connect((host, port))] *)
Definition ssl_sock_connect (host : string) (port : Z) : M world unit :=
  modify (fun w =>
    {| stdout := stdout w; tcp_probes := tcp_probes w;
       ssl_probes := S (ssl_probes w); attempts := attempts w |}) ;;
  match tls_connect net host port with
  | None => ret tt
  | Some f => raise_fault f
  end.

Definition test_ssl_connection (host : string) (port : Z) : M world bool :=
  try_except
    (ssl_sock_connect host port ;;
     ret true)
    (except_Exception (fun _ e =>
       print ("SSL connection test failed: " ++ e) ;;
       ret false)).

(** [Producer(config)] *)
Definition Producer_new (cfg : dict) : M world unit :=
  modify (fun w =>
    {| stdout := stdout w; tcp_probes := tcp_probes w;
       ssl_probes := ssl_probes w;
       attempts := (attempts w ++ [cfg])%list |}) ;;
  match new_producer net cfg with
  | None => ret tt
  | Some f => raise_fault f
  end.

(** [producer.list_topics(timeout=10)]: the keys of [metadata.topics]. *)
Definition producer_list_topics (cfg : dict) : M world (list string) :=
  match list_topics net cfg with
  | inl topics => ret topics
  | inr f => raise_fault f
  end.

Definition producer_close (cfg : dict) : M world unit :=
  match close_producer net cfg with
  | None => ret tt
  | Some f => raise_fault f
  end.

Fixpoint print_each (pre : string) (l : list string) : M world unit :=
  match l with
  | [] => ret tt
  | x :: r => print (pre ++ x) ;; print_each pre r
  end.

Definition test_kafka_config (cfg : dict) (config_name : string) : M world bool :=
  print (newline ++ "🔍 Testing " ++ config_name ++ " configuration:") ;;
  print ("   Config: " ++ repr (PDict cfg)) ;;
  try_except
    (Producer_new cfg ;;
     topics <- producer_list_topics cfg ;;
     print ("   ✅ Success! Found " ++ str_of_nat (List.length topics) ++ " topics") ;;
     match topics with
     | _ :: _ =>
         print "   📋 Available topics:" ;;
         print_each "      - " (firstn 5 topics)
     | [] =>
         print "   📋 No topics found (this is normal for a fresh Kafka setup)"
     end ;;
     producer_close cfg ;;
     ret true)
    (except_Exception (fun _ e =>
       print ("   ❌ Failed: " ++ e) ;;
       ret false)).

Definition plaintext_current (host : string) (port : Z) : config_test :=
  {| name := "PLAINTEXT (current)";
     config :=
       [ ("bootstrap.servers", PStr (host ++ ":" ++ str_of_Z port));
         ("security.protocol", PStr "PLAINTEXT");
         ("api.version.request", PBool true);
         ("api.version.fallback.ms", PInt 0);
         ("broker.version.fallback", PStr "0.10.0.0") ] |}.

Definition plaintext_no_api (host : string) (port : Z) : config_test :=
  {| name := "PLAINTEXT (no API version request)";
     config :=
       [ ("bootstrap.servers", PStr (host ++ ":" ++ str_of_Z port));
         ("security.protocol", PStr "PLAINTEXT");
         ("api.version.request", PBool false) ] |}.

Definition plaintext_timeout (host : string) (port : Z) : config_test :=
  {| name := "PLAINTEXT (with timeout)";
     config :=
       [ ("bootstrap.servers", PStr (host ++ ":" ++ str_of_Z port));
         ("security.protocol", PStr "PLAINTEXT");
         ("api.version.request", PBool true);
         ("api.version.fallback.ms", PInt 0);
         ("broker.version.fallback", PStr "0.10.0.0");
         ("socket.timeout.ms", PInt 10000);
         ("metadata.request.timeout.ms", PInt 10000) ] |}.

Definition ssl_variant (host : string) (port : Z) : config_test :=
  {| name := "SSL";
     config :=
       [ ("bootstrap.servers", PStr (host ++ ":" ++ str_of_Z port));
         ("security.protocol", PStr "SSL");
         ("api.version.request", PBool true);
         ("api.version.fallback.ms", PInt 0);
         ("broker.version.fallback", PStr "0.10.0.0") ] |}.

(** The list built in [main], with the SSL entry appended when the
    SSL probe succeeded. *)
Definition configs_to_test (host : string) (port : Z) (ssl_available : bool)
  : list config_test :=
  ([ plaintext_current host port;
     plaintext_no_api host port;
     plaintext_timeout host port ]
   ++ (if ssl_available then [ssl_variant host port] else []))%list.

(** [for config_test in configs_to_test: ...] with the running value
    of [successful_configs]. *)
Fixpoint try_configs (todo successful : list config_test)
  : M world (list config_test) :=
  match todo with
  | [] => ret successful
  | config_test :: rest =>
      ok <- test_kafka_config (config config_test) (name config_test) ;;
      try_configs rest
        (if ok then (successful ++ [config_test])%list else successful)
  end.

Fixpoint print_working (l : list config_test) : M world unit :=
  match l with
  | [] => ret tt
  | c :: r =>
      print ("   - " ++ name c) ;;
      print ("     " ++ repr (PDict (config c))) ;;
      print_working r
  end.

(** The "Results" part of [main]. *)
Definition report (successful_configs : list config_test) : M world unit :=
  print (newline ++ "📊 Results:") ;;
  print (repeat_str "=" 50) ;;
  match successful_configs with
  | best :: _ =>
      print "✅ Working configurations found:" ;;
      print_working successful_configs ;;
      print (newline ++ "💡 Recommended configuration for your config.py:") ;;
      print ("LOCAL_CONFIG = " ++ repr (PDict (config best)))
  | [] =>
      print "❌ No working configurations found" ;;
      print (newline ++ "🔧 Troubleshooting suggestions:") ;;
      print "   1. Check if Kafka is fully started: docker logs <kafka_container>" ;;
      print "   2. Verify the port mapping: docker port <kafka_container>" ;;
      print "   3. Check Kafka broker configuration for listeners" ;;
      print "   4. Try different ports (9093, 9094) if your Kafka uses different mapping"
  end.

(** [main()]; the value returned is [successful_configs] ([None] when
    the run stops after the TCP probe). *)
Definition main : M world (option (list config_test)) :=
  print "🔍 Kafka Connection Diagnostic Tool" ;;
  print (repeat_str "=" 50) ;;
  let host := "localhost" in
  let port := 9092%Z in
  print (newline ++ "1️⃣ Testing basic TCP connection to " ++ host ++ ":"
         ++ str_of_Z port) ;;
  tcp_ok <- test_connection host port ;;
  if tcp_ok then
    print "   ✅ TCP connection successful" ;;
    print (newline ++ "2️⃣ Testing SSL connection to " ++ host ++ ":"
           ++ str_of_Z port) ;;
    ssl_ok <- test_ssl_connection host port ;;
    ssl_available <-
      (if ssl_ok then
         print "   ✅ SSL connection successful" ;; ret true
       else
         print "   ❌ SSL connection failed (this is normal for PLAINTEXT setup)" ;;
         ret false) ;;
    print (newline ++ "3️⃣ Testing different Kafka configurations:") ;;
    successful_configs <-
      try_configs (configs_to_test host port ssl_available) [] ;;
    report successful_configs ;;
    ret (Some successful_configs)
  else
    print "   ❌ TCP connection failed" ;;
    print "   💡 Make sure Kafka is running and accessible on this port" ;;
    ret None.

End Probes.

End Diagnose.

(** ** Notions of the specification and sample inputs *)

Module Spec.

Import Config.

(** The eight spellings that equal [aws] up to letter case. *)
Definition aws_spellings : list string :=
  ["aws"; "awS"; "aWs"; "aWS"; "Aws"; "AwS"; "AWs"; "AWS"].

Definition is_aws_spelling (tag : string) : bool :=
  existsb (String.eqb tag) aws_spellings.

(** A profile has a non-empty broker-address list. *)
Definition has_brokers (cfg : dict) : bool :=
  match bootstrap_servers cfg with
  | Some (PStr (String _ _)) => true
  | _ => false
  end.

(** The cloud profile selected, with the broker-address override set to
    the empty string. *)
Definition env_empty_override : environ :=
  [ ("KAFKA_ENV", "aws"); ("MSK_BOOTSTRAP_SERVERS", EmptyString) ].

Definition env_cloud : environ :=
  [ ("KAFKA_ENV", "AWS"); ("MSK_BOOTSTRAP_SERVERS", "b-1.msk.example:9098") ].

(** A tag that names neither profile. *)
Definition env_staging : environ := [ ("KAFKA_ENV", "staging") ].

(** The tag of the environment: the value of [KAFKA_ENV] as it is given,
    [local] when the variable is absent. *)
Definition environment_tag (env : environ) : string :=
  match dict_get env "KAFKA_ENV" with
  | Some tag => tag
  | None => "local"
  end.

(** The name of a resolved profile: [aws] for the cloud profile, the one
    with a SASL mechanism, and [local] for the other. *)
Definition profile_name (cfg : dict) : string :=
  match dict_get cfg "sasl.mechanism" with
  | Some _ => "aws"
  | None => "local"
  end.

(** The envelope that [produce_message] builds. *)
Definition envelope (msg now environment : string) : dict :=
  [ ("message", PStr msg); ("timestamp", PStr now);
    ("environment", PStr environment) ].

(** The body of the success response. *)
Definition success_body (topic : string) (data : dict) : dict :=
  [ ("success", PBool true);
    ("message", PStr "Message produced successfully");
    ("topic", PStr topic);
    ("data", PDict data) ].

(** A transport that takes every record and reports it as failed. *)
Definition failing_transport : Producer.transport :=
  {| Producer.produce_fault := fun _ _ => None;
     Producer.report := fun _ _ => Producer.DeliveryFailed "Local: Message timed out" |}.

(** A transport that takes every record and never reports on it. *)
Definition silent_transport : Producer.transport :=
  {| Producer.produce_fault := fun _ _ => None;
     Producer.report := fun _ _ => Producer.Unacknowledged |}.

(** A transport that confirms every record. *)
Definition confirming_transport : Producer.transport :=
  {| Producer.produce_fault := fun _ _ => None;
     Producer.report := fun _ _ => Producer.Delivered 0 42 |}.

Definition payments_request : Producer.request :=
  {| Producer.args := [("topic", "payments"); ("msg", "hello")] |}.

Definition no_topic_request : Producer.request :=
  {| Producer.args := [("msg", "hello")] |}.

Definition sample_now : string := "2024-05-01T12:00:00.000001".

(** A step of the diagnostic that only prints: the probe counters and the
    attempts stay, the output grows. *)
Definition only_prints (w w' : Diagnose.world) : Prop :=
  Diagnose.tcp_probes w' = Diagnose.tcp_probes w
  /\ Diagnose.ssl_probes w' = Diagnose.ssl_probes w
  /\ Diagnose.attempts w' = Diagnose.attempts w
  /\ exists more, Diagnose.stdout w' = (Diagnose.stdout w ++ more)%list.

(** The outcome of one attempt of a configuration, read off the network:
    the handle opens, the metadata request answers, the handle closes. *)
Definition probe_ok (net : Diagnose.network) (cfg : dict) : bool :=
  match Diagnose.new_producer net cfg, Diagnose.list_topics net cfg,
        Diagnose.close_producer net cfg with
  | None, inl _, None => true
  | _, _, _ => false
  end.

(** The TCP probe as [test_connection] judges it. *)
Definition tcp_ok (net : Diagnose.network) (host : string) (port : Z) : bool :=
  match Diagnose.connect_ex net host port with
  | inl errno => (errno =? 0)%Z
  | inr _ => false
  end.

(** The SSL probe as [test_ssl_connection] judges it. *)
Definition ssl_ok (net : Diagnose.network) (host : string) (port : Z) : bool :=
  match Diagnose.tls_connect net host port with
  | None => true
  | Some _ => false
  end.

(** A network where nothing listens on the port. *)
Definition unreachable : Diagnose.network :=
  {| Diagnose.connect_ex := fun _ _ => inl 111%Z;
     Diagnose.tls_connect := fun _ _ => Some (OSError, "Connection refused");
     Diagnose.new_producer := fun _ => None;
     Diagnose.list_topics := fun _ => inr (KafkaException, "Local: Broker transport failure");
     Diagnose.close_producer := fun _ => None |}.

(** A plaintext broker that answers only clients that skip the API
    version request: the first variant fails, the second works, the third
    fails. *)
Definition picky_broker : Diagnose.network :=
  {| Diagnose.connect_ex := fun _ _ => inl 0%Z;
     Diagnose.tls_connect := fun _ _ => Some (OSError, "wrong version number");
     Diagnose.new_producer := fun _ => None;
     Diagnose.list_topics := fun cfg =>
       match dict_get cfg "api.version.request" with
       | Some (PBool false) => inl ["payments"; "orders"]
       | _ => inr (KafkaException, "Local: Broker transport failure")
       end;
     Diagnose.close_producer := fun _ => None |}.

(** The consumer handle and the pending signal between two worlds: the
    handle counters and the local [consumer] are the same, and no signal
    has become pending. *)
Definition undisturbed (w w' : Consumer.world) : Prop :=
  Consumer.opened w' = Consumer.opened w
  /\ Consumer.closes w' = Consumer.closes w
  /\ Consumer.consumer_bound w' = Consumer.consumer_bound w
  /\ (Consumer.sigint w = None -> Consumer.sigint w' = None).

(** A computation that leaves the handle alone. *)
Definition framed {A : Type} (m : M Consumer.world A) : Prop :=
  forall w, undisturbed w (snd (m w)).

(** A computation that leaves the handle alone and comes to an end. *)
Definition steady {A : Type} (m : M Consumer.world A) : Prop :=
  forall w, fst (m w) <> Running /\ undisturbed w (snd (m w)).

(** The lines of the fallback rendering of a record. *)
Definition raw_lines (msg : Consumer.Message) (text : string) (n : nat)
  : list string :=
  [ "📨 Message #" ++ str_of_nat n;
    "   Topic: " ++ Consumer.topic msg;
    "   Partition: " ++ str_of_Z (Consumer.partition msg);
    "   Offset: " ++ str_of_Z (Consumer.offset msg);
    "   Content: " ++ text;
    Consumer.separator ].

(** The lines that both renderings start with. *)
Definition header_lines (msg : Consumer.Message) (n : nat) : list string :=
  [ "📨 Message #" ++ str_of_nat n;
    "   Topic: " ++ Consumer.topic msg;
    "   Partition: " ++ str_of_Z (Consumer.partition msg);
    "   Offset: " ++ str_of_Z (Consumer.offset msg) ].

(** The world in which the loop starts, when the run began in [w] with no
    signal pending and the handle was created and subscribed. *)
Definition loop_entry (env : Config.environ) (topic_name : string)
           (w : Consumer.world) : Consumer.world :=
  {| Consumer.stdout :=
       List.app
         (List.app
            (List.app (Consumer.stdout w)
               [ newline ++ "🚀 Consumer started! Listening to topic: '"
                   ++ topic_name ++ "'" ])
            [ "Press Ctrl+C to stop the consumer" ++ newline ])
         [ Consumer.separator ];
     Consumer.log :=
       List.app
         (List.app
            (List.app (Consumer.log w)
               [ (INFO, "Starting consumer for topic: " ++ topic_name) ])
            [ (INFO, "Environment: " ++ Config.get_environment env) ])
         [ (INFO, "Kafka config: " ++ repr (PDict (Config.get_kafka_config env))) ];
     Consumer.sigint := None;
     Consumer.opened := S (Consumer.opened w);
     Consumer.subscriptions := (Consumer.subscriptions w ++ [[topic_name]])%list;
     Consumer.closes := Consumer.closes w;
     Consumer.consumer_bound := true;
     Consumer.message_count := 0 |}.

(** The lines of the structured rendering of a record whose payload reads
    as the dictionary [d]. *)
Definition json_lines (msg : Consumer.Message) (d : dict) (n : nat)
  : list string :=
  [ "📨 Message #" ++ str_of_nat n;
    "   Topic: " ++ Consumer.topic msg;
    "   Partition: " ++ str_of_Z (Consumer.partition msg);
    "   Offset: " ++ str_of_Z (Consumer.offset msg);
    "   Timestamp: " ++ str (get_default d "timestamp" (PStr "N/A"));
    "   Environment: " ++ str (get_default d "environment" (PStr "N/A"));
    "   Content: " ++ str (get_default d "message" (PStr "N/A"));
    Consumer.separator ].

(** The text of the [AttributeError] that [v.get] raises. *)
Definition no_get_text (v : pyval) : string :=
  "'" ++ Consumer.type_name v ++ "' object has no attribute 'get'".

Definition is_dict (v : pyval) : bool :=
  match v with
  | PDict _ => true
  | _ => false
  end.

(** A client library without faults. *)
Definition sound_client : Consumer.client :=
  {| Consumer.create_fault := None;
     Consumer.subscribe_fault := None;
     Consumer.close_fault := None |}.

Definition record_of (payload : bytes) (at_offset : Z) : Consumer.Message :=
  {| Consumer.topic := "payments";
     Consumer.partition := 0;
     Consumer.offset := at_offset;
     Consumer.value := Some payload;
     Consumer.error := None |}.

Definition plain_text_record : Consumer.Message :=
  record_of (encode_utf8 "plain text") 7.

Definition number_record : Consumer.Message :=
  record_of (encode_utf8 "5") 8.

Definition invalid_utf8_record : Consumer.Message :=
  record_of [xff] 9.

End Spec.

Import Spec.

(** ** Further notions: traces of the consumer *)

Module Traces.

(** An event that reaches "Process the message": a polled record without
    an error. *)
Definition is_record (ev : Consumer.poll_event) : bool :=
  match ev with
  | Consumer.Polled msg =>
      match Consumer.error msg with
      | None => true
      | Some _ => false
      end
  | _ => false
  end.

(** The number of records in a script. *)
Definition records (script : list Consumer.poll_event) : nat :=
  List.length (filter is_record script).

(** An event after which the loop polls again without processing
    anything: a timeout, or an error event. *)
Definition quiet_event (ev : Consumer.poll_event) : bool :=
  match ev with
  | Consumer.Idle => true
  | Consumer.Polled msg =>
      match Consumer.error msg with
      | Some _ => true
      | None => false
      end
  | _ => false
  end.

(** What the loop logs for an error event. *)
Definition event_log (ev : Consumer.poll_event) : list Logging.entry :=
  match ev with
  | Consumer.Polled msg =>
      match Consumer.error msg with
      | Some err =>
          if (Consumer.code err =? Consumer._PARTITION_EOF)%Z
          then [ (DEBUG, "End of partition reached for " ++ Consumer.topic msg
                           ++ " [" ++ str_of_Z (Consumer.partition msg) ++ "]") ]
          else [ (ERROR, "Consumer error: " ++ Consumer.reason err) ]
      | None => []
      end
  | _ => []
  end.

(** A computation that leaves the local [message_count] alone. *)
Definition keeps_count {A : Type} (m : M Consumer.world A) : Prop :=
  forall w, Consumer.message_count (snd (m w)) = Consumer.message_count w.

(** [s] is made of white space characters only. *)
Definition blank (s : string) : bool := forallb space_unit (units s).

(** A topic argument that is one no-break space, U+00A0. *)
Definition nbsp_topic : string := encode_code_point 160.

(** The lines of the usage message of [main]. *)
Definition usage_lines : list string :=
  [ "Usage: python consumer.py <topic_name>";
    newline ++ "Example:";
    "  python consumer.py payments";
    "  python consumer.py orders";
    "  python consumer.py logs" ].

(** A timeout, an end-of-partition event and a transport error event. *)
Definition quiet_script : list Consumer.poll_event :=
  [ Consumer.Idle;
    Consumer.Polled
      {| Consumer.topic := "payments"; Consumer.partition := 2;
         Consumer.offset := 10; Consumer.value := None;
         Consumer.error :=
           Some {| Consumer.code := -191; Consumer.reason := "eof" |} |};
    Consumer.Polled
      {| Consumer.topic := "payments"; Consumer.partition := 2;
         Consumer.offset := 0; Consumer.value := None;
         Consumer.error :=
           Some {| Consumer.code := -195;
                   Consumer.reason := "Broker transport failure" |} |} ].

(** A record without a payload. *)
Definition tombstone_record : Consumer.Message :=
  {| Consumer.topic := "payments"; Consumer.partition := 0;
     Consumer.offset := 10; Consumer.value := None; Consumer.error := None |}.

(** What an f-string shows of a value that is [None], a boolean or a
    text of well-formed UTF-8.  The other values (numbers, lists,
    dictionaries, texts that are not well-formed) are left out: [None]. *)
Definition plain_text (v : pyval) : option string :=
  match v with
  | PNone => Some "None"
  | PBool true => Some "True"
  | PBool false => Some "False"
  | PStr s => if utf8_valid (bytes_of s) then Some s else None
  | _ => None
  end.

(** What the structured path shows of the field [key] of a payload:
    [N/A] when the key is absent. *)
Definition field_text (d : dict) (key : string) : option string :=
  match dict_get d key with
  | None => Some "N/A"
  | Some v => plain_text v
  end.

(** A payload without a timestamp and with a null environment. *)
Definition partial_object : dict :=
  [ ("message", PStr "hi"); ("environment", PNone); ("extra", PInt 1) ].

Definition partial_object_record : Consumer.Message :=
  record_of (encode_utf8 (json_dumps (PDict partial_object))) 12.

End Traces.

Import Traces.

(** ** Further notions: the transport queue *)

Module Queue.

(** A queued record on which the transport does not report by the time
    [flush] returns. *)
Definition unacknowledged (net : Producer.transport) (tv : string * string) : bool :=
  match Producer.report net (fst tv) (snd tv) with
  | Producer.Unacknowledged => true
  | _ => false
  end.

(** What [delivery_callback] logs for a queued record. *)
Definition report_entry (net : Producer.transport) (tv : string * string)
  : list Logging.entry :=
  match Producer.report net (fst tv) (snd tv) with
  | Producer.Delivered p o =>
      [ (INFO, "Message delivered to " ++ fst tv ++ " [" ++ str_of_Z p
                 ++ "] at offset " ++ str_of_Z o) ]
  | Producer.DeliveryFailed e => [ (ERROR, "Message delivery failed: " ++ e) ]
  | Producer.Unacknowledged => []
  end.

(** The body of an error response. *)
Definition error_body (text : string) : dict :=
  [ ("success", PBool false); ("error", PStr text) ].

(** A transport whose queue is full. *)
Definition full_transport : Producer.transport :=
  {| Producer.produce_fault := fun _ _ => Some (BufferError, "Local: Queue full");
     Producer.report := fun _ _ => Producer.Unacknowledged |}.

(** A transport that confirms the records of the topic [payments] and
    stays silent about the others. *)
Definition payments_only : Producer.transport :=
  {| Producer.produce_fault := fun _ _ => None;
     Producer.report := fun t _ =>
       if String.eqb t "payments" then Producer.Delivered 0 7
       else Producer.Unacknowledged |}.

(** A world in which an earlier record is still queued. *)
Definition backlog : Producer.world :=
  {| Producer.log := []; Producer.produce_calls := [("orders", "{}")];
     Producer.flush_calls := 1; Producer.queue := [("orders", "{}")] |}.

Definition no_msg_request : Producer.request :=
  {| Producer.args := [("topic", "payments"); ("msg", EmptyString)] |}.

End Queue.

Import Queue.

(** ** Further notions: the output of the diagnostic *)

Module Report.

(** The lines that [test_kafka_config] prints before the attempt. *)
Definition attempt_lines (cfg : dict) (config_name : string) : list string :=
  [ newline ++ "🔍 Testing " ++ config_name ++ " configuration:";
    "   Config: " ++ repr (PDict cfg) ].

(** The lines of a successful metadata request. *)
Definition topics_lines (topics : list string) : list string :=
  ("   ✅ Success! Found " ++ str_of_nat (List.length topics) ++ " topics")
    :: match topics with
       | [] => [ "   📋 No topics found (this is normal for a fresh Kafka setup)" ]
       | _ :: _ =>
           "   📋 Available topics:"
             :: map (fun t => "      - " ++ t) (firstn 5 topics)
       end.

(** The text of the fault that stops an attempt before its success line. *)
Definition probe_fault (net : Diagnose.network) (cfg : dict) : option string :=
  match Diagnose.new_producer net cfg with
  | Some (_, m) => Some m
  | None =>
      match Diagnose.list_topics net cfg with
      | inr (_, m) => Some m
      | inl _ => None
      end
  end.

(** The lines of the "Results" part. *)
Definition report_lines (successful : list Diagnose.config_test) : list string :=
  [ newline ++ "📊 Results:"; repeat_str "=" 50 ]
    ++ match successful with
       | [] =>
           [ "❌ No working configurations found";
             newline ++ "🔧 Troubleshooting suggestions:";
             "   1. Check if Kafka is fully started: docker logs <kafka_container>";
             "   2. Verify the port mapping: docker port <kafka_container>";
             "   3. Check Kafka broker configuration for listeners";
             "   4. Try different ports (9093, 9094) if your Kafka uses different mapping" ]
       | best :: _ =>
           [ "✅ Working configurations found:" ]
             ++ flat_map (fun c => [ "   - " ++ Diagnose.name c;
                                     "     " ++ repr (PDict (Diagnose.config c)) ])
                  successful
             ++ [ newline ++ "💡 Recommended configuration for your config.py:";
                  "LOCAL_CONFIG = " ++ repr (PDict (Diagnose.config best)) ]
       end.

Definition add_output (lines : list string) (w : Diagnose.world) : Diagnose.world :=
  {| Diagnose.stdout := Diagnose.stdout w ++ lines;
     Diagnose.tcp_probes := Diagnose.tcp_probes w;
     Diagnose.ssl_probes := Diagnose.ssl_probes w;
     Diagnose.attempts := Diagnose.attempts w |}.

Definition add_attempt (cfg : dict) (w : Diagnose.world) : Diagnose.world :=
  {| Diagnose.stdout := Diagnose.stdout w;
     Diagnose.tcp_probes := Diagnose.tcp_probes w;
     Diagnose.ssl_probes := Diagnose.ssl_probes w;
     Diagnose.attempts := Diagnose.attempts w ++ [cfg] |}.

(** A broker with seven topics, reached by a client whose handle has no
    [close]. *)
Definition seven_topics : list string :=
  ["a"; "b"; "c"; "d"; "e"; "f"; "g"].

Definition busy_broker : Diagnose.network :=
  {| Diagnose.connect_ex := fun _ _ => inl 0%Z;
     Diagnose.tls_connect := fun _ _ => Some (OSError, "wrong version number");
     Diagnose.new_producer := fun _ => None;
     Diagnose.list_topics := fun _ => inl seven_topics;
     Diagnose.close_producer := fun _ => None |}.

Definition no_close_client : Diagnose.network :=
  {| Diagnose.connect_ex := fun _ _ => inl 0%Z;
     Diagnose.tls_connect := fun _ _ => Some (OSError, "wrong version number");
     Diagnose.new_producer := fun _ => None;
     Diagnose.list_topics := fun _ => inl seven_topics;
     Diagnose.close_producer := fun _ =>
       Some (AttributeError, "'cimpl.Producer' object has no attribute 'close'") |}.

End Report.

Import Report.

(** ** test_script.py *)

Module TestScript.

(** What [requests.get] makes of one request: a response (its status, what
    [response.json()] gives or the text of the exception it raises, and
    [response.text]), [requests.exceptions.ConnectionError], or another
    exception. *)
Inductive reply : Type :=
| Response (status_code : Z) (json : pyval + string) (text : string)
| ConnectionError (msg : string)
| RequestFault (msg : string).

(** The service behind the URL. *)
Definition server : Type := string -> list (string * string) -> reply.

Record world : Type := {
  stdout : list string;
  requests : list (string * list (string * string));
  sleeps : nat
}.

Definition start : world := {| stdout := []; requests := []; sleeps := 0 |}.

Definition print (line : string) : M world unit :=
  modify (fun w =>
    {| stdout := (stdout w ++ [line])%list; requests := requests w;
       sleeps := sleeps w |}).

(** [time.sleep(0.5)] *)
Definition time_sleep : M world unit :=
  modify (fun w =>
    {| stdout := stdout w; requests := requests w; sleeps := S (sleeps w) |}).

(** [requests.get(url, params=params)] *)
Definition requests_get (srv : server) (url : string)
           (params : list (string * string)) : M world reply :=
  modify (fun w =>
    {| stdout := stdout w; requests := (requests w ++ [(url, params)])%list;
       sleeps := sleeps w |}) ;;
  ret (srv url params).

(** The decimal digits at the head of [s]: their value after [acc], their
    number after [count], and the rest of [s]. *)
Fixpoint digits (s : string) (acc count : Z) : Z * Z * string :=
  match s with
  | EmptyString => (acc, count, s)
  | String c r =>
      let n := Z.of_N (N_of_ascii c) in
      if ((48 <=? n) && (n <=? 57))%Z
      then digits r (10 * acc + (n - 48))%Z (count + 1)%Z
      else (acc, count, s)
  end.

(** The exponent part at the head of [s], 0 when [s] is empty; [None] when
    [s] is something else. *)
Definition exponent (s : string) : option Z :=
  match s with
  | EmptyString => Some 0%Z
  | String c r =>
      if (Ascii.eqb c "e" || Ascii.eqb c "E")%bool then
        match r with
        | String "-" r' => Some (- fst (fst (digits r' 0 0)))%Z
        | String "+" r' => Some (fst (fst (digits r' 0 0)))
        | _ => Some (fst (fst (digits r 0 0)))
        end
      else None
  end.

(** A float literal that [float()] reads as zero: the literal is
    [m * 10^e] with [m = 0], or with a value of at most [2^-1075], half
    of the least positive float, which is rounded to zero.  [NaN] and
    [Infinity] have no digits and are not zero. *)
Definition float_is_zero (lexeme : string) : bool :=
  let unsigned := match lexeme with String "-" r => r | _ => lexeme end in
  let '(m1, n1, s1) := digits unsigned 0 0 in
  if (n1 =? 0)%Z then false
  else
    let '(m, places, s2) :=
      match s1 with
      | String "." r => digits r m1 0
      | _ => (m1, 0%Z, s1)
      end in
    match exponent s2 with
    | None => false
    | Some ex =>
        let e := (ex - places)%Z in
        ((m =? 0) || ((e <? 0) && (m * 2 ^ 1075 <=? 10 ^ (- e))))%Z
    end.

(** The truth value of [v] in an [if]. *)
Definition truth (v : pyval) : bool :=
  match v with
  | PNone => false
  | PBool b => b
  | PInt z => negb (z =? 0)%Z
  | PFloat lexeme => negb (float_is_zero lexeme)
  | PStr s => negb (String.eqb s EmptyString)
  | PList items => match items with [] => false | _ => true end
  | PDict items => match items with [] => false | _ => true end
  end.

(** [d.get(key)] shown in an f-string. *)
Definition shown (d : dict) (key : string) : string :=
  match dict_get d key with
  | Some v => str v
  | None => "None"
  end.

Definition base_url : string := "http://localhost:5000".

Definition test_messages : list (list (string * string)) :=
  [ [("topic", "payments"); ("msg", "Payment processed for order 12345")];
    [("topic", "orders"); ("msg", "New order created: Order #67890")];
    [("topic", "logs"); ("msg", "Application started successfully")];
    [("topic", "payments"); ("msg", "Refund processed for order 12345")];
    [("topic", "orders"); ("msg", "Order #67890 shipped")] ].

(** [test_msg[key]] *)
Definition item (test_msg : list (string * string)) (key : string) : string :=
  get_default test_msg key EmptyString.

Section Client.

Variable srv : server.

(** One turn of the [for] loop, up to [time.sleep]: [false] when the turn
    leaves the loop by [break]. *)
Definition send_one (i total : nat) (test_msg : list (string * string))
  : M world bool :=
  print (newline ++ "📤 Sending test message " ++ str_of_nat i ++ "/"
         ++ str_of_nat total) ;;
  print ("   Topic: " ++ item test_msg "topic") ;;
  print ("   Message: " ++ item test_msg "msg") ;;
  response <- requests_get srv (base_url ++ "/produce") test_msg ;;
  match response with
  | Response status_code json text =>
      if (status_code =? 200)%Z then
        match json with
        | inl (PDict result) =>
            (if truth (get_default result "success" PNone)
             then print "   ✅ Success!"
             else print ("   ❌ Failed: " ++ shown result "error")) ;;
            ret true
        | inl result =>
            print ("   ❌ Error: '" ++ Consumer.type_name result
                   ++ "' object has no attribute 'get'") ;;
            ret true
        | inr e =>
            print ("   ❌ Error: " ++ e) ;;
            ret true
        end
      else
        print ("   ❌ HTTP Error: " ++ str_of_Z status_code) ;;
        print ("   Response: " ++ text) ;;
        ret true
  | ConnectionError _ =>
      print "   ❌ Connection Error: Make sure the producer is running on port 5000" ;;
      ret false
  | RequestFault e =>
      print ("   ❌ Error: " ++ e) ;;
      ret true
  end.

(** [for i, test_msg in enumerate(test_messages, 1): ...] from index [i]. *)
Fixpoint send_all (i total : nat) (todo : list (list (string * string)))
  : M world unit :=
  match todo with
  | [] => ret tt
  | test_msg :: rest =>
      go_on <- send_one i total test_msg ;;
      if go_on then
        time_sleep ;;
        send_all (S i) total rest
      else ret tt
  end.

Definition test_producer_api : M world unit :=
  print "🧪 Testing Kafka Producer API" ;;
  print (repeat_str "=" 50) ;;
  send_all 1 (List.length test_messages) test_messages ;;
  print (newline ++ repeat_str "=" 50) ;;
  print "🏁 Test completed!".

Definition check_producer_health : M world bool :=
  response <- requests_get srv "http://localhost:5000/health" [] ;;
  match response with
  | Response status_code json text =>
      if (status_code =? 200)%Z then
        match json with
        | inl (PDict health_data) =>
            print "✅ Producer API is healthy" ;;
            print ("   Environment: " ++ shown health_data "environment") ;;
            ret true
        | inl health_data =>
            print "✅ Producer API is healthy" ;;
            print ("❌ Error checking producer health: '"
                   ++ Consumer.type_name health_data
                   ++ "' object has no attribute 'get'") ;;
            ret false
        | inr e =>
            print ("❌ Error checking producer health: " ++ e) ;;
            ret false
        end
      else
        print ("❌ Producer API returned status " ++ str_of_Z status_code) ;;
        ret false
  | ConnectionError _ =>
      print "❌ Producer API is not running or not accessible" ;;
      ret false
  | RequestFault e =>
      print ("❌ Error checking producer health: " ++ e) ;;
      ret false
  end.

Definition main : M world unit :=
  print "🚀 Kafka Test Script" ;;
  print (repeat_str "=" 50) ;;
  healthy <- check_producer_health ;;
  if negb healthy then
    print (newline ++ "💡 To start the producer, run:") ;;
    print "   python producer.py" ;;
    print (newline ++ "💡 To start Kafka locally, run:") ;;
    print "   docker-compose up -d" ;;
    raise (SystemExit 1)
  else
    test_producer_api ;;
    print (newline ++ "💡 To consume messages, run:") ;;
    print "   python consumer.py payments" ;;
    print "   python consumer.py orders" ;;
    print "   python consumer.py logs".

End Client.

End TestScript.

(** ** Further notions: the requests of the test script *)

Module Client.

(** The service answers this request with a connection error. *)
Definition refused (srv : TestScript.server) (params : list (string * string))
  : bool :=
  match srv (TestScript.base_url ++ "/produce") params with
  | TestScript.ConnectionError _ => true
  | _ => false
  end.

(** The messages up to the first one that meets a connection error, that
    one included. *)
Fixpoint until_refused (srv : TestScript.server)
         (todo : list (list (string * string))) : list (list (string * string)) :=
  match todo with
  | [] => []
  | m :: rest => if refused srv m then [m] else m :: until_refused srv rest
  end.

(** How many of the messages sent did not meet a connection error. *)
Definition answered (srv : TestScript.server)
           (todo : list (list (string * string))) : nat :=
  List.length (List.filter (fun m => negb (refused srv m))
                           (until_refused srv todo)).

(** The health request is answered with status 200 and a JSON object. *)
Definition healthy (srv : TestScript.server) : bool :=
  match srv "http://localhost:5000/health" [] with
  | TestScript.Response status_code (inl (PDict _)) _ => (status_code =? 200)%Z
  | _ => false
  end.

Definition produce_request (params : list (string * string))
  : string * list (string * string) :=
  (TestScript.base_url ++ "/produce", params).

Definition health_request : string * list (string * string) :=
  ("http://localhost:5000/health", []).

(** A service that is up, rejects the topic [logs] with status 500, and
    whose connection drops at the fourth message. *)
Definition flaky : TestScript.server :=
  fun url params =>
    if String.eqb url "http://localhost:5000/health"
    then TestScript.Response 200
           (inl (PDict [("status", PStr "healthy"); ("environment", PStr "local")]))
           "{}"
    else if String.eqb (get_default params "msg" EmptyString)
                       "Refund processed for order 12345"
    then TestScript.ConnectionError "Connection aborted"
    else if String.eqb (get_default params "topic" EmptyString) "logs"
    then TestScript.Response 500 (inr "Expecting value") "Internal Server Error"
    else TestScript.Response 200 (inl (PDict [("success", PBool true)])) "{}".

(** A service that answers every request with status 503. *)
Definition unavailable : TestScript.server :=
  fun _ _ =>
    TestScript.Response 503 (inr "Expecting value") "Service Unavailable".

(** A service that is down. *)
Definition down : TestScript.server :=
  fun _ _ => TestScript.ConnectionError "Connection refused".

End Client.

Import Client.

(** * Properties *)

(** Arithmetic with division by constants, boolean tests as
    propositions, and evaluation of the monadic code of each script: the
    combinators, the primitives and the record projections are unfolded,
    strings and library calls are left alone. *)

Ltac nlia := zify; Z.to_euclidean_division_equations; lia.

Ltac props :=
  repeat match goal with
  | H : (_ && _)%bool = true |- _ => apply andb_prop in H; destruct H
  | H : (_ <=? _)%N = true |- _ => apply N.leb_le in H
  | H : (_ <=? _)%N = false |- _ => apply N.leb_gt in H
  | H : (_ <? _)%N = true |- _ => apply N.ltb_lt in H
  | H : (_ <? _)%N = false |- _ => apply N.ltb_ge in H
  | H : (_ =? _)%N = true |- _ => apply N.eqb_eq in H
  | H : (_ =? _)%N = false |- _ => apply N.eqb_neq in H
  end.

Ltac run_endpoint :=
  cbv beta iota zeta delta
    [bind ret modify gets raise try_except except_Exception Producer.logger
     Producer.delivery_callback Producer.producer_flush Producer.log
     Producer.produce_calls Producer.flush_calls Producer.queue].

Ltac run_diag :=
  cbv beta iota zeta delta
    [bind ret modify gets raise try_except except_Exception
     Diagnose.raise_fault Diagnose.print Diagnose.sock_connect_ex
     Diagnose.ssl_sock_connect Diagnose.Producer_new
     Diagnose.producer_list_topics Diagnose.producer_close fst snd].

Ltac run_consumer :=
  cbv beta iota zeta delta
    [bind ret modify gets raise try_except try_finally except_Exception
     Consumer.logger Consumer.print Consumer.checkpoint Consumer.sys_exit
     Consumer.set_stdout Consumer.set_log Consumer.set_sigint
     Consumer.set_message_count Consumer.header Consumer.method_get
     Consumer.stdout Consumer.log Consumer.sigint Consumer.opened
     Consumer.subscriptions Consumer.closes Consumer.consumer_bound
     Consumer.message_count fst snd].

(** ** The resolver *)

Section ResolverFacts.

Import Config.

Lemma ascii_lower_a (c : ascii) :
  ascii_lower c = "a"%char -> c = "a"%char \/ c = "A"%char.
Proof.
  destruct c as [[] [] [] [] [] [] [] []]; vm_compute; intros H;
    try discriminate H; auto.
Qed.

Lemma ascii_lower_w (c : ascii) :
  ascii_lower c = "w"%char -> c = "w"%char \/ c = "W"%char.
Proof.
  destruct c as [[] [] [] [] [] [] [] []]; vm_compute; intros H;
    try discriminate H; auto.
Qed.

Lemma ascii_lower_s (c : ascii) :
  ascii_lower c = "s"%char -> c = "s"%char \/ c = "S"%char.
Proof.
  destruct c as [[] [] [] [] [] [] [] []]; vm_compute; intros H;
    try discriminate H; auto.
Qed.

Lemma lower_aws_inv (tag : string) :
  lower tag = "aws" -> In tag aws_spellings.
Proof.
  destruct tag as [|c1 [|c2 [|c3 [|c4 r]]]]; cbn [lower]; intros H;
    try discriminate H.
  injection H as H1 H2 H3.
  apply ascii_lower_a in H1. apply ascii_lower_w in H2.
  apply ascii_lower_s in H3.
  destruct H1, H2, H3; subst; cbn; tauto.
Qed.

Lemma lower_aws_spelling (tag : string) :
  In tag aws_spellings -> lower tag = "aws".
Proof.
  cbn. intros H.
  repeat (destruct H as [H | H]; [subst; reflexivity |]).
  contradiction.
Qed.

Lemma lower_is_aws (tag : string) :
  String.eqb (lower tag) "aws" = is_aws_spelling tag.
Proof.
  apply Bool.eq_iff_eq_true. rewrite String.eqb_eq.
  unfold is_aws_spelling. rewrite existsb_exists. split.
  - intros H. exists tag. split; [now apply lower_aws_inv | apply String.eqb_refl].
  - intros [x [Hin Hx]]. apply String.eqb_eq in Hx. subst x.
    now apply lower_aws_spelling.
Qed.

End ResolverFacts.

(** C4: the resolver answers the cloud profile exactly for the tags that
    spell [aws] in some letter case; every other tag, and an absent
    selector, gives the local profile.  The two profiles differ, and the
    function is total. *)
Theorem resolver_cloud_iff_aws_caseless (env : Config.environ) :
  Config.get_kafka_config env =
    match dict_get env "KAFKA_ENV" with
    | Some tag =>
        if is_aws_spelling tag then Config.AWS_CONFIG env else Config.LOCAL_CONFIG
    | None => Config.LOCAL_CONFIG
    end
  /\ Config.AWS_CONFIG env <> Config.LOCAL_CONFIG.
Proof.
  split.
  - unfold Config.get_kafka_config, Config.ENVIRONMENT, Config.getenv, get_default.
    rewrite lower_is_aws.
    destruct (dict_get env "KAFKA_ENV"); reflexivity.
  - unfold Config.AWS_CONFIG, Config.LOCAL_CONFIG. intros H.
    injection H as _ H. discriminate H.
Qed.

Example resolver_upper_case :
  Config.get_kafka_config env_cloud = Config.AWS_CONFIG env_cloud.
Proof. reflexivity. Qed.

Example resolver_unrecognised :
  Config.get_kafka_config [("KAFKA_ENV", "staging")] = Config.LOCAL_CONFIG.
Proof. reflexivity. Qed.

(** C3, as stated, fails: with the cloud profile selected and the
    broker-address override set to the empty string, the profile's
    [bootstrap.servers] is the empty string. *)
Lemma empty_override_empty_brokers :
  Config.bootstrap_servers (Config.get_kafka_config env_empty_override)
    = Some (PStr EmptyString)
  /\ has_brokers (Config.get_kafka_config env_empty_override) = false.
Proof. split; reflexivity. Qed.

(** C3, amended: whenever the broker-address override is absent or not
    the empty string, the resolved profile has a non-empty
    [bootstrap.servers] string, for every tag and region override. *)
Theorem resolver_brokers_nonempty (env : Config.environ) :
  dict_get env "MSK_BOOTSTRAP_SERVERS" <> Some EmptyString ->
  has_brokers (Config.get_kafka_config env) = true.
Proof.
  intros H. unfold Config.get_kafka_config.
  destruct (String.eqb _ _); [|reflexivity].
  unfold has_brokers, Config.bootstrap_servers, Config.AWS_CONFIG. cbn [dict_get].
  rewrite String.eqb_refl.
  unfold Config.getenv, get_default.
  destruct (dict_get env "MSK_BOOTSTRAP_SERVERS") as [[|c r]|]; try reflexivity.
  now contradiction H.
Qed.

Lemma resolver_brokers_nonempty_witness :
  dict_get env_cloud "MSK_BOOTSTRAP_SERVERS" <> Some EmptyString
  /\ has_brokers (Config.get_kafka_config env_cloud) = true.
Proof.
  split; [discriminate | apply (resolver_brokers_nonempty env_cloud); discriminate].
Defined.

(** ** The wire format

    What the reference writer makes of the envelope, the reference reader
    takes back: every code point is written as itself or as an escape, and
    the reader undoes each escape. *)

Section WireFormat.

Import RefJson.

Lemma hex_val_digit (d : N) : (d < 16)%N -> hex_val (hex_digit d) = Some d.
Proof.
  intros Hd. rewrite <- (N2Nat.id d).
  assert (H : (N.to_nat d < 16)%nat) by lia.
  remember (N.to_nat d) as k eqn:E. clear E Hd.
  do 16 (destruct k as [|k]; [reflexivity |]). lia.
Qed.

Lemma hex4_digits (n : N) :
  (n < 65536)%N ->
  hex4 (hex_digit (n / 4096)) (hex_digit ((n / 256) mod 16))
       (hex_digit ((n / 16) mod 16)) (hex_digit (n mod 16)) = Some n.
Proof.
  intros Hn. unfold hex4.
  rewrite !hex_val_digit by nlia.
  f_equal. nlia.
Qed.

Lemma scan_step_u (h1 h2 h3 h4 : ascii) (r4 : string) :
  scan_string (String backslash (String "u"
     (String h1 (String h2 (String h3 (String h4 r4))))))
  = match hex4 h1 h2 h3 h4 with
    | None => None
    | Some u =>
        if is_high_surrogate u then
          match r4 with
          | String b (String "u"
                        (String l1 (String l2 (String l3 (String l4 r8))))) =>
              match hex4 l1 l2 l3 l4 with
              | Some u2 =>
                  if Ascii.eqb b backslash && is_low_surrogate u2
                  then attach (encode_code_point
                                 (65536 + (u - 55296) * 1024 + (u2 - 56320))%N)
                              (scan_string r8)
                  else attach (encode_code_point u) (scan_string r4)
              | None => attach (encode_code_point u) (scan_string r4)
              end
          | _ => attach (encode_code_point u) (scan_string r4)
          end
        else attach (encode_code_point u) (scan_string r4)
    end.
Proof. reflexivity. Qed.

Lemma scan_u_single (n : N) (T : string) :
  (n < 65536)%N -> is_high_surrogate n = false ->
  scan_string (u_escape n ++ T) = attach (encode_code_point n) (scan_string T).
Proof.
  intros Hn Hs. unfold u_escape. cbn [append].
  rewrite scan_step_u, (hex4_digits n Hn), Hs. reflexivity.
Qed.

Lemma scan_u_pair (n : N) (T : string) :
  (65536 <= n < 1114112)%N ->
  scan_string (u_escape (55296 + (n - 65536) / 1024)
               ++ u_escape (56320 + (n - 65536) mod 1024) ++ T)
  = attach (encode_code_point n) (scan_string T).
Proof.
  intros Hn. unfold u_escape. cbn [append].
  rewrite scan_step_u.
  rewrite (hex4_digits (55296 + (n - 65536) / 1024)) by nlia.
  replace (is_high_surrogate (55296 + (n - 65536) / 1024)) with true.
  2:{ symmetry. unfold is_high_surrogate. apply andb_true_intro.
      split; apply N.leb_le; nlia. }
  rewrite (hex4_digits (56320 + (n - 65536) mod 1024)) by nlia.
  replace (is_low_surrogate (56320 + (n - 65536) mod 1024)) with true.
  2:{ symmetry. unfold is_low_surrogate. apply andb_true_intro.
      split; apply N.leb_le; nlia. }
  change (Ascii.eqb backslash backslash) with true. cbn [andb].
  f_equal. f_equal. nlia.
Qed.

Lemma scan_ascii (c : ascii) (T : string) :
  (N_of_ascii c <=? 127)%N = true ->
  scan_string (escape_code_point (N_of_ascii c) ++ T)
  = attach (String c EmptyString) (scan_string T).
Proof.
  destruct c as [[] [] [] [] [] [] [] []]; intros H;
    try discriminate H; reflexivity.
Qed.

Lemma chr_byte (c : ascii) (n : N) : n = N_of_ascii c -> chr n = c.
Proof. intros ->. apply ascii_N_embedding. Qed.

Lemma byte_bound (c : ascii) : (N_of_ascii c < 256)%N.
Proof. apply N_ascii_bounded. Qed.

Lemma escape_non_ascii (n : N) :
  (128 <= n)%N ->
  escape_code_point n
  = if (n <? 65536)%N then u_escape n
    else u_escape (55296 + (n - 65536) / 1024)
         ++ u_escape (56320 + (n - 65536) mod 1024).
Proof.
  intros Hn. unfold escape_code_point.
  repeat match goal with
  | |- context [(n =? ?k)%N] =>
      destruct (N.eqb_spec n k) as [E | _]; [lia |]
  end.
  replace ((32 <=? n) && (n <=? 126))%N with false; [reflexivity |].
  symmetry. apply andb_false_intro2. apply N.leb_gt. lia.
Qed.

Lemma encode2 (c0 c1 : ascii) :
  (194 <= N_of_ascii c0 <= 223)%N -> (128 <= N_of_ascii c1 <= 191)%N ->
  encode_code_point ((N_of_ascii c0 mod 32) * 64 + N_of_ascii c1 mod 64)
  = String c0 (String c1 EmptyString).
Proof.
  intros H0 H1. unfold encode_code_point.
  set (n := (N_of_ascii c0 mod 32 * 64 + N_of_ascii c1 mod 64)%N).
  assert (Hn : (128 <= n < 2048)%N) by (subst n; nlia).
  destruct (N.ltb_spec n 128); [lia |].
  destruct (N.ltb_spec n 2048); [| lia].
  f_equal; [| f_equal]; apply chr_byte; subst n; nlia.
Qed.

Lemma encode3 (c0 c1 c2 : ascii) :
  (224 <= N_of_ascii c0 <= 239)%N ->
  (128 <= N_of_ascii c1 <= 191)%N -> (128 <= N_of_ascii c2 <= 191)%N ->
  (N_of_ascii c0 = 224 -> 160 <= N_of_ascii c1)%N ->
  encode_code_point
    ((N_of_ascii c0 mod 16) * 4096 + (N_of_ascii c1 mod 64) * 64
     + N_of_ascii c2 mod 64)
  = String c0 (String c1 (String c2 EmptyString)).
Proof.
  intros H0 H1 H2 Hlo. unfold encode_code_point.
  set (n := (N_of_ascii c0 mod 16 * 4096 + N_of_ascii c1 mod 64 * 64
             + N_of_ascii c2 mod 64)%N).
  assert (Hn : (2048 <= n < 65536)%N).
  { subst n. destruct (N.eq_dec (N_of_ascii c0) 224) as [E | E].
    - specialize (Hlo E). nlia.
    - nlia. }
  destruct (N.ltb_spec n 128); [lia |].
  destruct (N.ltb_spec n 2048); [lia |].
  destruct (N.ltb_spec n 65536); [| lia].
  f_equal; [| f_equal; [| f_equal]]; apply chr_byte; subst n; nlia.
Qed.

Lemma encode4 (c0 c1 c2 c3 : ascii) :
  (240 <= N_of_ascii c0 <= 244)%N ->
  (128 <= N_of_ascii c1 <= 191)%N -> (128 <= N_of_ascii c2 <= 191)%N ->
  (128 <= N_of_ascii c3 <= 191)%N ->
  (N_of_ascii c0 = 240 -> 144 <= N_of_ascii c1)%N ->
  encode_code_point
    ((N_of_ascii c0 mod 8) * 262144 + (N_of_ascii c1 mod 64) * 4096
     + (N_of_ascii c2 mod 64) * 64 + N_of_ascii c3 mod 64)
  = String c0 (String c1 (String c2 (String c3 EmptyString))).
Proof.
  intros H0 H1 H2 H3 Hlo. unfold encode_code_point.
  set (n := (N_of_ascii c0 mod 8 * 262144 + N_of_ascii c1 mod 64 * 4096
             + N_of_ascii c2 mod 64 * 64 + N_of_ascii c3 mod 64)%N).
  assert (Hn : (65536 <= n)%N).
  { subst n. destruct (N.eq_dec (N_of_ascii c0) 240) as [E | E].
    - specialize (Hlo E). nlia.
    - nlia. }
  destruct (N.ltb_spec n 128); [lia |].
  destruct (N.ltb_spec n 2048); [lia |].
  destruct (N.ltb_spec n 65536); [lia |].
  f_equal; [| f_equal; [| f_equal; [| f_equal]]]; apply chr_byte; subst n; nlia.
Qed.

Lemma append_empty_r (s : string) : s ++ EmptyString = s.
Proof. induction s as [|c r IH]; cbn; [reflexivity | now rewrite IH]. Qed.

Lemma append_assoc (a b c : string) : (a ++ b) ++ c = a ++ (b ++ c).
Proof. induction a as [|x r IH]; cbn; [reflexivity | now rewrite IH]. Qed.

Lemma concat_cons (x : string) (l : list string) :
  String.concat EmptyString (x :: l) = x ++ String.concat EmptyString l.
Proof.
  destruct l as [|y l]; cbn [String.concat].
  - now rewrite append_empty_r.
  - reflexivity.
Qed.

Lemma escape_code_points (s : string) (n : N) (r : string) :
  code_points s = n :: code_points r ->
  escape s = escape_code_point n ++ escape r.
Proof. unfold escape. intros ->. cbn [map]. apply concat_cons. Qed.

Lemma utf8_valid_eq (b0 : N) (r0 : list N) :
  utf8_valid (b0 :: r0)
  = if (b0 <=? 127)%N then utf8_valid r0
    else
      match r0 with
      | [] => false
      | b1 :: r1 =>
          if ((194 <=? b0) && (b0 <=? 223))%N
          then continuation b1 && utf8_valid r1
          else
            match r1 with
            | [] => false
            | b2 :: r2 =>
                if ((224 <=? b0) && (b0 <=? 239))%N
                then
                  (((if b0 =? 224 then 160 else 128) <=? b1)
                   && (b1 <=? (if b0 =? 237 then 159 else 191)))%N
                  && continuation b2 && utf8_valid r2
                else
                  match r2 with
                  | [] => false
                  | b3 :: r3 =>
                      if ((240 <=? b0) && (b0 <=? 244))%N
                      then
                        (((if b0 =? 240 then 144 else 128) <=? b1)
                         && (b1 <=? (if b0 =? 244 then 143 else 191)))%N
                        && continuation b2 && continuation b3
                        && utf8_valid r3
                      else false
                  end
            end
      end.
Proof. reflexivity. Qed.

Lemma code_points_1 (c0 : ascii) (r0 : string) :
  (N_of_ascii c0 < 192)%N ->
  code_points (String c0 r0) = N_of_ascii c0 :: code_points r0.
Proof.
  intros H. cbn [code_points].
  destruct (N.ltb_spec (N_of_ascii c0) 192); [reflexivity | lia].
Qed.

Lemma code_points_2 (c0 c1 : ascii) (r1 : string) :
  (192 <= N_of_ascii c0 < 224)%N ->
  code_points (String c0 (String c1 r1))
  = ((N_of_ascii c0 mod 32) * 64 + N_of_ascii c1 mod 64)%N :: code_points r1.
Proof.
  intros H. cbn [code_points].
  destruct (N.ltb_spec (N_of_ascii c0) 192); [lia |].
  destruct (N.ltb_spec (N_of_ascii c0) 224); [reflexivity | lia].
Qed.

Lemma code_points_3 (c0 c1 c2 : ascii) (r2 : string) :
  (224 <= N_of_ascii c0 < 240)%N ->
  code_points (String c0 (String c1 (String c2 r2)))
  = ((N_of_ascii c0 mod 16) * 4096 + (N_of_ascii c1 mod 64) * 64
     + N_of_ascii c2 mod 64)%N :: code_points r2.
Proof.
  intros H. cbn [code_points].
  destruct (N.ltb_spec (N_of_ascii c0) 192); [lia |].
  destruct (N.ltb_spec (N_of_ascii c0) 224); [lia |].
  destruct (N.ltb_spec (N_of_ascii c0) 240); [reflexivity | lia].
Qed.

Lemma code_points_4 (c0 c1 c2 c3 : ascii) (r3 : string) :
  (240 <= N_of_ascii c0)%N ->
  code_points (String c0 (String c1 (String c2 (String c3 r3))))
  = ((N_of_ascii c0 mod 8) * 262144 + (N_of_ascii c1 mod 64) * 4096
     + (N_of_ascii c2 mod 64) * 64 + N_of_ascii c3 mod 64)%N :: code_points r3.
Proof.
  intros H. cbn [code_points].
  destruct (N.ltb_spec (N_of_ascii c0) 192); [lia |].
  destruct (N.ltb_spec (N_of_ascii c0) 224); [lia |].
  destruct (N.ltb_spec (N_of_ascii c0) 240); [lia | reflexivity].
Qed.

Lemma continuation_range (b : N) : continuation b = true -> (128 <= b <= 191)%N.
Proof. unfold continuation. intros H. props. lia. Qed.

(** A well-formed text that is not empty starts with the encoding of one
    scalar value, and goes on with a well-formed text. *)
Lemma utf8_text_first (c0 : ascii) (r0 : string) :
  utf8_text (String c0 r0) ->
  exists n r,
    code_points (String c0 r0) = n :: code_points r
    /\ String c0 r0 = encode_code_point n ++ r
    /\ utf8_text r
    /\ (String.length r < String.length (String c0 r0))%nat
    /\ (n < 1114112)%N
    /\ ~ (55296 <= n <= 57343)%N.
Proof.
  unfold utf8_text, bytes_of. cbn [list_ascii_of_string map]. intros Hv.
  rewrite utf8_valid_eq in Hv.
  destruct (N.leb_spec (N_of_ascii c0) 127) as [H0 | H0].
  { exists (N_of_ascii c0), r0.
    split; [apply code_points_1; lia |].
    split.
    { unfold encode_code_point.
      destruct (N.ltb_spec (N_of_ascii c0) 128); [| lia].
      cbn [append]. now rewrite (chr_byte c0 _ eq_refl). }
    split; [exact Hv |]. cbn [String.length]. split; [lia |]. split; lia. }
  destruct r0 as [|c1 r1]; [discriminate Hv |].
  cbn [list_ascii_of_string map] in Hv.
  destruct ((194 <=? N_of_ascii c0) && (N_of_ascii c0 <=? 223))%N eqn:E2.
  { props. apply continuation_range in H.
    exists ((N_of_ascii c0 mod 32) * 64 + N_of_ascii c1 mod 64)%N, r1.
    split; [apply code_points_2; lia |].
    split; [rewrite encode2 by lia; reflexivity |].
    split; [assumption |]. cbn [String.length]. split; [lia |]. split; nlia. }
  destruct r1 as [|c2 r2]; [discriminate Hv |].
  cbn [list_ascii_of_string map] in Hv.
  destruct ((224 <=? N_of_ascii c0) && (N_of_ascii c0 <=? 239))%N eqn:E3.
  { apply andb_prop in Hv. destruct Hv as [Hv Hr].
    apply andb_prop in Hv. destruct Hv as [Hv Hc2].
    apply andb_prop in Hv. destruct Hv as [Hlo Hhi].
    apply continuation_range in Hc2.
    assert (Hb1 : (128 <= N_of_ascii c1 <= 191)%N
                  /\ (N_of_ascii c0 = 224 -> 160 <= N_of_ascii c1)%N
                  /\ (N_of_ascii c0 = 237 -> N_of_ascii c1 <= 159)%N).
    { destruct (N.eqb_spec (N_of_ascii c0) 224);
        destruct (N.eqb_spec (N_of_ascii c0) 237); props; lia. }
    destruct Hb1 as (Hb1 & Hb224 & Hb237). props.
    exists ((N_of_ascii c0 mod 16) * 4096 + (N_of_ascii c1 mod 64) * 64
            + N_of_ascii c2 mod 64)%N, r2.
    split; [apply code_points_3; lia |].
    split; [rewrite encode3 by (assumption || lia); reflexivity |].
    split; [assumption |]. cbn [String.length]. split; [lia |].
    destruct (N.eq_dec (N_of_ascii c0) 224) as [E | E];
      destruct (N.eq_dec (N_of_ascii c0) 237) as [E' | E'];
      try specialize (Hb224 E); try specialize (Hb237 E'); split; nlia. }
  destruct r2 as [|c3 r3]; [discriminate Hv |].
  cbn [list_ascii_of_string map] in Hv.
  destruct ((240 <=? N_of_ascii c0) && (N_of_ascii c0 <=? 244))%N eqn:E4;
    [| discriminate Hv].
  apply andb_prop in Hv. destruct Hv as [Hv Hr].
  apply andb_prop in Hv. destruct Hv as [Hv Hc3].
  apply andb_prop in Hv. destruct Hv as [Hv Hc2].
  apply andb_prop in Hv. destruct Hv as [Hlo Hhi].
  apply continuation_range in Hc2. apply continuation_range in Hc3.
  assert (Hb1 : (128 <= N_of_ascii c1 <= 191)%N
                /\ (N_of_ascii c0 = 240 -> 144 <= N_of_ascii c1)%N
                /\ (N_of_ascii c0 = 244 -> N_of_ascii c1 <= 143)%N).
  { destruct (N.eqb_spec (N_of_ascii c0) 240);
      destruct (N.eqb_spec (N_of_ascii c0) 244); props; lia. }
  destruct Hb1 as (Hb1 & Hb240 & Hb244). props.
  exists ((N_of_ascii c0 mod 8) * 262144 + (N_of_ascii c1 mod 64) * 4096
          + (N_of_ascii c2 mod 64) * 64 + N_of_ascii c3 mod 64)%N, r3.
  split; [apply code_points_4; lia |].
  split; [rewrite encode4 by (assumption || lia); reflexivity |].
  split; [assumption |]. cbn [String.length]. split; [lia |].
  destruct (N.eq_dec (N_of_ascii c0) 240) as [E | E];
    destruct (N.eq_dec (N_of_ascii c0) 244) as [E' | E'];
    try specialize (Hb240 E); try specialize (Hb244 E'); split; nlia.
Qed.

(** The reader undoes what the writer makes of one scalar value. *)
Lemma scan_escape_code_point (n : N) (T : string) :
  (n < 1114112)%N -> ~ (55296 <= n <= 57343)%N ->
  scan_string (escape_code_point n ++ T)
  = attach (encode_code_point n) (scan_string T).
Proof.
  intros Hn Hs. destruct (N.leb_spec n 127) as [H0 | H0].
  - assert (Hc : N_of_ascii (ascii_of_N n) = n) by (apply N_ascii_embedding; lia).
    replace (escape_code_point n)
      with (escape_code_point (N_of_ascii (ascii_of_N n))) by now rewrite Hc.
    rewrite scan_ascii by (rewrite Hc; now apply N.leb_le).
    unfold encode_code_point.
    destruct (N.ltb_spec n 128); [reflexivity | lia].
  - rewrite escape_non_ascii by lia.
    destruct (N.ltb_spec n 65536) as [Hm | Hm].
    + apply scan_u_single; [exact Hm |].
      unfold is_high_surrogate.
      destruct (N.leb_spec 55296 n); [| reflexivity].
      destruct (N.leb_spec n 56319); [lia | reflexivity].
    + rewrite append_assoc. apply scan_u_pair. lia.
Qed.

Lemma scan_string_escape (n : nat) :
  forall (s rest : string),
    (String.length s <= n)%nat ->
    utf8_text s ->
    scan_string (escape s ++ String dquote rest) = Some (s, rest).
Proof.
  induction n as [|n IH]; intros s rest Hlen Hv.
  - destruct s; [reflexivity | cbn in Hlen; lia].
  - destruct s as [|c0 r0]; [reflexivity |].
    destruct (utf8_text_first c0 r0 Hv) as (cp & r & Hcp & Hs & Hr & Hl & Hn & Hsur).
    rewrite (escape_code_points _ _ r Hcp), append_assoc.
    rewrite scan_escape_code_point by assumption.
    rewrite IH by (assumption || lia). cbn [attach]. now rewrite Hs.
Qed.

Lemma scan_dumps_str (s T : string) :
  utf8_text s -> scan_string (escape s ++ String dquote T) = Some (s, T).
Proof. intros H. now apply (scan_string_escape (String.length s)). Qed.

Lemma dumps_str_append (s T : string) :
  dumps_str s ++ T = String dquote (escape s ++ String dquote T).
Proof.
  unfold dumps_str. cbn [append]. now rewrite append_assoc.
Qed.

Lemma scan_value_str (f : nat) (v T : string) :
  utf8_text v -> scan_value (S f) (dumps_str v ++ T) = Some (PStr v, T).
Proof.
  intros Hv. rewrite dumps_str_append.
  change (scan_value (S f) (String dquote (escape v ++ String dquote T)))
    with (match scan_string (escape v ++ String dquote T) with
          | Some (t, rest) => Some (PStr t, rest)
          | None => None
          end).
  now rewrite scan_dumps_str.
Qed.

Lemma scan_members_step (f : nat) (k v T : string) :
  utf8_text k -> utf8_text v ->
  scan_members (S (S f)) (member_text (k, v) ++ T)
  = match skip_ws T with
    | String "}" rest => Some ([(k, PStr v)], rest)
    | String "," r3 =>
        match scan_members (S f) (skip_ws r3) with
        | Some (kvs, rest) => Some ((k, PStr v) :: kvs, rest)
        | None => None
        end
    | _ => None
    end.
Proof.
  intros Hk Hv. unfold member_text. cbn [fst snd].
  rewrite !append_assoc, dumps_str_append.
  change (scan_members (S (S f)) (String dquote ?r))
    with (match scan_string r with
          | None => None
          | Some (k0, r0) =>
              match skip_ws r0 with
              | String ":" r1 =>
                  match scan_value (S f) (skip_ws r1) with
                  | None => None
                  | Some (v0, r2) =>
                      match skip_ws r2 with
                      | String "}" rest => Some ([(k0, v0)], rest)
                      | String "," r3 =>
                          match scan_members (S f) (skip_ws r3) with
                          | Some (kvs, rest) => Some ((k0, v0) :: kvs, rest)
                          | None => None
                          end
                      | _ => None
                      end
                  end
              | _ => None
              end
          end).
  rewrite scan_dumps_str by exact Hk.
  cbn [append].
  change (skip_ws (String ":" (String " " (dumps_str v ++ T))))
    with (String ":" (String " " (dumps_str v ++ T))).
  cbv iota beta.
  change (skip_ws (String " " (dumps_str v ++ T))) with (skip_ws (dumps_str v ++ T)).
  rewrite dumps_str_append.
  change (skip_ws (String dquote ?r)) with (String dquote r).
  rewrite <- dumps_str_append.
  rewrite scan_value_str by exact Hv.
  reflexivity.
Qed.

Lemma skip_ws_member (kv : string * string) (T : string) :
  skip_ws (member_text kv ++ T) = member_text kv ++ T.
Proof.
  unfold member_text. rewrite !append_assoc, dumps_str_append. reflexivity.
Qed.

Lemma scan_value_object (f : nat) (kv : string * string) (T : string) :
  scan_value (S f) (String "{" (member_text kv ++ T))
  = match scan_members f (member_text kv ++ T) with
    | Some (kvs, rest) => Some (PDict (dict_of_pairs kvs), rest)
    | None => None
    end.
Proof.
  unfold member_text. rewrite !append_assoc, dumps_str_append. reflexivity.
Qed.

Lemma dumps_envelope (msg now environment : string) :
  dumps (PDict (envelope msg now environment))
  = String "{"
      (member_text ("message", msg)
         ++ ", " ++ member_text ("timestamp", now)
         ++ ", " ++ member_text ("environment", environment) ++ "}").
Proof.
  unfold envelope, member_text. cbn [dumps map join fst snd].
  repeat (progress cbn [append] || rewrite append_assoc). reflexivity.
Qed.

Theorem loads_dumps_envelope (msg now environment : string) :
  utf8_text msg -> utf8_text now -> utf8_text environment ->
  loads (dumps (PDict (envelope msg now environment)))
  = Some (PDict (envelope msg now environment)).
Proof.
  intros Hm Hn He. rewrite dumps_envelope. unfold loads.
  match goal with
  | |- context [scan_value ?fuel (skip_ws (String "{" ?X))] =>
      change (skip_ws (String "{" X)) with (String "{" X);
      assert (Hf : exists f, fuel = S (S (S (S (S f)))))
  end.
  { match goal with
    | |- context [String.length (String _ ?Y)] =>
        assert (Hl : (1 <= String.length Y)%nat)
          by (unfold member_text, dumps_str; cbn [fst append String.length]; lia);
        exists (2 * String.length Y - 1)%nat; cbn [String.length]; lia
    end. }
  destruct Hf as [f ->].
  rewrite scan_value_object.
  rewrite scan_members_step by (assumption || reflexivity).
  cbn [append].
  change (skip_ws (String "," ?Y)) with (String "," Y). cbv iota beta.
  change (skip_ws (String " " ?Y)) with (skip_ws Y).
  rewrite skip_ws_member.
  rewrite scan_members_step by (assumption || reflexivity).
  cbn [append].
  change (skip_ws (String "," ?Y)) with (String "," Y). cbv iota beta.
  change (skip_ws (String " " ?Y)) with (skip_ws Y).
  rewrite skip_ws_member.
  rewrite scan_members_step by (assumption || reflexivity).
  reflexivity.
Qed.

(** The writer's output stays in the ASCII range, so its UTF-8 encoding
    is the text itself. *)
Lemma ascii_only_append (a b : string) :
  ascii_only (a ++ b) = ascii_only a && ascii_only b.
Proof.
  induction a as [|c r IH]; cbn [append ascii_only]; [reflexivity |].
  now rewrite IH, andb_assoc.
Qed.

Lemma hex_digit_ascii (d : N) :
  (d < 16)%N -> (N_of_ascii (hex_digit d) <? 128)%N = true.
Proof.
  intros Hd. rewrite <- (N2Nat.id d).
  assert (H : (N.to_nat d < 16)%nat) by lia.
  remember (N.to_nat d) as k eqn:E. clear E Hd.
  do 16 (destruct k as [|k]; [reflexivity |]). lia.
Qed.

Lemma u_escape_ascii (n : N) : (n < 65536)%N -> ascii_only (u_escape n) = true.
Proof.
  intros Hn. unfold u_escape. cbn [ascii_only].
  rewrite !hex_digit_ascii by nlia. reflexivity.
Qed.

Lemma escape_ascii_byte (c : ascii) :
  (N_of_ascii c <=? 127)%N = true ->
  ascii_only (escape_code_point (N_of_ascii c)) = true.
Proof.
  destruct c as [[] [] [] [] [] [] [] []]; intros H;
    try discriminate H; reflexivity.
Qed.

Lemma escape_code_point_ascii (n : N) :
  (n < 1114112)%N -> ascii_only (escape_code_point n) = true.
Proof.
  intros Hn. destruct (N.leb_spec n 127) as [H0 | H0].
  - assert (Hc : N_of_ascii (ascii_of_N n) = n) by (apply N_ascii_embedding; lia).
    rewrite <- Hc. apply escape_ascii_byte. rewrite Hc. now apply N.leb_le.
  - rewrite escape_non_ascii by lia.
    destruct (N.ltb_spec n 65536) as [Hm | Hm].
    + now apply u_escape_ascii.
    + rewrite ascii_only_append, !u_escape_ascii by nlia. reflexivity.
Qed.

Lemma escape_ascii (n : nat) :
  forall s, (String.length s <= n)%nat -> utf8_text s ->
            ascii_only (escape s) = true.
Proof.
  induction n as [|n IH]; intros s Hlen Hv.
  - destruct s; [reflexivity | cbn in Hlen; lia].
  - destruct s as [|c0 r0]; [reflexivity |].
    destruct (utf8_text_first c0 r0 Hv) as (cp & r & Hcp & _ & Hr & Hl & Hn & _).
    rewrite (escape_code_points _ _ r Hcp), ascii_only_append.
    rewrite escape_code_point_ascii by exact Hn.
    rewrite IH by (assumption || lia). reflexivity.
Qed.

Lemma dumps_str_ascii (s : string) : utf8_text s -> ascii_only (dumps_str s) = true.
Proof.
  intros Hv. unfold dumps_str. cbn [append ascii_only].
  rewrite ascii_only_append, (escape_ascii (String.length s)) by (lia || assumption).
  reflexivity.
Qed.

Lemma member_text_ascii (kv : string * string) :
  utf8_text (fst kv) -> utf8_text (snd kv) -> ascii_only (member_text kv) = true.
Proof.
  intros Hk Hv. unfold member_text.
  rewrite !ascii_only_append, !dumps_str_ascii by assumption. reflexivity.
Qed.

Lemma ascii_only_utf8 (s : string) : ascii_only s = true -> utf8_text s.
Proof.
  unfold utf8_text, bytes_of.
  induction s as [|c r IH]; cbn [ascii_only list_ascii_of_string map];
    [reflexivity |].
  intros H. apply andb_prop in H. destruct H as [Hc Hr].
  rewrite utf8_valid_eq.
  destruct (N.leb_spec (N_of_ascii c) 127); [now apply IH |].
  apply N.ltb_lt in Hc. lia.
Qed.

Lemma byte_of_ascii_to_N (c : ascii) : Byte.to_N (byte_of_ascii c) = N_of_ascii c.
Proof. destruct c as [[] [] [] [] [] [] [] []]; reflexivity. Qed.

(** Encoding a well-formed text and decoding the bytes gives the text. *)
Lemma decode_encode_utf8 (s : string) :
  utf8_text s -> decode_utf8 (encode_utf8 s) = Some s.
Proof.
  intros Hv. unfold decode_utf8, encode_utf8, list_byte_of_string.
  rewrite map_map.
  rewrite (map_ext _ N_of_ascii byte_of_ascii_to_N).
  fold (bytes_of s). rewrite Hv.
  fold (list_byte_of_string s). now rewrite string_of_list_byte_of_string.
Qed.

Lemma dumps_envelope_ascii (msg now environment : string) :
  utf8_text msg -> utf8_text now -> utf8_text environment ->
  ascii_only (dumps (PDict (envelope msg now environment))) = true.
Proof.
  intros Hm Hn He. rewrite dumps_envelope. cbn [ascii_only].
  rewrite !ascii_only_append, !member_text_ascii by (assumption || reflexivity).
  reflexivity.
Qed.

End WireFormat.

(** ** The produce endpoint *)

Section EndpointFacts.

Import Producer.

Context {json : JsonLib}.
Variable env : Config.environ.
Variable net : transport.

Lemma truthy_false (s : option string) :
  truthy s = false <-> s = None \/ s = Some EmptyString.
Proof.
  destruct s as [[|c r]|]; cbn; split; intros H; auto; try discriminate H.
  - destruct H as [H | H]; discriminate H.
Qed.

Lemma truthy_some (t : string) : t <> EmptyString -> truthy (Some t) = true.
Proof. destruct t; [contradiction | reflexivity]. Qed.

(** [flush] serves the queue without raising, and submits nothing. *)
Lemma serve_returns (q : list (string * string)) :
  forall w, exists rest w',
    serve net q w = (Ret rest, w')
    /\ produce_calls w' = produce_calls w
    /\ (List.length rest <= List.length q)%nat.
Proof.
  induction q as [|[t v] r IH]; intros w; cbn [serve].
  - exists [], w. cbn. auto.
  - destruct (report net t v) as [p o | e |].
    + unfold bind at 1. cbn [delivery_callback logger modify].
      match goal with
      | |- context [serve net r ?w0] =>
          destruct (IH w0) as (rest & w' & Hs & Hc & Hl)
      end.
      exists rest, w'. cbn [List.length]. repeat split; auto.
    + unfold bind at 1. cbn [delivery_callback logger modify].
      match goal with
      | |- context [serve net r ?w0] =>
          destruct (IH w0) as (rest & w' & Hs & Hc & Hl)
      end.
      exists rest, w'. cbn [List.length]. repeat split; auto.
    + destruct (IH w) as (rest & w' & Hs & Hc & Hl).
      exists ((t, v) :: rest), w'. unfold bind. rewrite Hs.
      cbn [ret List.length]. repeat split; auto. lia.
Qed.

(** Once the transport has taken the record, the endpoint answers the
    success response, whatever [flush] reports about the delivery. *)
Lemma accepted_record_succeeds (req : request) (now topic msg : string) (w : world) :
  args_get req "topic" = Some topic -> topic <> EmptyString ->
  args_get req "msg" = Some msg -> msg <> EmptyString ->
  produce_fault net topic
    (json_dumps (PDict (envelope msg now (Config.get_environment env)))) = None ->
  exists w',
    produce_message env net req now w
      = (Ret (jsonify (success_body topic
                         (envelope msg now (Config.get_environment env)))), w')
    /\ produce_calls w'
       = (produce_calls w
            ++ [(topic, json_dumps
                          (PDict (envelope msg now (Config.get_environment env))))])%list.
Proof.
  intros Ht Htne Hm Hmne Hok.
  unfold produce_message. rewrite Ht, Hm.
  rewrite (truthy_some _ Htne), (truthy_some _ Hmne). cbn [negb unwrap].
  fold (envelope msg now (Config.get_environment env)).
  unfold producer_produce. rewrite Hok. run_endpoint.
  match goal with
  | |- context [serve net ?q ?w0] =>
      destruct (serve_returns q w0) as (rest & w1 & Hs & Hc & _)
  end.
  rewrite Hs. run_endpoint.
  eexists. split; [reflexivity | exact Hc].
Qed.

(** A record that the transport refuses on the spot gives status 500. *)
Lemma refused_record_fails (req : request) (now topic msg : string) (w : world)
      (c : exception_class) (e : string) :
  args_get req "topic" = Some topic -> topic <> EmptyString ->
  args_get req "msg" = Some msg -> msg <> EmptyString ->
  produce_fault net topic
    (json_dumps (PDict (envelope msg now (Config.get_environment env))))
    = Some (c, e) ->
  exists w',
    produce_message env net req now w
      = (Ret (with_status
                (jsonify [ ("success", PBool false);
                           ("error", PStr ("Failed to produce message: " ++ e)) ])
                500), w').
Proof.
  intros Ht Htne Hm Hmne Hbad.
  unfold produce_message. rewrite Ht, Hm.
  rewrite (truthy_some _ Htne), (truthy_some _ Hmne). cbn [negb unwrap].
  fold (envelope msg now (Config.get_environment env)).
  unfold producer_produce. rewrite Hbad. run_endpoint.
  eexists. reflexivity.
Qed.

(** A request without a usable [topic] or [msg] is answered on the
    spot. *)
Lemma invalid_request_rejected (req : request) (now : string) (w : world) :
  truthy (args_get req "topic") = false \/ truthy (args_get req "msg") = false ->
  exists r,
    produce_message env net req now w = (Ret r, w)
    /\ status r = 400%Z /\ is_success r = false /\ has_error_message r = true.
Proof.
  intros H. unfold produce_message, try_except.
  destruct (truthy (args_get req "topic")) eqn:Et; cbn [negb].
  - destruct H as [H | H]; [discriminate H |]. rewrite H. cbn [negb ret].
    eexists. split; [reflexivity |]. cbn. auto.
  - cbn [ret]. eexists. split; [reflexivity |]. cbn. auto.
Qed.

End EndpointFacts.

(** C5: a request whose [topic] or [msg] parameter is missing or empty is
    answered with status 400, [success: False] and an error text, and
    nothing is submitted to the transport: the world, and with it the list
    of [produce] calls, is unchanged. *)
Theorem invalid_request_400_no_send
        {json : JsonLib} (env : Config.environ) (net : Producer.transport)
        (req : Producer.request) (now : string) (w : Producer.world) :
  Producer.args_get req "topic" = None
  \/ Producer.args_get req "topic" = Some EmptyString
  \/ Producer.args_get req "msg" = None
  \/ Producer.args_get req "msg" = Some EmptyString ->
  exists r w',
    Producer.produce_message env net req now w = (Ret r, w')
    /\ Producer.status r = 400%Z
    /\ Producer.is_success r = false
    /\ Producer.has_error_message r = true
    /\ Producer.produce_calls w' = Producer.produce_calls w
    /\ Producer.queue w' = Producer.queue w.
Proof.
  intros H.
  destruct (invalid_request_rejected env net req now w) as (r & Hr & Hs & Hf & He).
  - rewrite !truthy_false. tauto.
  - exists r, w. repeat split; assumption.
Qed.

Lemma invalid_request_400_no_send_witness :
  exists r w',
    Producer.produce_message [] confirming_transport no_topic_request sample_now
                             Producer.initial = (Ret r, w')
    /\ Producer.status r = 400%Z
    /\ Producer.is_success r = false
    /\ Producer.has_error_message r = true
    /\ Producer.produce_calls w' = []
    /\ Producer.queue w' = [].
Proof.
  apply (invalid_request_400_no_send [] confirming_transport no_topic_request
           sample_now Producer.initial).
  left. reflexivity.
Defined.

(** C6, as stated, fails: with the tag [staging] the resolver selects the
    local profile, and the envelope of a successful request carries
    [staging], which is not the name of that profile; with the tag [AWS]
    it selects the cloud profile and the envelope carries [AWS]. *)
Lemma environment_field_is_not_profile_name :
  exists r data,
    fst (Producer.produce_message env_staging confirming_transport
           payments_request sample_now Producer.initial) = Ret r
    /\ Producer.is_success r = true
    /\ Producer.body r = PDict (success_body "payments" data)
    /\ Config.get_kafka_config env_staging = Config.LOCAL_CONFIG
    /\ profile_name (Config.get_kafka_config env_staging) = "local"
    /\ dict_get data "environment" = Some (PStr "staging")
    /\ dict_get data "environment"
       <> Some (PStr (profile_name (Config.get_kafka_config env_staging)))
    /\ profile_name (Config.get_kafka_config env_cloud) = "aws"
    /\ Config.get_environment env_cloud = "AWS".
Proof.
  exists (Producer.jsonify
            (success_body "payments" (envelope "hello" sample_now "staging"))),
         (envelope "hello" sample_now "staging").
  repeat split; try (vm_compute; reflexivity).
  vm_compute. discriminate.
Qed.

Lemma profile_name_resolved (env : Config.environ) :
  profile_name (Config.get_kafka_config env)
  = if String.eqb (lower (environment_tag env)) "aws" then "aws" else "local".
Proof.
  unfold Config.get_kafka_config, Config.ENVIRONMENT, Config.getenv,
    get_default, environment_tag.
  destruct (dict_get env "KAFKA_ENV") as [tag |];
    [destruct (String.eqb (lower tag) "aws") |]; reflexivity.
Qed.

(** C6, amended: when the endpoint answers a success response to a
    request with a non-empty [topic] and [msg], the response echoes the
    topic, its [data] is the envelope, and the payload handed to the
    transport is [json.dumps] of that envelope, a dictionary with exactly
    the keys [message], [timestamp] and [environment], where [message] is
    the request's [msg].  The [environment] field is the tag of the
    environment as it is given ([local] when [KAFKA_ENV] is absent); it is
    the name of the resolved profile exactly when that tag is [local] or
    [aws] to the letter. *)
Theorem success_echoes_topic_and_envelope
        {json : JsonLib} (env : Config.environ) (net : Producer.transport)
        (req : Producer.request) (now topic msg : string)
        (w w' : Producer.world) (r : Producer.response) :
  Producer.args_get req "topic" = Some topic -> topic <> EmptyString ->
  Producer.args_get req "msg" = Some msg -> msg <> EmptyString ->
  Producer.produce_message env net req now w = (Ret r, w') ->
  Producer.is_success r = true ->
  exists data,
    Producer.status r = 200%Z
    /\ Producer.body r = PDict (success_body topic data)
    /\ dict_keys data = ["message"; "timestamp"; "environment"]
    /\ dict_get data "message" = Some (PStr msg)
    /\ dict_get data "environment" = Some (PStr (environment_tag env))
    /\ (dict_get data "environment"
        = Some (PStr (profile_name (Config.get_kafka_config env)))
        <-> environment_tag env = "local" \/ environment_tag env = "aws")
    /\ Producer.produce_calls w'
       = (Producer.produce_calls w ++ [(topic, json_dumps (PDict data))])%list.
Proof.
  intros Ht Htne Hm Hmne Hrun Hok.
  assert (Htag : Config.get_environment env = environment_tag env) by reflexivity.
  destruct (Producer.produce_fault net topic
              (json_dumps (PDict (envelope msg now (Config.get_environment env)))))
    as [[c e]|] eqn:Hf.
  - destruct (refused_record_fails env net req now topic msg w c e
                Ht Htne Hm Hmne Hf) as (w1 & H1).
    rewrite H1 in Hrun. injection Hrun as Hr _. subst r. discriminate Hok.
  - destruct (accepted_record_succeeds env net req now topic msg w
                Ht Htne Hm Hmne Hf) as (w1 & H1 & Hc).
    rewrite H1 in Hrun. injection Hrun as Hr Hw. subst r w1.
    exists (envelope msg now (Config.get_environment env)).
    split; [reflexivity |]. split; [reflexivity |]. split; [reflexivity |].
    split; [reflexivity |]. split; [now rewrite Htag |].
    split; [| exact Hc].
    change (dict_get (envelope msg now (Config.get_environment env)) "environment")
      with (Some (PStr (Config.get_environment env))).
    rewrite Htag, profile_name_resolved.
    destruct (String.eqb (lower (environment_tag env)) "aws") eqn:E; split.
    + intros H. injection H as H. now right.
    + intros [H | H]; rewrite H in E |- *; [discriminate E | reflexivity].
    + intros H. injection H as H. now left.
    + intros [H | H]; rewrite H in E |- *; [reflexivity | discriminate E].
Qed.

Lemma success_echoes_topic_and_envelope_witness :
  exists data,
    Producer.status
      (Producer.jsonify
         (success_body "payments" (envelope "hello" sample_now "staging")))
    = 200%Z
    /\ Producer.body
         (Producer.jsonify
            (success_body "payments" (envelope "hello" sample_now "staging")))
       = PDict (success_body "payments" data)
    /\ dict_keys data = ["message"; "timestamp"; "environment"]
    /\ dict_get data "message" = Some (PStr "hello")
    /\ dict_get data "environment" = Some (PStr (environment_tag env_staging))
    /\ (dict_get data "environment"
        = Some (PStr (profile_name (Config.get_kafka_config env_staging)))
        <-> environment_tag env_staging = "local"
            \/ environment_tag env_staging = "aws")
    /\ Producer.produce_calls
         (snd (Producer.produce_message env_staging confirming_transport
                 payments_request sample_now Producer.initial))
       = (Producer.produce_calls Producer.initial
            ++ [("payments", json_dumps (PDict data))])%list.
Proof.
  apply (success_echoes_topic_and_envelope
           env_staging confirming_transport payments_request sample_now
           "payments" "hello" Producer.initial).
  - reflexivity.
  - discriminate.
  - reflexivity.
  - discriminate.
  - vm_compute. reflexivity.
  - reflexivity.
Defined.

(** The payload of that request, read back with the reference library, is
    the three-key object. *)
Example payload_reads_back :
  json_loads (json_dumps (PDict (envelope "hello" sample_now "local")))
  = Some (PDict (envelope "hello" sample_now "local")).
Proof. vm_compute. reflexivity. Qed.

(** C1, on the failing inputs: a request whose record the transport
    reports as failed (the callback logs the error), and one whose record
    is still unacknowledged when [flush] gives up (it stays queued), both
    get the success response with status 200. *)
Theorem unconfirmed_delivery_answers_200 :
  (exists w',
      Producer.produce_message [] failing_transport payments_request sample_now
                               Producer.initial
      = (Ret {| Producer.body :=
                  PDict (success_body "payments" (envelope "hello" sample_now "local"));
                Producer.status := 200 |}, w')
      /\ In (ERROR, "Message delivery failed: Local: Message timed out")
            (Producer.log w'))
  /\ (exists w',
      Producer.produce_message [] silent_transport payments_request sample_now
                               Producer.initial
      = (Ret {| Producer.body :=
                  PDict (success_body "payments" (envelope "hello" sample_now "local"));
                Producer.status := 200 |}, w')
      /\ List.length (Producer.queue w') = 1%nat).
Proof.
  split; eexists; (split; [vm_compute; reflexivity |]); vm_compute; auto.
Qed.


(** ** The diagnostic *)

Section DiagnoseFacts.

Import Diagnose.

Variable net : network.

Lemma only_prints_refl (w : world) : only_prints w w.
Proof.
  repeat split. exists []. now rewrite app_nil_r.
Qed.

Lemma only_prints_trans (w1 w2 w3 : world) :
  only_prints w1 w2 -> only_prints w2 w3 -> only_prints w1 w3.
Proof.
  intros (Ht & Hs & Ha & m1 & H1) (Ht' & Hs' & Ha' & m2 & H2).
  repeat split; try congruence.
  exists (m1 ++ m2)%list. now rewrite H2, H1, app_assoc.
Qed.

Lemma print_only_prints (line : string) (w : world) :
  exists w', print line w = (Ret tt, w') /\ only_prints w w'
             /\ In line (stdout w').
Proof.
  eexists. split; [reflexivity |]. split.
  - repeat split. exists [line]. reflexivity.
  - cbn [Diagnose.stdout Diagnose.tcp_probes Diagnose.ssl_probes Diagnose.attempts fst snd]. apply in_or_app. right. now left.
Qed.


Lemma print_each_only_prints (pre : string) (l : list string) :
  forall w, exists w', print_each pre l w = (Ret tt, w') /\ only_prints w w'.
Proof.
  induction l as [|x r IH]; intros w; cbn [print_each].
  - exists w. split; [reflexivity | apply only_prints_refl].
  - destruct (print_only_prints (pre ++ x) w) as (w1 & H1 & P1 & _).
    destruct (IH w1) as (w2 & H2 & P2).
    exists w2. unfold bind. rewrite H1, H2.
    split; [reflexivity | eapply only_prints_trans; eassumption].
Qed.

(** An attempt always returns: every fault is caught inside it.  It
    opens one handle, with the configuration under test. *)
Lemma test_kafka_config_returns (cfg : dict) (config_name : string) (w : world) :
  exists w',
    test_kafka_config net cfg config_name w = (Ret (probe_ok net cfg), w')
    /\ tcp_probes w' = tcp_probes w
    /\ ssl_probes w' = ssl_probes w
    /\ attempts w' = (attempts w ++ [cfg])%list
    /\ exists more, stdout w' = (stdout w ++ more)%list.
Proof.
  unfold test_kafka_config, probe_ok.
  destruct (new_producer net cfg) as [[c e]|] eqn:Hn.
  - run_diag. rewrite Hn. run_diag.
    eexists. split; [reflexivity |]. cbn [Diagnose.stdout Diagnose.tcp_probes Diagnose.ssl_probes Diagnose.attempts fst snd].
    repeat split. eexists. rewrite <- !app_assoc. reflexivity.
  - destruct (list_topics net cfg) as [topics | [c e]] eqn:Hl.
    + destruct (close_producer net cfg) as [[c e]|] eqn:Hc.
      * destruct topics as [|t ts].
        -- run_diag. rewrite Hn, Hl. run_diag. rewrite Hc. run_diag.
           eexists. split; [reflexivity |]. cbn [Diagnose.stdout Diagnose.tcp_probes Diagnose.ssl_probes Diagnose.attempts fst snd].
           repeat split. eexists. rewrite <- !app_assoc. reflexivity.
        -- run_diag. rewrite Hn, Hl. run_diag.
           match goal with
           | |- context [print_each ?p ?l ?w0] =>
               destruct (print_each_only_prints p l w0)
                 as (w1 & H1 & Ht & Hs & Ha & more & Ho)
           end.
           rewrite H1. run_diag. rewrite Hc. run_diag.
           eexists. split; [reflexivity |]. cbn [Diagnose.stdout Diagnose.tcp_probes Diagnose.ssl_probes Diagnose.attempts fst snd] in *.
           repeat split; try assumption.
           eexists. rewrite Ho. rewrite <- !app_assoc. reflexivity.
      * destruct topics as [|t ts].
        -- run_diag. rewrite Hn, Hl. run_diag. rewrite Hc. run_diag.
           eexists. split; [reflexivity |]. cbn [Diagnose.stdout Diagnose.tcp_probes Diagnose.ssl_probes Diagnose.attempts fst snd].
           repeat split. eexists. rewrite <- !app_assoc. reflexivity.
        -- run_diag. rewrite Hn, Hl. run_diag.
           match goal with
           | |- context [print_each ?p ?l ?w0] =>
               destruct (print_each_only_prints p l w0)
                 as (w1 & H1 & Ht & Hs & Ha & more & Ho)
           end.
           rewrite H1. run_diag. rewrite Hc. run_diag.
           eexists. split; [reflexivity |]. cbn [Diagnose.stdout Diagnose.tcp_probes Diagnose.ssl_probes Diagnose.attempts fst snd] in *.
           repeat split; try assumption.
           eexists. rewrite Ho. rewrite <- !app_assoc. reflexivity.
    + run_diag. rewrite Hn, Hl. run_diag.
      eexists. split; [reflexivity |]. cbn [Diagnose.stdout Diagnose.tcp_probes Diagnose.ssl_probes Diagnose.attempts fst snd].
      repeat split. eexists. rewrite <- !app_assoc. reflexivity.
Qed.

(** The loop over the variants tries every entry, in order, and keeps
    the ones whose attempt worked. *)
Lemma try_configs_all (todo : list config_test) :
  forall (successful : list config_test) (w : world),
  exists w',
    try_configs net todo successful w
      = (Ret (successful ++ filter (fun c => probe_ok net (config c)) todo)%list, w')
    /\ tcp_probes w' = tcp_probes w
    /\ ssl_probes w' = ssl_probes w
    /\ attempts w' = (attempts w ++ map config todo)%list
    /\ exists more, stdout w' = (stdout w ++ more)%list.
Proof.
  induction todo as [|c rest IH]; intros successful w; cbn [try_configs filter map].
  - exists w. rewrite !app_nil_r. repeat split. exists []. now rewrite app_nil_r.
  - destruct (test_kafka_config_returns (config c) (name c) w)
      as (w1 & H1 & Ht1 & Hs1 & Ha1 & m1 & Ho1).
    unfold bind at 1. rewrite H1.
    destruct (IH (if probe_ok net (config c)
                  then (successful ++ [c])%list else successful) w1)
      as (w2 & H2 & Ht2 & Hs2 & Ha2 & m2 & Ho2).
    exists w2. rewrite H2. split.
    + destruct (probe_ok net (config c)); [| reflexivity].
      now rewrite <- app_assoc.
    + repeat split; try congruence.
      * rewrite Ha2, Ha1, <- app_assoc. reflexivity.
      * exists (m1 ++ m2)%list. rewrite Ho2, Ho1, app_assoc. reflexivity.
Qed.



(** The outcome of the TCP probe does not depend on the world. *)
Lemma test_connection_outcome (host : string) (port : Z) (w : world) :
  exists w',
    test_connection net host port w = (Ret (tcp_ok net host port), w')
    /\ tcp_probes w' = S (tcp_probes w)
    /\ ssl_probes w' = ssl_probes w
    /\ attempts w' = attempts w
    /\ exists more, stdout w' = (stdout w ++ more)%list.
Proof.
  unfold test_connection, tcp_ok. run_diag.
  destruct (connect_ex net host port) as [errno | [c e]].
  - eexists. split; [reflexivity |]. cbn [Diagnose.stdout Diagnose.tcp_probes Diagnose.ssl_probes Diagnose.attempts fst snd]. repeat split.
    exists []. now rewrite app_nil_r.
  - eexists. split; [reflexivity |]. cbn [Diagnose.stdout Diagnose.tcp_probes Diagnose.ssl_probes Diagnose.attempts fst snd]. repeat split.
    eexists. reflexivity.
Qed.

Lemma test_ssl_connection_outcome (host : string) (port : Z) (w : world) :
  exists w',
    test_ssl_connection net host port w = (Ret (ssl_ok net host port), w')
    /\ tcp_probes w' = tcp_probes w
    /\ ssl_probes w' = S (ssl_probes w)
    /\ attempts w' = attempts w
    /\ exists more, stdout w' = (stdout w ++ more)%list.
Proof.
  unfold test_ssl_connection, ssl_ok. run_diag.
  destruct (tls_connect net host port) as [[c e]|].
  - eexists. split; [reflexivity |]. cbn [Diagnose.stdout Diagnose.tcp_probes Diagnose.ssl_probes Diagnose.attempts fst snd]. repeat split.
    eexists. reflexivity.
  - eexists. split; [reflexivity |]. cbn [Diagnose.stdout Diagnose.tcp_probes Diagnose.ssl_probes Diagnose.attempts fst snd]. repeat split.
    exists []. now rewrite app_nil_r.
Qed.

(** [main] when the TCP probe fails. *)
Lemma main_tcp_failed :
  tcp_ok net "localhost" 9092 = false ->
  exists w',
    main net start = (Ret None, w')
    /\ tcp_probes w' = 1%nat
    /\ ssl_probes w' = 0%nat
    /\ attempts w' = []
    /\ exists before,
        stdout w'
        = (before
             ++ [ "   ❌ TCP connection failed";
                  "   💡 Make sure Kafka is running and accessible on this port" ])%list.
Proof.
  intros Hf. unfold main. run_diag.
  match goal with
  | |- context [test_connection net ?h ?p ?w0] =>
      destruct (test_connection_outcome h p w0)
        as (w1 & H1 & Ht & Hs & Ha & more & Ho)
  end.
  rewrite H1, Hf. run_diag.
  eexists. split; [reflexivity |]. cbn [Diagnose.stdout Diagnose.tcp_probes Diagnose.ssl_probes Diagnose.attempts fst snd] in *.
  repeat split; try assumption.
  eexists. rewrite <- app_assoc. reflexivity.
Qed.


Lemma tcp_ok_from_run (b : bool) :
  fst (test_connection net "localhost" 9092 start) = Ret b ->
  tcp_ok net "localhost" 9092 = b.
Proof.
  destruct (test_connection_outcome "localhost" 9092 start) as (w' & H & _).
  rewrite H. cbn [fst]. intros E. now injection E.
Qed.


End DiagnoseFacts.

(** C7: when the TCP probe fails, [main] reports the failure and returns
    at once: one TCP probe ran, the SSL probe did not run, no
    configuration variant was attempted, and the two lines of the failure
    report are the last output. *)
Theorem tcp_failure_stops_diagnostic (net : Diagnose.network) :
  fst (Diagnose.test_connection net "localhost" 9092 Diagnose.start) = Ret false ->
  exists w',
    Diagnose.main net Diagnose.start = (Ret None, w')
    /\ Diagnose.tcp_probes w' = 1%nat
    /\ Diagnose.ssl_probes w' = 0%nat
    /\ Diagnose.attempts w' = []
    /\ exists before,
        Diagnose.stdout w'
        = (before
             ++ [ "   ❌ TCP connection failed";
                  "   💡 Make sure Kafka is running and accessible on this port" ])%list.
Proof.
  intros H. apply main_tcp_failed. now apply tcp_ok_from_run.
Qed.

Lemma tcp_failure_stops_diagnostic_witness :
  exists w',
    Diagnose.main unreachable Diagnose.start = (Ret None, w')
    /\ Diagnose.tcp_probes w' = 1%nat
    /\ Diagnose.ssl_probes w' = 0%nat
    /\ Diagnose.attempts w' = []
    /\ exists before,
        Diagnose.stdout w'
        = (before
             ++ [ "   ❌ TCP connection failed";
                  "   💡 Make sure Kafka is running and accessible on this port" ])%list.
Proof.
  apply (tcp_failure_stops_diagnostic unreachable). reflexivity.
Defined.



(** On that broker the first variant fails, the second works and is the
    one reported, and the third is still attempted. *)
Example picky_broker_run :
  fst (Diagnose.main picky_broker Diagnose.start)
    = Ret (Some [Diagnose.plaintext_no_api "localhost" 9092])
  /\ List.length (Diagnose.attempts (snd (Diagnose.main picky_broker Diagnose.start)))
     = 3%nat.
Proof. split; vm_compute; reflexivity. Qed.

(** ** The consumer loop *)

Section ConsumerFrame.

Import Consumer.

Lemma undisturbed_refl (w : world) : undisturbed w w.
Proof. repeat split; auto. Qed.

Lemma undisturbed_trans (w1 w2 w3 : world) :
  undisturbed w1 w2 -> undisturbed w2 w3 -> undisturbed w1 w3.
Proof.
  intros (Ho & Hc & Hb & Hs) (Ho' & Hc' & Hb' & Hs').
  repeat split; try congruence. auto.
Qed.

Lemma steady_framed {A} (m : M world A) : steady m -> framed m.
Proof. intros H w. apply H. Qed.

Lemma steady_ret {A} (a : A) : steady (ret (W := world) a).
Proof. intros w. split; [discriminate | apply undisturbed_refl]. Qed.

Lemma steady_raise {A} (e : exn) : steady (raise (W := world) (A := A) e).
Proof. intros w. split; [discriminate | apply undisturbed_refl]. Qed.

Lemma steady_gets {A} (f : world -> A) : steady (gets f).
Proof. intros w. split; [discriminate | apply undisturbed_refl]. Qed.

Lemma steady_bind {A B} (m : M world A) (k : A -> M world B) :
  steady m -> (forall a, steady (k a)) -> steady (bind m k).
Proof.
  intros Hm Hk w. unfold bind. destruct (Hm w) as [Hr Hu].
  destruct (m w) as [[a | e |] w1]; cbn [fst snd] in *.
  - destruct (Hk a w1) as [Hr' Hu'].
    split; [exact Hr' | eapply undisturbed_trans; eassumption].
  - split; [discriminate | exact Hu].
  - now contradiction Hr.
Qed.

Lemma framed_bind {A B} (m : M world A) (k : A -> M world B) :
  framed m -> (forall a, framed (k a)) -> framed (bind m k).
Proof.
  intros Hm Hk w. unfold bind. specialize (Hm w).
  destruct (m w) as [[a | e |] w1]; cbn [fst snd] in *; try exact Hm.
  eapply undisturbed_trans; [exact Hm | apply Hk].
Qed.

Lemma steady_try_except {A} (body : M world A) (handler : exn -> option (M world A)) :
  steady body -> (forall e h, handler e = Some h -> steady h) ->
  steady (try_except body handler).
Proof.
  intros Hb Hh w. unfold try_except. destruct (Hb w) as [Hr Hu].
  destruct (body w) as [[a | e |] w1]; cbn [fst snd] in *.
  - split; [discriminate | exact Hu].
  - destruct (handler e) as [h|] eqn:E.
    + destruct (Hh e h E w1) as [Hr' Hu'].
      split; [exact Hr' | eapply undisturbed_trans; eassumption].
    + split; [discriminate | exact Hu].
  - now contradiction Hr.
Qed.

Lemma framed_try_except {A} (body : M world A) (handler : exn -> option (M world A)) :
  framed body -> (forall e h, handler e = Some h -> framed h) ->
  framed (try_except body handler).
Proof.
  intros Hb Hh w. unfold try_except. specialize (Hb w).
  destruct (body w) as [[a | e |] w1]; cbn [fst snd] in *; try exact Hb.
  destruct (handler e) as [h|] eqn:E; cbn [snd]; [| exact Hb].
  eapply undisturbed_trans; [exact Hb | apply (Hh e h E)].
Qed.

Lemma steady_logger (lv : level) (text : string) : steady (logger lv text).
Proof. intros w. split; [discriminate | repeat split; auto]. Qed.

Lemma steady_set_message_count (n : nat) : steady (modify (set_message_count n)).
Proof. intros w. split; [discriminate | repeat split; auto]. Qed.

Lemma steady_checkpoint : steady checkpoint.
Proof.
  intros w. unfold checkpoint.
  destruct (sigint w) as [[|k]|] eqn:E; cbn [fst snd];
    (split; [discriminate |]); repeat split; cbn; auto;
    intros H; congruence.
Qed.

Lemma steady_print (line : string) : steady (print line).
Proof.
  unfold print. apply steady_bind; [apply steady_checkpoint |].
  intros _ w. split; [discriminate | repeat split; auto].
Qed.

Lemma steady_sys_exit {A} (status : Z) : steady (sys_exit (A := A) status).
Proof. apply steady_raise. Qed.

Lemma steady_method_get (v : pyval) (key : string) (default : pyval) :
  steady (method_get v key default).
Proof. destruct v; cbn [method_get]; (apply steady_ret || apply steady_raise). Qed.

Lemma steady_value_decode (msg : Message) : steady (value_decode msg).
Proof.
  unfold value_decode. destruct (value msg) as [b|]; [| apply steady_raise].
  destruct (decode_utf8 b); [apply steady_ret | apply steady_raise].
Qed.

Lemma steady_consumer_poll (ev : poll_event) : steady (consumer_poll ev).
Proof.
  destruct ev as [| msg | | [c m]]; cbn [consumer_poll];
    (apply steady_ret || apply steady_raise).
Qed.

End ConsumerFrame.

Create HintDb steady.

#[local] Hint Resolve steady_ret steady_raise steady_gets steady_bind
  steady_logger steady_set_message_count steady_checkpoint steady_print
  steady_sys_exit steady_method_get steady_value_decode steady_consumer_poll
  : steady.

Section ConsumerLoop.

Import Consumer.

Context {json : JsonLib}.

Lemma steady_loads (text : string) : steady (loads text).
Proof. unfold loads. destruct (json_loads text); auto with steady. Qed.

Lemma steady_header (msg : Message) : steady (header msg).
Proof. unfold header. auto 10 with steady. Qed.

Lemma steady_render_json (msg : Message) : steady (render_json msg).
Proof.
  unfold render_json.
  apply steady_bind; [apply steady_value_decode | intros text].
  apply steady_bind; [apply steady_loads | intros message_data].
  apply steady_bind; [apply steady_header | intros _].
  auto 20 with steady.
Qed.

Lemma steady_render_raw (msg : Message) : steady (render_raw msg).
Proof.
  unfold render_raw.
  apply steady_bind; [apply steady_header | intros _].
  auto 10 with steady.
Qed.

Lemma steady_process (msg : Message) : steady (process msg).
Proof.
  unfold process.
  apply steady_bind; [apply steady_gets | intros n].
  apply steady_bind; [apply steady_set_message_count | intros _].
  apply steady_try_except; [apply steady_render_json |].
  intros e h. destruct e as [| code | [] m]; intros E; try discriminate E.
  injection E as <-. apply steady_render_raw.
Qed.

(** One turn of the loop comes to an end and leaves the handle alone. *)
Lemma steady_iteration (ev : poll_event) : steady (iteration ev).
Proof.
  unfold iteration.
  apply steady_bind; [apply steady_consumer_poll | intros [msg|]].
  - destruct (error msg) as [err|]; [| apply steady_process].
    destruct (code err =? _PARTITION_EOF)%Z; apply steady_logger.
  - apply steady_ret.
Qed.

(** The loop never touches the handle. *)
Lemma framed_poll_loop (script : list poll_event) : framed (poll_loop script).
Proof.
  induction script as [|ev rest IH]; cbn [poll_loop].
  - intros w. apply undisturbed_refl.
  - apply framed_bind; [apply steady_framed, steady_iteration | intros _; exact IH].
Qed.

(** A script that has left the loop running can be continued. *)
Lemma poll_loop_app (pre rest : list poll_event) :
  forall w w1,
    poll_loop pre w = (Running, w1) ->
    poll_loop (pre ++ rest) w = poll_loop rest w1.
Proof.
  induction pre as [|ev pre IH]; intros w w1; cbn [poll_loop app].
  - intros H. injection H as ->. reflexivity.
  - unfold bind. destruct (steady_iteration ev w) as [Hr _].
    destruct (iteration ev w) as [[[] | e |] w2]; cbn [fst] in Hr.
    + apply IH.
    + discriminate.
    + now contradiction Hr.
Qed.

End ConsumerLoop.

Section ConsumerRuns.

Import Consumer.

Context {json : JsonLib}.
Variable env : Config.environ.
Variable lib : client.

(** The fallback rendering, with no signal pending. *)
Lemma process_raw (msg : Message) (b : bytes) (text : string) (w : world) :
  value msg = Some b -> decode_utf8 b = Some text -> json_loads text = None ->
  sigint w = None ->
  process msg w
    = (Ret tt,
       set_stdout (fun out => (out ++ raw_lines msg text (message_count w + 1))%list)
         (set_message_count (message_count w + 1) w)).
Proof.
  intros Hv Hd Hj Hs. destruct w as [out lg sg op sub cl bd n].
  cbn [sigint] in Hs. subst sg.
  unfold process, render_json, render_raw, value_decode, loads.
  rewrite Hv, Hd. run_consumer. rewrite Hj. run_consumer.
  unfold raw_lines. rewrite <- !app_assoc. reflexivity.
Qed.

(** The structured rendering of a payload that reads as a dictionary. *)
Lemma process_structured (msg : Message) (b : bytes) (text : string)
      (d : dict) (w : world) :
  value msg = Some b -> decode_utf8 b = Some text ->
  json_loads text = Some (PDict d) -> sigint w = None ->
  process msg w
    = (Ret tt,
       set_stdout (fun out => (out ++ json_lines msg d (message_count w + 1))%list)
         (set_message_count (message_count w + 1) w)).
Proof.
  intros Hv Hd Hj Hs. destruct w as [out lg sg op sub cl bd n].
  cbn [sigint] in Hs. subst sg.
  unfold process, render_json, value_decode, loads.
  rewrite Hv, Hd. cbv beta iota delta [bind ret gets modify try_except].
  rewrite Hj. run_consumer.
  unfold json_lines. rewrite <- !app_assoc. reflexivity.
Qed.

(** The structured rendering of a value that is not a dictionary stops
    at the first [.get], after the four header lines; no clause of the
    inner [try] takes the [AttributeError]. *)
Lemma process_non_object (msg : Message) (b : bytes) (text : string)
      (v : pyval) (w : world) :
  value msg = Some b -> decode_utf8 b = Some text -> json_loads text = Some v ->
  is_dict v = false -> sigint w = None ->
  process msg w
    = (Raise (Exception AttributeError
                ("'" ++ type_name v ++ "' object has no attribute 'get'")),
       set_stdout (fun out => (out ++ header_lines msg (message_count w + 1))%list)
         (set_message_count (message_count w + 1) w)).
Proof.
  intros Hv Hd Hj Hn Hs. destruct w as [out lg sg op sub cl bd n].
  cbn [sigint] in Hs. subst sg.
  unfold process, render_json, value_decode, loads.
  rewrite Hv, Hd. run_consumer. rewrite Hj.
  destruct v; try discriminate Hn; run_consumer;
    unfold header_lines; rewrite <- !app_assoc; reflexivity.
Qed.

(** Bytes that are not UTF-8 leave the inner [try] as
    [UnicodeDecodeError], before anything is printed. *)
Lemma process_undecodable (msg : Message) (b : bytes) (w : world) :
  value msg = Some b -> decode_utf8 b = None ->
  process msg w
    = (Raise (Exception UnicodeDecodeError "'utf-8' codec can't decode bytes"),
       set_message_count (message_count w + 1) w).
Proof.
  intros Hv Hd. destruct w as [out lg sg op sub cl bd n].
  unfold process, render_json, value_decode.
  rewrite Hv, Hd. run_consumer. reflexivity.
Qed.

Lemma steady_on_interrupt (e : exn) (h : M world unit) :
  on_interrupt e = Some h -> steady h.
Proof.
  destruct e; cbn [on_interrupt]; intros E; try discriminate E.
  injection E as <-. auto 10 with steady.
Qed.

Lemma steady_on_exception (e : exn) (h : M world unit) :
  on_exception e = Some h -> steady h.
Proof.
  destruct e; cbn [on_exception except_Exception]; intros E; try discriminate E.
  injection E as <-. auto 10 with steady.
Qed.

Lemma steady_consumer_subscribe (topics : list string) :
  steady (consumer_subscribe lib topics).
Proof.
  unfold consumer_subscribe. destruct (subscribe_fault lib) as [[c m]|].
  - apply steady_raise.
  - intros w. split; [discriminate | repeat split; auto].
Qed.

(** The [finally] block ends, and closes the handle once when the local
    [consumer] is bound. *)
Lemma cleanup_effect (w : world) :
  fst (cleanup lib w) <> Running
  /\ opened (snd (cleanup lib w)) = opened w
  /\ closes (snd (cleanup lib w))
     = if consumer_bound w then S (closes w) else closes w.
Proof.
  unfold cleanup, consumer_close. run_consumer.
  destruct w as [out lg sg op sub cl [|] n]; cbn.
  - destruct (close_fault lib) as [[c m]|]; cbn; repeat split; discriminate.
  - repeat split; discriminate.
Qed.

(** What is left of the function once the handle exists: the body after
    [Consumer(...)], which never touches the handle. *)
Lemma framed_after_creation (topic_name : string) (script : list poll_event) :
  framed
    (logger INFO ("Starting consumer for topic: " ++ topic_name) ;;
     logger INFO ("Environment: " ++ Config.get_environment env) ;;
     logger INFO ("Kafka config: " ++ repr (PDict (Config.get_kafka_config env))) ;;
     consumer_subscribe lib [topic_name] ;;
     print (newline ++ "🚀 Consumer started! Listening to topic: '"
            ++ topic_name ++ "'") ;;
     print ("Press Ctrl+C to stop the consumer" ++ newline) ;;
     print separator ;;
     modify (set_message_count 0) ;;
     try_except (poll_loop script) on_interrupt).
Proof.
  repeat (apply framed_bind;
          [apply steady_framed;
           first [apply steady_logger | apply steady_consumer_subscribe
                 | apply steady_print | apply steady_set_message_count]
          | intros _]).
  apply framed_try_except; [apply framed_poll_loop |].
  intros e h E. apply steady_framed. eapply steady_on_interrupt; exact E.
Qed.

(** The handle at the entry of the [finally] block, for any body [rest]
    that leaves the handle alone once it exists. *)
Lemma handle_before_cleanup (cfg : dict) (rest : M world unit) (w : world) :
  framed rest ->
  let run := try_except (Consumer_new lib cfg ;; rest) on_exception w in
  closes (snd run) = closes w
  /\ match create_fault lib with
     | None => opened (snd run) = S (opened w) /\ consumer_bound (snd run) = true
     | Some _ => opened (snd run) = opened w
                 /\ consumer_bound (snd run) = consumer_bound w
     end.
Proof.
  intros Hk. cbv zeta. unfold try_except, bind, Consumer_new.
  destruct (create_fault lib) as [[c m]|].
  - cbn [raise on_exception except_Exception].
    match goal with
    | |- context [snd (?h w)] =>
        assert (Hh : steady h) by auto 10 with steady;
        destruct (Hh w) as [_ (Ho & Hc & Hb & _)]
    end.
    auto.
  - cbn [modify].
    match goal with
    | |- context [rest ?w1] =>
        pose proof (Hk w1) as (Ho & Hc & Hb & _);
        destruct (rest w1) as [[[] | e |] w2]
    end; cbn [snd opened closes consumer_bound] in Ho, Hc, Hb.
    + cbn [snd]. auto.
    + destruct (on_exception e) as [h|] eqn:Eh; cbn [snd]; [| auto].
      destruct (steady_on_exception e h Eh w2) as [_ (Ho' & Hc' & Hb' & _)].
      repeat split; congruence.
    + cbn [snd]. auto.
Qed.

(** With no signal pending and a handle that opens and subscribes, the
    function is its handlers around the loop started in [loop_entry]. *)
Lemma consume_messages_quiet (topic_name : string) (script : list poll_event)
      (w : world) :
  sigint w = None -> create_fault lib = None -> subscribe_fault lib = None ->
  consume_messages env lib topic_name script w
    = try_finally
        (try_except (try_except (poll_loop script) on_interrupt) on_exception)
        (cleanup lib) (loop_entry env topic_name w).
Proof.
  intros Hs Hc Hsub. destruct w as [out lg sg op sub cl bd n].
  cbn [sigint] in Hs. subst sg.
  unfold consume_messages, Consumer_new, consumer_subscribe.
  rewrite Hc, Hsub. reflexivity.
Qed.

Lemma try_finally_running {A} (body : M world A) (fin : M world unit)
      (w w1 : world) :
  (forall w0, fst (fin w0) <> Running) ->
  try_finally body fin w = (Running, w1) -> body w = (Running, w1).
Proof.
  intros Hf. unfold try_finally.
  destruct (body w) as [[a | e |] w2]; try (intros H; exact H);
    specialize (Hf w2); destruct (fin w2) as [[[] | e' |] w3]; cbn [fst] in Hf;
    intros H; try discriminate H; now contradiction Hf.
Qed.

Lemma try_except_running {A} (body : M world A)
      (handler : exn -> option (M world A)) (w w1 : world) :
  (forall e h, handler e = Some h -> steady h) ->
  try_except body handler w = (Running, w1) -> body w = (Running, w1).
Proof.
  intros Hh. unfold try_except.
  destruct (body w) as [[a | e |] w2]; intros H; try discriminate H; [| exact H].
  destruct (handler e) as [h|] eqn:E; [| discriminate H].
  destruct (Hh e h E w2) as [Hr _]. rewrite H in Hr. now contradiction Hr.
Qed.

(** A run that is still going has come through the set-up without a
    fault, and its loop is still going. *)
Lemma running_inversion (topic_name : string) (script : list poll_event)
      (w w1 : world) :
  sigint w = None ->
  consume_messages env lib topic_name script w = (Running, w1) ->
  create_fault lib = None /\ subscribe_fault lib = None
  /\ poll_loop script (loop_entry env topic_name w) = (Running, w1).
Proof.
  intros Hs H.
  destruct (create_fault lib) as [[c m]|] eqn:Hc.
  - exfalso. destruct w as [out lg sg op sub cl bd n].
    cbn [sigint] in Hs. subst sg.
    unfold consume_messages, Consumer_new in H. rewrite Hc in H.
    revert H. run_consumer. unfold cleanup. run_consumer.
    destruct bd; [unfold consumer_close; run_consumer;
                  destruct (close_fault lib) as [[c' m']|] |];
      intros H; discriminate H.
  - destruct (subscribe_fault lib) as [[c m]|] eqn:Hsub.
    + exfalso. destruct w as [out lg sg op sub cl bd n].
      cbn [sigint] in Hs. subst sg.
      unfold consume_messages, Consumer_new, consumer_subscribe in H.
      rewrite Hc, Hsub in H.
      revert H. run_consumer. unfold cleanup. run_consumer.
      unfold consumer_close. run_consumer.
      destruct (close_fault lib) as [[c' m']|]; intros H; discriminate H.
    + split; [reflexivity |]. split; [reflexivity |].
      rewrite (consume_messages_quiet topic_name script w Hs Hc Hsub) in H.
      apply try_finally_running in H; [| intros w0; apply cleanup_effect].
      apply try_except_running in H; [| apply steady_on_exception].
      apply try_except_running in H; [| apply steady_on_interrupt].
      exact H.
Qed.

(** Ctrl+C during the idle wait ends a running consumer: the handler
    prints the two closing lines with the count, the function returns
    and the handle is closed. *)
Lemma interrupt_ends_run (topic_name : string) (pre rest : list poll_event)
      (w0 w1 : world) :
  sigint w0 = None -> close_fault lib = None ->
  consume_messages env lib topic_name pre w0 = (Running, w1) ->
  exists w',
    consume_messages env lib topic_name (pre ++ Interrupted :: rest) w0
      = (Ret tt, w')
    /\ closes w' = S (closes w0)
    /\ message_count w' = message_count w1
    /\ stdout w'
       = (stdout w1
            ++ [ (newline ++ newline ++ "🛑 Consumer stopped by user")%string;
                 ("📊 Total messages consumed: "
                    ++ str_of_nat (message_count w1))%string ])%list.
Proof.
  intros Hs Hcl Hrun.
  destruct (running_inversion topic_name pre w0 w1 Hs Hrun) as (Hc & Hsub & Hloop).
  rewrite (consume_messages_quiet topic_name _ w0 Hs Hc Hsub).
  unfold try_finally, try_except.
  rewrite (poll_loop_app pre (Interrupted :: rest) _ _ Hloop).
  pose proof (framed_poll_loop pre (loop_entry env topic_name w0)) as Hf.
  rewrite Hloop in Hf. destruct Hf as (Ho & Hc1 & Hb1 & Hs1).
  cbn [snd loop_entry opened closes consumer_bound sigint] in Ho, Hc1, Hb1, Hs1.
  specialize (Hs1 eq_refl).
  cbn [poll_loop]. unfold bind at 1.
  change (iteration Interrupted w1) with (@Raise unit KeyboardInterrupt, w1).
  cbv beta iota.
  destruct w1 as [out lg sg op sub cl bd n].
  cbn [opened closes consumer_bound sigint] in Ho, Hc1, Hb1, Hs1.
  subst sg op cl bd.
  cbn [raise on_interrupt on_exception except_Exception].
  unfold cleanup, consumer_close. rewrite Hcl.
  run_consumer.
  eexists. split; [reflexivity |].
  cbn [closes message_count stdout].
  repeat split. rewrite <- !app_assoc. reflexivity.
Qed.

End ConsumerRuns.

Section ConsumerSteps.

Import Consumer.

Context {json : JsonLib}.

(** A polled record without an error event goes to [process]. *)
Lemma iteration_polled (msg : Message) (w : world) :
  error msg = None -> iteration (Polled msg) w = process msg w.
Proof.
  intros He. unfold iteration, consumer_poll. unfold bind at 1.
  cbn [ret]. rewrite He. reflexivity.
Qed.

End ConsumerSteps.

(** C2, as stated, fails on payloads that are not JSON envelopes without
    being JSON syntax errors: the text [5] is valid JSON, so the fallback
    is not taken and [.get] raises [AttributeError]; the byte [0xff] is not
    UTF-8, so [decode] raises [UnicodeDecodeError].  Neither is caught by
    [except json.JSONDecodeError]; the loop ends and the process exits
    with status 1 instead of polling on. *)
Lemma non_envelope_payload_stops_consumer :
  fst (Consumer.poll_loop [Consumer.Polled number_record; Consumer.Idle]
         (Consumer.start None))
    = Raise (Exception AttributeError "'int' object has no attribute 'get'")
  /\ fst (Consumer.poll_loop [Consumer.Polled invalid_utf8_record; Consumer.Idle]
            (Consumer.start None))
     = Raise (Exception UnicodeDecodeError "'utf-8' codec can't decode bytes")
  /\ fst (Consumer.consume_messages [] sound_client "payments"
            [Consumer.Polled number_record; Consumer.Idle] (Consumer.start None))
     = Raise (SystemExit 1)
  /\ fst (Consumer.consume_messages [] sound_client "payments"
            [Consumer.Polled invalid_utf8_record; Consumer.Idle] (Consumer.start None))
     = Raise (SystemExit 1).
Proof. repeat split; vm_compute; reflexivity. Qed.

(** C2, amended: a record whose payload decodes as UTF-8 to a text that
    [json.loads] rejects is rendered by the fallback, with no signal
    pending: the turn does not raise, the counter goes up by one, the
    header and the raw text are printed, and the loop goes on with the
    next poll. *)
Theorem non_json_text_rendered_raw
        {json : JsonLib} (msg : Consumer.Message) (b : bytes) (text : string)
        (rest : list Consumer.poll_event) (w : Consumer.world) :
  Consumer.value msg = Some b -> Consumer.error msg = None ->
  decode_utf8 b = Some text -> json_loads text = None ->
  Consumer.sigint w = None ->
  Consumer.poll_loop (Consumer.Polled msg :: rest) w
    = Consumer.poll_loop rest
        (Consumer.set_stdout
           (fun out => (out ++ raw_lines msg text (Consumer.message_count w + 1))%list)
           (Consumer.set_message_count (Consumer.message_count w + 1) w)).
Proof.
  intros Hv He Hd Hj Hs. cbn [Consumer.poll_loop]. unfold bind.
  rewrite (iteration_polled msg w He).
  rewrite (process_raw msg b text w Hv Hd Hj Hs). reflexivity.
Qed.

Lemma non_json_text_rendered_raw_witness :
  Consumer.poll_loop [Consumer.Polled plain_text_record] (Consumer.start None)
    = (Running,
       Consumer.set_stdout
         (fun out => (out ++ raw_lines plain_text_record "plain text" 1)%list)
         (Consumer.set_message_count 1 (Consumer.start None))).
Proof.
  apply (non_json_text_rendered_raw plain_text_record
           (encode_utf8 "plain text") "plain text" [] (Consumer.start None));
    reflexivity.
Defined.

(** C9: whenever [consume_messages] ends, by a handled Ctrl+C, by an
    exception that leaves the function, or by [sys.exit], a handle that
    was created has been closed exactly once; when creating the handle
    fails, there is nothing to close and nothing is closed. *)
Theorem consumer_closed_exactly_once
        {json : JsonLib} (env : Config.environ) (lib : Consumer.client)
        (topic_name : string) (script : list Consumer.poll_event)
        (w w' : Consumer.world) (r : outcome unit) :
  Consumer.consumer_bound w = false ->
  Consumer.consume_messages env lib topic_name script w = (r, w') ->
  r <> Running ->
  match Consumer.create_fault lib with
  | None => Consumer.opened w' = S (Consumer.opened w)
            /\ Consumer.closes w' = S (Consumer.closes w)
  | Some _ => Consumer.opened w' = Consumer.opened w
              /\ Consumer.closes w' = Consumer.closes w
  end.
Proof.
  intros Hb Hrun Hr. unfold Consumer.consume_messages in Hrun. cbv zeta in Hrun.
  unfold try_finally in Hrun.
  match type of Hrun with
  | context [try_except (Consumer.Consumer_new lib ?cfg ;; ?k) _ w] =>
      pose proof (handle_before_cleanup lib cfg k w
                    (framed_after_creation env lib topic_name script)) as Hh;
      cbv zeta in Hh;
      destruct (try_except (Consumer.Consumer_new lib cfg ;; k)
                           Consumer.on_exception w) as [rb wb]
  end.
  cbn [snd] in Hh. destruct Hh as [Hc Hh].
  destruct (cleanup_effect lib wb) as (Hfr & Hfo & Hfc).
  destruct rb as [[] | e |];
    [ | | injection Hrun as <- _; now contradiction Hr ];
    destruct (Consumer.cleanup lib wb) as [[[] | e' |] wc];
    cbn [fst snd] in Hfr, Hfo, Hfc; try (now contradiction Hfr);
    injection Hrun as _ <-;
    destruct (Consumer.create_fault lib);
    destruct Hh as [Ho Hbd]; rewrite Hbd in Hfc; try rewrite Hb in Hfc;
    split; congruence.
Qed.

Lemma consumer_closed_exactly_once_witness :
  Consumer.opened
    (snd (Consumer.consume_messages [] sound_client "payments"
            [Consumer.Idle; Consumer.Polled plain_text_record; Consumer.Interrupted]
            (Consumer.start None))) = 1%nat
  /\ Consumer.closes
       (snd (Consumer.consume_messages [] sound_client "payments"
               [Consumer.Idle; Consumer.Polled plain_text_record; Consumer.Interrupted]
               (Consumer.start None))) = 1%nat.
Proof.
  apply (consumer_closed_exactly_once [] sound_client "payments"
           [Consumer.Idle; Consumer.Polled plain_text_record; Consumer.Interrupted]
           (Consumer.start None) _ (Ret tt)).
  - reflexivity.
  - vm_compute. reflexivity.
  - discriminate.
Defined.

(** The three ways out of the loop: Ctrl+C during the idle wait, Ctrl+C
    in the middle of a rendering (before its third line), and a fault of
    [poll]. *)
Example exit_paths_close_once :
  (let run := Consumer.consume_messages [] sound_client "payments"
                [Consumer.Idle; Consumer.Interrupted] (Consumer.start None) in
   fst run = Ret tt /\ Consumer.closes (snd run) = 1%nat)
  /\ (let run := Consumer.consume_messages [] sound_client "payments"
                   [Consumer.Polled plain_text_record; Consumer.Idle]
                   (Consumer.start (Some 5)) in
      fst run = Ret tt /\ Consumer.closes (snd run) = 1%nat
      /\ Consumer.message_count (snd run) = 1%nat)
  /\ (let run := Consumer.consume_messages [] sound_client "payments"
                   [Consumer.Idle; Consumer.Faulted (KafkaException, "broker down")]
                   (Consumer.start None) in
      fst run = Raise (SystemExit 1) /\ Consumer.closes (snd run) = 1%nat).
Proof. repeat split; vm_compute; reflexivity. Qed.

(** C10: a record whose payload is UTF-8 text that [json.loads] accepts
    as something other than an object ends a running consumer: the
    structured rendering prints the four header lines and raises
    [AttributeError] at the first [.get], the fallback clause does not
    take it, the outer handler logs and prints the error and calls
    [sys.exit(1)], and the [finally] block closes the handle, once. *)
Theorem non_object_json_exits_nonzero
        {json : JsonLib} (env : Config.environ) (lib : Consumer.client)
        (topic_name : string) (pre rest : list Consumer.poll_event)
        (msg : Consumer.Message) (b : bytes) (text : string) (v : pyval)
        (w0 w1 : Consumer.world) :
  Consumer.sigint w0 = None ->
  Consumer.close_fault lib = None ->
  Consumer.consume_messages env lib topic_name pre w0 = (Running, w1) ->
  Consumer.value msg = Some b -> Consumer.error msg = None ->
  decode_utf8 b = Some text -> json_loads text = Some v -> is_dict v = false ->
  exists w',
    Consumer.consume_messages env lib topic_name
      (pre ++ Consumer.Polled msg :: rest) w0 = (Raise (SystemExit 1), w')
    /\ Consumer.closes w' = S (Consumer.closes w0)
    /\ Consumer.opened w' = S (Consumer.opened w0)
    /\ Consumer.message_count w' = (Consumer.message_count w1 + 1)%nat
    /\ Consumer.stdout w'
       = (Consumer.stdout w1
            ++ header_lines msg (Consumer.message_count w1 + 1)
            ++ [("❌ Error: " ++ no_get_text v)%string])%list
    /\ Consumer.log w'
       = (Consumer.log w1
            ++ [(ERROR, ("Error in consumer: " ++ no_get_text v)%string);
                (INFO, "Consumer closed")])%list.
Proof.
  intros Hs Hcl Hrun Hv He Hd Hj Hn.
  destruct (running_inversion env lib topic_name pre w0 w1 Hs Hrun)
    as (Hc & Hsub & Hloop).
  rewrite (consume_messages_quiet env lib topic_name _ w0 Hs Hc Hsub).
  unfold try_finally, try_except.
  rewrite (poll_loop_app pre (Consumer.Polled msg :: rest) _ _ Hloop).
  pose proof (framed_poll_loop pre (loop_entry env topic_name w0)) as Hf.
  rewrite Hloop in Hf. destruct Hf as (Ho & Hc1 & Hb1 & Hs1).
  cbn [snd loop_entry Consumer.opened Consumer.closes Consumer.consumer_bound
       Consumer.sigint] in Ho, Hc1, Hb1, Hs1.
  specialize (Hs1 eq_refl).
  cbn [Consumer.poll_loop]. unfold bind at 1.
  rewrite (iteration_polled msg w1 He).
  rewrite (process_non_object msg b text v w1 Hv Hd Hj Hn Hs1).
  destruct w1 as [out lg sg op sub cl bd n].
  cbn [Consumer.opened Consumer.closes Consumer.consumer_bound Consumer.sigint]
    in Ho, Hc1, Hb1, Hs1.
  subst sg op cl bd.
  cbn [Consumer.on_interrupt Consumer.on_exception except_Exception].
  unfold Consumer.cleanup, Consumer.consumer_close. rewrite Hcl.
  run_consumer.
  eexists. split; [reflexivity |].
  cbn [Consumer.closes Consumer.opened Consumer.message_count Consumer.stdout
       Consumer.log].
  repeat split.
  - rewrite <- !app_assoc. reflexivity.
  - rewrite <- !app_assoc. reflexivity.
Qed.

Lemma non_object_json_exits_nonzero_witness :
  exists w',
    Consumer.consume_messages [] sound_client "payments"
      ([Consumer.Idle] ++ Consumer.Polled number_record :: [Consumer.Idle])
      (Consumer.start None) = (Raise (SystemExit 1), w')
    /\ Consumer.closes w' = S (Consumer.closes (Consumer.start None))
    /\ Consumer.opened w' = S (Consumer.opened (Consumer.start None))
    /\ Consumer.message_count w'
       = (Consumer.message_count
            (snd (Consumer.consume_messages [] sound_client "payments"
                    [Consumer.Idle] (Consumer.start None))) + 1)%nat
    /\ Consumer.stdout w'
       = (Consumer.stdout
            (snd (Consumer.consume_messages [] sound_client "payments"
                    [Consumer.Idle] (Consumer.start None)))
            ++ header_lines number_record
                 (Consumer.message_count
                    (snd (Consumer.consume_messages [] sound_client "payments"
                            [Consumer.Idle] (Consumer.start None))) + 1)
            ++ [("❌ Error: " ++ no_get_text (PInt 5))%string])%list
    /\ Consumer.log w'
       = (Consumer.log
            (snd (Consumer.consume_messages [] sound_client "payments"
                    [Consumer.Idle] (Consumer.start None)))
            ++ [(ERROR, ("Error in consumer: " ++ no_get_text (PInt 5))%string);
                (INFO, "Consumer closed")])%list.
Proof.
  apply (non_object_json_exits_nonzero [] sound_client "payments"
           [Consumer.Idle] [Consumer.Idle] number_record
           (encode_utf8 "5") "5" (PInt 5) (Consumer.start None)
           (snd (Consumer.consume_messages [] sound_client "payments"
                   [Consumer.Idle] (Consumer.start None))));
    try reflexivity.
Defined.

(** The payloads [5], a quoted text and [null] are read as an integer, a
    string and [None]. *)
Example non_object_payloads :
  json_loads "5" = Some (PInt 5)
  /\ json_loads (String RefJson.dquote "text" ++ String RefJson.dquote EmptyString)
     = Some (PStr "text")
  /\ json_loads "null" = Some PNone.
Proof. repeat split; vm_compute; reflexivity. Qed.


(** ** From the endpoint to the consumer

    With the reference library: the payload that the endpoint hands to the
    transport reads back as the three-key object, and a consumer that polls
    a record with this payload renders the timestamp, the environment and
    the original message through the structured path. *)

(** X27: the payload of a successful request reads back as the envelope:
    the bytes handed to [produce] parse to the three-key object that the
    response echoes. *)
Theorem produced_payload_reads_back
        (env : Config.environ) (net : Producer.transport)
        (req : Producer.request) (now topic msg : string)
        (w w' : Producer.world) (r : Producer.response) :
  Producer.args_get req "topic" = Some topic -> topic <> EmptyString ->
  Producer.args_get req "msg" = Some msg -> msg <> EmptyString ->
  utf8_text msg -> utf8_text now -> utf8_text (Config.get_environment env) ->
  Producer.produce_message env net req now w = (Ret r, w') ->
  Producer.is_success r = true ->
  exists payload,
    Producer.produce_calls w' = (Producer.produce_calls w ++ [(topic, payload)])%list
    /\ json_loads payload
       = Some (PDict (envelope msg now (Config.get_environment env))).
Proof.
  intros Ht Htne Hm Hmne Um Un Ue Hrun Hok.
  destruct (Producer.produce_fault net topic
              (json_dumps (PDict (envelope msg now (Config.get_environment env)))))
    as [[c e]|] eqn:Hf.
  - destruct (refused_record_fails env net req now topic msg w c e
                Ht Htne Hm Hmne Hf) as (w1 & H1).
    rewrite H1 in Hrun. injection Hrun as Hr _. subst r. discriminate Hok.
  - destruct (accepted_record_succeeds env net req now topic msg w
                Ht Htne Hm Hmne Hf) as (w1 & H1 & Hc).
    rewrite H1 in Hrun. injection Hrun as _ Hw. subst w1.
    eexists. split; [exact Hc |].
    now apply loads_dumps_envelope.
Qed.

(** X28: a record that carries the payload of a successful request is
    rendered field by field by the consumer: timestamp, environment,
    content. *)
Theorem produced_record_renders_structured
        (msg : Consumer.Message) (text now environment : string)
        (w : Consumer.world) :
  utf8_text text -> utf8_text now -> utf8_text environment ->
  Consumer.value msg
    = Some (encode_utf8 (json_dumps (PDict (envelope text now environment)))) ->
  Consumer.sigint w = None ->
  Consumer.process msg w
    = (Ret tt,
       Consumer.set_stdout
         (fun out =>
            (out ++ header_lines msg (Consumer.message_count w + 1)
                 ++ [ ("   Timestamp: " ++ now)%string;
                      ("   Environment: " ++ environment)%string;
                      ("   Content: " ++ text)%string;
                      Consumer.separator ])%list)
         (Consumer.set_message_count (Consumer.message_count w + 1) w)).
Proof.
  intros Ut Un Ue Hv Hs.
  apply (process_structured msg
           (encode_utf8 (json_dumps (PDict (envelope text now environment))))
           (json_dumps (PDict (envelope text now environment)))
           (envelope text now environment) w Hv).
  - apply decode_encode_utf8, ascii_only_utf8.
    now apply dumps_envelope_ascii.
  - now apply loads_dumps_envelope.
  - exact Hs.
Qed.

Example hello_round_trip :
  snd (Consumer.process
         (record_of (encode_utf8 (json_dumps
                       (PDict (envelope "hello" sample_now "local")))) 3)
         (Consumer.start None))
  = Consumer.set_stdout
      (fun _ => [ "📨 Message #1"; "   Topic: payments"; "   Partition: 0";
                  "   Offset: 3"; ("   Timestamp: " ++ sample_now)%string;
                  "   Environment: local"; "   Content: hello";
                  Consumer.separator ])
      (Consumer.set_message_count 1 (Consumer.start None)).
Proof. vm_compute. reflexivity. Qed.


(** * Further properties *)

#[local] Hint Resolve steady_ret steady_raise steady_gets steady_bind
  steady_logger steady_set_message_count steady_checkpoint steady_print
  steady_sys_exit steady_method_get steady_value_decode steady_consumer_poll
  : steady.

(** ** The resolver and its three variables *)

(** X1: the resolved profile depends on the environment through
    [KAFKA_ENV], [MSK_BOOTSTRAP_SERVERS] and [AWS_REGION] only. *)
Theorem resolver_reads_three_variables (env1 env2 : Config.environ) :
  dict_get env1 "KAFKA_ENV" = dict_get env2 "KAFKA_ENV" ->
  dict_get env1 "MSK_BOOTSTRAP_SERVERS" = dict_get env2 "MSK_BOOTSTRAP_SERVERS" ->
  dict_get env1 "AWS_REGION" = dict_get env2 "AWS_REGION" ->
  Config.get_kafka_config env1 = Config.get_kafka_config env2
  /\ Config.get_environment env1 = Config.get_environment env2.
Proof.
  intros Hk Hb Hr.
  unfold Config.get_kafka_config, Config.get_environment, Config.AWS_CONFIG,
    Config.ENVIRONMENT, Config.getenv, get_default.
  now rewrite Hk, Hb, Hr.
Qed.

Lemma resolver_reads_three_variables_witness :
  Config.get_kafka_config (("HOME", "/root") :: env_cloud)
    = Config.get_kafka_config env_cloud
  /\ Config.get_environment (("HOME", "/root") :: env_cloud)
     = Config.get_environment env_cloud.
Proof.
  apply (resolver_reads_three_variables (("HOME", "/root") :: env_cloud) env_cloud);
    reflexivity.
Defined.

(** ** The produce endpoint, all of its answers *)

Section EndpointEffects.

Import Producer.

Context {json : JsonLib}.
Variable env : Config.environ.
Variable net : transport.

(** [flush] calls the callback for every reported record, in queue
    order, and keeps the others. *)
Lemma serve_exact (q : list (string * string)) :
  forall w,
    serve net q w
    = (Ret (filter (unacknowledged net) q),
       {| log := (log w ++ flat_map (report_entry net) q)%list;
          produce_calls := produce_calls w;
          flush_calls := flush_calls w;
          queue := queue w |}).
Proof.
  induction q as [|[t v] r IH]; intros w; cbn [serve filter flat_map].
  - destruct w. cbn. now rewrite app_nil_r.
  - unfold unacknowledged at 1, report_entry at 1. cbn [fst snd].
    destruct (report net t v) as [p o | e |].
    + unfold bind at 1. cbn [delivery_callback logger modify km_topic km_partition km_offset].
      rewrite IH. cbn [log produce_calls flush_calls queue].
      now rewrite <- app_assoc.
    + unfold bind at 1. cbn [delivery_callback logger modify].
      rewrite IH. cbn [log produce_calls flush_calls queue].
      now rewrite <- app_assoc.
    + unfold bind. rewrite IH. cbn [ret app]. reflexivity.
Qed.

End EndpointEffects.

(** X2: a valid request whose record the transport takes is answered with
    the success response after one [produce] and one [flush]; the flush
    serves the whole queue, older records included, and leaves exactly the
    unacknowledged ones queued. *)
Theorem accepted_request_effects
        {json : JsonLib} (env : Config.environ) (net : Producer.transport)
        (req : Producer.request) (now topic msg : string) (w : Producer.world) :
  Producer.args_get req "topic" = Some topic -> topic <> EmptyString ->
  Producer.args_get req "msg" = Some msg -> msg <> EmptyString ->
  Producer.produce_fault net topic
    (json_dumps (PDict (envelope msg now (Config.get_environment env)))) = None ->
  let record :=
    (topic, json_dumps (PDict (envelope msg now (Config.get_environment env)))) in
  Producer.produce_message env net req now w
  = (Ret (Producer.jsonify
            (success_body topic (envelope msg now (Config.get_environment env)))),
     {| Producer.log :=
          ((Producer.log w
              ++ flat_map (report_entry net) (Producer.queue w ++ [record]))
             ++ [(INFO, ("Successfully produced message to topic: " ++ topic)%string)])%list;
        Producer.produce_calls := (Producer.produce_calls w ++ [record])%list;
        Producer.flush_calls := S (Producer.flush_calls w);
        Producer.queue :=
          filter (unacknowledged net) (Producer.queue w ++ [record]) |}).
Proof.
  intros Ht Htne Hm Hmne Hok record. subst record.
  unfold Producer.produce_message. rewrite Ht, Hm.
  rewrite (truthy_some _ Htne), (truthy_some _ Hmne). cbn [negb Producer.unwrap].
  fold (envelope msg now (Config.get_environment env)).
  unfold Producer.producer_produce. rewrite Hok. run_endpoint.
  rewrite serve_exact. run_endpoint. reflexivity.
Qed.

Lemma accepted_request_effects_witness :
  Producer.produce_message [] payments_only payments_request sample_now backlog
  = (Ret (Producer.jsonify
            (success_body "payments" (envelope "hello" sample_now "local"))),
     {| Producer.log :=
          [ (INFO, "Message delivered to payments [0] at offset 7");
            (INFO, "Successfully produced message to topic: payments") ];
        Producer.produce_calls :=
          [ ("orders", "{}");
            ("payments", json_dumps (PDict (envelope "hello" sample_now "local"))) ];
        Producer.flush_calls := 2;
        Producer.queue := [("orders", "{}")] |}).
Proof.
  exact (accepted_request_effects [] payments_only payments_request sample_now
           "payments" "hello" backlog eq_refl ltac:(discriminate)
           eq_refl ltac:(discriminate) eq_refl).
Defined.

(** X3: a record that [produce] refuses on the spot is answered with status
    500 and the text of the exception; the error is logged, [flush] is not
    called and nothing is queued. *)
Theorem refused_request_effects
        {json : JsonLib} (env : Config.environ) (net : Producer.transport)
        (req : Producer.request) (now topic msg : string) (w : Producer.world)
        (c : exception_class) (e : string) :
  Producer.args_get req "topic" = Some topic -> topic <> EmptyString ->
  Producer.args_get req "msg" = Some msg -> msg <> EmptyString ->
  Producer.produce_fault net topic
    (json_dumps (PDict (envelope msg now (Config.get_environment env))))
    = Some (c, e) ->
  Producer.produce_message env net req now w
  = (Ret (Producer.with_status
            (Producer.jsonify (error_body ("Failed to produce message: " ++ e)))
            500),
     {| Producer.log :=
          (Producer.log w ++ [(ERROR, ("Error producing message: " ++ e)%string)])%list;
        Producer.produce_calls :=
          (Producer.produce_calls w
             ++ [(topic, json_dumps
                           (PDict (envelope msg now (Config.get_environment env))))])%list;
        Producer.flush_calls := Producer.flush_calls w;
        Producer.queue := Producer.queue w |}).
Proof.
  intros Ht Htne Hm Hmne Hbad.
  unfold Producer.produce_message. rewrite Ht, Hm.
  rewrite (truthy_some _ Htne), (truthy_some _ Hmne). cbn [negb Producer.unwrap].
  fold (envelope msg now (Config.get_environment env)).
  unfold Producer.producer_produce. rewrite Hbad. run_endpoint. reflexivity.
Qed.

Lemma refused_request_effects_witness :
  Producer.produce_message [] full_transport payments_request sample_now
    Producer.initial
  = (Ret (Producer.with_status
            (Producer.jsonify
               (error_body "Failed to produce message: Local: Queue full")) 500),
     {| Producer.log := [(ERROR, "Error producing message: Local: Queue full")];
        Producer.produce_calls :=
          [("payments", json_dumps (PDict (envelope "hello" sample_now "local")))];
        Producer.flush_calls := 0;
        Producer.queue := [] |}).
Proof.
  exact (refused_request_effects [] full_transport payments_request sample_now
           "payments" "hello" Producer.initial BufferError "Local: Queue full"
           eq_refl ltac:(discriminate) eq_refl ltac:(discriminate) eq_refl).
Defined.

(** X4: the endpoint answers every request: it never raises, its status is
    200, 400 or 500, and the body says [success: True] exactly with 200. *)
Theorem endpoint_always_answers
        {json : JsonLib} (env : Config.environ) (net : Producer.transport)
        (req : Producer.request) (now : string) (w : Producer.world) :
  exists r w',
    Producer.produce_message env net req now w = (Ret r, w')
    /\ (Producer.status r = 200%Z /\ Producer.is_success r = true
        \/ (Producer.status r = 400%Z \/ Producer.status r = 500%Z)
           /\ Producer.is_success r = false
           /\ Producer.has_error_message r = true).
Proof.
  destruct (truthy (Producer.args_get req "topic")) eqn:Et.
  2:{ destruct (invalid_request_rejected env net req now w (or_introl Et))
        as (r & H & Hs & Hf & He).
      exists r, w. split; [exact H |]. right. auto. }
  destruct (truthy (Producer.args_get req "msg")) eqn:Em.
  2:{ destruct (invalid_request_rejected env net req now w (or_intror Em))
        as (r & H & Hs & Hf & He).
      exists r, w. split; [exact H |]. right. auto. }
  destruct (Producer.args_get req "topic") as [[|c1 t]|] eqn:Ht; try discriminate Et.
  destruct (Producer.args_get req "msg") as [[|c2 m]|] eqn:Hm; try discriminate Em.
  destruct (Producer.produce_fault net (String c1 t)
              (json_dumps (PDict (envelope (String c2 m) now
                                    (Config.get_environment env)))))
    as [[c e]|] eqn:Hf.
  - destruct (refused_record_fails env net req now _ _ w c e Ht
                ltac:(discriminate) Hm ltac:(discriminate) Hf) as (w' & H).
    eexists. exists w'. split; [exact H |]. right. cbn. auto.
  - destruct (accepted_record_succeeds env net req now _ _ w Ht
                ltac:(discriminate) Hm ltac:(discriminate) Hf) as (w' & H & _).
    eexists. exists w'. split; [exact H |]. left. cbn. auto.
Qed.

(** X5: the topic is checked before the message: a request without a usable
    topic is told so whatever its [msg]; a request with a topic and without
    a usable message is told that the message is required. *)
Theorem topic_checked_before_message
        {json : JsonLib} (env : Config.environ) (net : Producer.transport)
        (req : Producer.request) (now : string) (w : Producer.world) :
  truthy (Producer.args_get req "topic") = false
  \/ truthy (Producer.args_get req "msg") = false ->
  Producer.produce_message env net req now w
  = (Ret (Producer.with_status
            (Producer.jsonify
               (error_body
                  (if truthy (Producer.args_get req "topic")
                   then "Message parameter is required"
                   else "Topic parameter is required")))
            400), w).
Proof.
  intros H. unfold Producer.produce_message, try_except.
  destruct (truthy (Producer.args_get req "topic")) eqn:Et; cbn [negb].
  - destruct H as [H | H]; [discriminate H |]. rewrite H. reflexivity.
  - reflexivity.
Qed.

Lemma topic_checked_before_message_witness :
  Producer.produce_message [] confirming_transport no_msg_request sample_now
    Producer.initial
  = (Ret (Producer.with_status
            (Producer.jsonify (error_body "Message parameter is required")) 400),
     Producer.initial).
Proof.
  exact (topic_checked_before_message [] confirming_transport no_msg_request
           sample_now Producer.initial (or_intror eq_refl)).
Defined.

(** ** The consumer loop, event by event *)

Section ConsumerCount.

Import Consumer.

Context {json : JsonLib}.

Lemma keeps_count_ret {A} (a : A) : keeps_count (ret (W := world) a).
Proof. intros w. reflexivity. Qed.

Lemma keeps_count_raise {A} (e : exn) : keeps_count (raise (W := world) (A := A) e).
Proof. intros w. reflexivity. Qed.

Lemma keeps_count_gets {A} (f : world -> A) : keeps_count (gets f).
Proof. intros w. reflexivity. Qed.

Lemma keeps_count_bind {A B} (m : M world A) (k : A -> M world B) :
  keeps_count m -> (forall a, keeps_count (k a)) -> keeps_count (bind m k).
Proof.
  intros Hm Hk w. unfold bind. specialize (Hm w).
  destruct (m w) as [[a | e |] w1]; cbn [snd] in *; try exact Hm.
  now rewrite Hk.
Qed.

Lemma keeps_count_try_except {A} (body : M world A)
      (handler : exn -> option (M world A)) :
  keeps_count body -> (forall e h, handler e = Some h -> keeps_count h) ->
  keeps_count (try_except body handler).
Proof.
  intros Hb Hh w. unfold try_except. specialize (Hb w).
  destruct (body w) as [[a | e |] w1]; cbn [snd] in *; try exact Hb.
  destruct (handler e) as [h|] eqn:E; cbn [snd]; [| exact Hb].
  now rewrite (Hh e h E).
Qed.

Lemma keeps_count_logger (lv : level) (text : string) : keeps_count (logger lv text).
Proof. intros w. reflexivity. Qed.

Lemma keeps_count_print (line : string) : keeps_count (print line).
Proof.
  intros w. unfold print, checkpoint, bind, modify.
  destruct (sigint w) as [[|k]|]; reflexivity.
Qed.

Lemma keeps_count_method_get (v : pyval) (key : string) (default : pyval) :
  keeps_count (method_get v key default).
Proof. destruct v; intros w; reflexivity. Qed.

Lemma keeps_count_value_decode (msg : Message) : keeps_count (value_decode msg).
Proof.
  intros w. unfold value_decode. destruct (value msg) as [b|]; [| reflexivity].
  destruct (decode_utf8 b); reflexivity.
Qed.

Lemma keeps_count_loads (text : string) : keeps_count (loads text).
Proof. intros w. unfold loads. destruct (json_loads text); reflexivity. Qed.

Lemma keeps_count_header (msg : Message) : keeps_count (header msg).
Proof.
  unfold header.
  repeat (apply keeps_count_bind; [first [apply keeps_count_gets | apply keeps_count_print] | intros ?]).
  apply keeps_count_print.
Qed.

Lemma keeps_count_render_json (msg : Message) : keeps_count (render_json msg).
Proof.
  unfold render_json.
  repeat (apply keeps_count_bind;
          [first [apply keeps_count_value_decode | apply keeps_count_loads
                 | apply keeps_count_header | apply keeps_count_method_get
                 | apply keeps_count_print]
          | intros ?]).
  apply keeps_count_print.
Qed.

Lemma keeps_count_render_raw (msg : Message) : keeps_count (render_raw msg).
Proof.
  unfold render_raw.
  repeat (apply keeps_count_bind;
          [first [apply keeps_count_value_decode | apply keeps_count_header
                 | apply keeps_count_print]
          | intros ?]).
  apply keeps_count_print.
Qed.

(** Processing a record adds one to the counter, whether the rendering
    returns, falls back or raises. *)
Lemma process_counts (msg : Message) (w : world) :
  message_count (snd (process msg w)) = message_count w + 1.
Proof.
  unfold process. unfold bind at 1. cbn [gets]. unfold bind at 1. cbn [modify].
  match goal with
  | |- context [try_except ?b ?h ?w0] =>
      assert (H : keeps_count (try_except b h))
  end.
  { apply keeps_count_try_except; [apply keeps_count_render_json |].
    intros e h. destruct e as [| code | [] m]; intros E; try discriminate E.
    injection E as <-. apply keeps_count_render_raw. }
  rewrite H. reflexivity.
Qed.

Lemma iteration_counts (ev : poll_event) (w : world) :
  message_count (snd (iteration ev w))
  = message_count w + (if is_record ev then 1 else 0).
Proof.
  destruct ev as [| msg | | [c m]]; cbn [is_record]; try (cbn; lia).
  unfold iteration, consumer_poll. unfold bind at 1. cbn [ret].
  destruct (error msg) as [err|].
  - destruct (code err =? _PARTITION_EOF)%Z; cbn; lia.
  - apply process_counts.
Qed.

Lemma records_cons (ev : poll_event) (script : list poll_event) :
  records (ev :: script) = (if is_record ev then 1 else 0) + records script.
Proof. unfold records. cbn [filter]. destruct (is_record ev); reflexivity. Qed.

(** While the loop is running, the counter has gone up by the number of
    records polled. *)
Lemma poll_loop_counts (script : list poll_event) :
  forall w w1,
    poll_loop script w = (Running, w1) ->
    message_count w1 = message_count w + records script.
Proof.
  induction script as [|ev rest IH]; intros w w1; cbn [poll_loop].
  - intros H. injection H as <-. unfold records. cbn. lia.
  - unfold bind. pose proof (iteration_counts ev w) as Hc.
    destruct (steady_iteration ev w) as [Hr _].
    destruct (iteration ev w) as [[[] | e |] w2]; cbn [fst snd] in Hc, Hr; intros H.
    + apply IH in H. rewrite H, Hc, records_cons. lia.
    + discriminate H.
    + now contradiction Hr.
Qed.

(** Timeouts and error events keep the loop polling: nothing is printed,
    nothing is counted, each error event is logged. *)
Lemma poll_loop_quiet (script : list poll_event) :
  forall w,
    forallb quiet_event script = true ->
    poll_loop script w
    = (Running, set_log (fun l => (l ++ flat_map event_log script)%list) w).
Proof.
  induction script as [|ev rest IH]; intros w Hq; cbn [poll_loop flat_map].
  - destruct w. unfold set_log.
    cbn [stdout log sigint opened subscriptions closes consumer_bound message_count].
    now rewrite app_nil_r.
  - cbn [forallb] in Hq. apply andb_prop in Hq. destruct Hq as [Hev Hrest].
    unfold bind.
    destruct ev as [| msg | | [c m]]; cbn [quiet_event] in Hev;
      try discriminate Hev.
    + cbn [iteration consumer_poll]. unfold iteration, consumer_poll, bind.
      cbn [ret event_log]. rewrite (IH w Hrest). reflexivity.
    + unfold iteration, consumer_poll, bind. cbn [ret event_log].
      destruct (error msg) as [err|]; [| discriminate Hev].
      destruct (code err =? _PARTITION_EOF)%Z; cbn [logger modify];
        rewrite (IH _ Hrest); destruct w; unfold set_log;
        cbn [stdout log sigint opened subscriptions closes consumer_bound
             message_count];
        now rewrite <- app_assoc.
Qed.

End ConsumerCount.

Section ConsumerExits.

Import Consumer.

Context {json : JsonLib}.
Variable env : Config.environ.
Variable lib : client.

(** An exception of class [Exception] that leaves the loop is logged and
    printed by the outer handler, which exits with status 1; the [finally]
    block closes the handle. *)
Lemma loop_exception_exits (topic_name : string) (script : list poll_event)
      (w0 w2 : world) (c : exception_class) (m : string) :
  sigint w0 = None ->
  create_fault lib = None -> subscribe_fault lib = None -> close_fault lib = None ->
  poll_loop script (loop_entry env topic_name w0) = (Raise (Exception c m), w2) ->
  exists w',
    consume_messages env lib topic_name script w0 = (Raise (SystemExit 1), w')
    /\ closes w' = S (closes w0)
    /\ opened w' = S (opened w0)
    /\ message_count w' = message_count w2
    /\ stdout w' = (stdout w2 ++ [("❌ Error: " ++ m)%string])%list
    /\ log w' = (log w2 ++ [(ERROR, ("Error in consumer: " ++ m)%string);
                             (INFO, "Consumer closed")])%list.
Proof.
  intros Hs Hc Hsub Hcl Hloop.
  rewrite (consume_messages_quiet env lib topic_name _ w0 Hs Hc Hsub).
  unfold try_finally, try_except. rewrite Hloop.
  pose proof (framed_poll_loop script (loop_entry env topic_name w0)) as Hf.
  rewrite Hloop in Hf. destruct Hf as (Ho & Hc1 & Hb1 & Hs1).
  cbn [snd loop_entry opened closes consumer_bound sigint] in Ho, Hc1, Hb1, Hs1.
  specialize (Hs1 eq_refl).
  destruct w2 as [out lg sg op sub cl bd n].
  cbn [opened closes consumer_bound sigint] in Ho, Hc1, Hb1, Hs1.
  subst sg op cl bd.
  cbn [on_interrupt on_exception except_Exception].
  unfold cleanup, consumer_close. rewrite Hcl.
  run_consumer.
  eexists. split; [reflexivity |].
  cbn [closes opened message_count stdout log].
  repeat split. rewrite <- !app_assoc. reflexivity.
Qed.

End ConsumerExits.

(** X6: the counter never runs ahead of the records polled, and equals
    their number while the loop is running. *)
Theorem counter_counts_records
        {json : JsonLib} (script : list Consumer.poll_event) (w : Consumer.world) :
  (Consumer.message_count (snd (Consumer.poll_loop script w))
   <= Consumer.message_count w + records script)%nat
  /\ (fst (Consumer.poll_loop script w) = Running ->
      Consumer.message_count (snd (Consumer.poll_loop script w))
      = (Consumer.message_count w + records script)%nat).
Proof.
  split.
  - revert w. induction script as [|ev rest IH]; intros w; cbn [Consumer.poll_loop].
    + cbn. lia.
    + unfold bind. pose proof (iteration_counts ev w) as Hc.
      rewrite records_cons.
      destruct (Consumer.iteration ev w) as [[[] | e |] w2]; cbn [snd] in *.
      * specialize (IH w2). lia.
      * lia.
      * lia.
  - intros H. apply poll_loop_counts.
    destruct (Consumer.poll_loop script w) as [r w1]. cbn in *. now subst r.
Qed.

(** X7: timeouts and error events never end the loop. *)
Theorem idle_and_error_events_keep_polling
        {json : JsonLib} (script : list Consumer.poll_event) (w : Consumer.world) :
  forallb quiet_event script = true ->
  Consumer.poll_loop script w
  = (Running,
     Consumer.set_log (fun l => (l ++ flat_map event_log script)%list) w).
Proof. apply poll_loop_quiet. Qed.

Lemma idle_and_error_events_keep_polling_witness :
  Consumer.poll_loop quiet_script (Consumer.start None)
  = (Running,
     Consumer.set_log
       (fun l =>
          (l ++ [ (DEBUG, "End of partition reached for payments [2]");
                  (ERROR, "Consumer error: Broker transport failure") ])%list)
       (Consumer.start None)).
Proof.
  exact (idle_and_error_events_keep_polling quiet_script (Consumer.start None)
           eq_refl).
Defined.

(** X8: the summary printed on Ctrl+C reports the number of records polled. *)
Theorem interrupt_summary_counts_records
        {json : JsonLib} (env : Config.environ) (lib : Consumer.client)
        (topic_name : string) (pre rest : list Consumer.poll_event)
        (w0 w1 : Consumer.world) :
  Consumer.sigint w0 = None -> Consumer.close_fault lib = None ->
  Consumer.consume_messages env lib topic_name pre w0 = (Running, w1) ->
  exists w',
    Consumer.consume_messages env lib topic_name
      (pre ++ Consumer.Interrupted :: rest) w0 = (Ret tt, w')
    /\ Consumer.closes w' = S (Consumer.closes w0)
    /\ Consumer.stdout w'
       = (Consumer.stdout w1
            ++ [ (newline ++ newline ++ "🛑 Consumer stopped by user")%string;
                 ("📊 Total messages consumed: "
                    ++ str_of_nat (records pre))%string ])%list.
Proof.
  intros Hs Hcl Hrun.
  destruct (interrupt_ends_run env lib topic_name pre rest w0 w1 Hs Hcl Hrun)
    as (w' & H & Hc & _ & Ho).
  destruct (running_inversion env lib topic_name pre w0 w1 Hs Hrun)
    as (_ & _ & Hloop).
  apply poll_loop_counts in Hloop. cbn [loop_entry Consumer.message_count] in Hloop.
  exists w'. split; [exact H |]. split; [exact Hc |].
  rewrite Ho, Hloop. reflexivity.
Qed.

Lemma interrupt_summary_counts_records_witness :
  exists w',
    Consumer.consume_messages [] sound_client "payments"
      ([Consumer.Polled plain_text_record; Consumer.Idle]
         ++ Consumer.Interrupted :: []) (Consumer.start None) = (Ret tt, w')
    /\ Consumer.closes w' = S (Consumer.closes (Consumer.start None))
    /\ Consumer.stdout w'
       = (Consumer.stdout
            (snd (Consumer.consume_messages [] sound_client "payments"
                    [Consumer.Polled plain_text_record; Consumer.Idle]
                    (Consumer.start None)))
            ++ [ (newline ++ newline ++ "🛑 Consumer stopped by user")%string;
                 ("📊 Total messages consumed: "
                    ++ str_of_nat (records [Consumer.Polled plain_text_record;
                                            Consumer.Idle]))%string ])%list.
Proof.
  apply (interrupt_summary_counts_records [] sound_client "payments"
           [Consumer.Polled plain_text_record; Consumer.Idle] []
           (Consumer.start None)
           (snd (Consumer.consume_messages [] sound_client "payments"
                   [Consumer.Polled plain_text_record; Consumer.Idle]
                   (Consumer.start None))));
    [reflexivity | reflexivity | vm_compute; reflexivity].
Defined.

(** X9: an exception raised by [poll] ends the run. *)
Theorem poll_fault_exits_with_status_1
        {json : JsonLib} (env : Config.environ) (lib : Consumer.client)
        (topic_name : string) (pre rest : list Consumer.poll_event)
        (c : exception_class) (m : string) (w0 w1 : Consumer.world) :
  Consumer.sigint w0 = None -> Consumer.close_fault lib = None ->
  Consumer.consume_messages env lib topic_name pre w0 = (Running, w1) ->
  exists w',
    Consumer.consume_messages env lib topic_name
      (pre ++ Consumer.Faulted (c, m) :: rest) w0 = (Raise (SystemExit 1), w')
    /\ Consumer.closes w' = S (Consumer.closes w0)
    /\ Consumer.message_count w' = Consumer.message_count w1
    /\ Consumer.stdout w' = (Consumer.stdout w1 ++ [("❌ Error: " ++ m)%string])%list
    /\ Consumer.log w'
       = (Consumer.log w1 ++ [(ERROR, ("Error in consumer: " ++ m)%string);
                              (INFO, "Consumer closed")])%list.
Proof.
  intros Hs Hcl Hrun.
  destruct (running_inversion env lib topic_name pre w0 w1 Hs Hrun)
    as (Hc & Hsub & Hloop).
  assert (Hl : Consumer.poll_loop (pre ++ Consumer.Faulted (c, m) :: rest)
                 (loop_entry env topic_name w0)
               = (Raise (Exception c m), w1)).
  { rewrite (poll_loop_app pre _ _ _ Hloop). reflexivity. }
  destruct (loop_exception_exits env lib topic_name _ w0 w1 c m
              Hs Hc Hsub Hcl Hl) as (w' & H & Hcl' & _ & Hm & Ho & Hlg).
  exists w'. repeat split; assumption.
Qed.

Lemma poll_fault_exits_with_status_1_witness :
  exists w',
    Consumer.consume_messages [] sound_client "payments"
      ([Consumer.Idle] ++ Consumer.Faulted (KafkaException, "broker down") :: [])
      (Consumer.start None) = (Raise (SystemExit 1), w')
    /\ Consumer.closes w' = S (Consumer.closes (Consumer.start None))
    /\ Consumer.message_count w'
       = Consumer.message_count
           (snd (Consumer.consume_messages [] sound_client "payments"
                   [Consumer.Idle] (Consumer.start None)))
    /\ Consumer.stdout w'
       = (Consumer.stdout
            (snd (Consumer.consume_messages [] sound_client "payments"
                    [Consumer.Idle] (Consumer.start None)))
            ++ [("❌ Error: " ++ "broker down")%string])%list
    /\ Consumer.log w'
       = (Consumer.log
            (snd (Consumer.consume_messages [] sound_client "payments"
                    [Consumer.Idle] (Consumer.start None)))
            ++ [(ERROR, ("Error in consumer: " ++ "broker down")%string);
                (INFO, "Consumer closed")])%list.
Proof.
  apply (poll_fault_exits_with_status_1 [] sound_client "payments"
           [Consumer.Idle] [] KafkaException "broker down" (Consumer.start None)
           (snd (Consumer.consume_messages [] sound_client "payments"
                   [Consumer.Idle] (Consumer.start None))));
    [reflexivity | reflexivity | vm_compute; reflexivity].
Defined.

Section ConsumerRecords.

Import Consumer.

Context {json : JsonLib}.

(** A record without a payload leaves the inner [try] as
    [AttributeError], before anything is printed. *)
Lemma process_no_payload (msg : Message) (w : world) :
  value msg = None ->
  process msg w
    = (Raise (Exception AttributeError
                "'NoneType' object has no attribute 'decode'"),
       set_message_count (message_count w + 1) w).
Proof.
  intros Hv. destruct w as [out lg sg op sub cl bd n].
  unfold process, render_json, value_decode.
  rewrite Hv. run_consumer. reflexivity.
Qed.

(** Ctrl+C pending for the [k]-th next [print] cuts the fallback rendering
    after [k] lines. *)
Lemma process_raw_interrupted (msg : Message) (b : bytes) (text : string)
      (k : nat) (w : world) :
  value msg = Some b -> decode_utf8 b = Some text -> json_loads text = None ->
  sigint w = Some k -> (k < 6)%nat ->
  process msg w
    = (Raise KeyboardInterrupt,
       set_sigint None
         (set_stdout
            (fun out =>
               (out ++ firstn k (raw_lines msg text (message_count w + 1)))%list)
            (set_message_count (message_count w + 1) w))).
Proof.
  intros Hv Hd Hj Hs Hk. destruct w as [out lg sg op sub cl bd n].
  cbn [sigint] in Hs. subst sg.
  unfold process, render_json, render_raw, value_decode, loads.
  rewrite Hv, Hd. cbv beta iota delta [bind ret gets modify try_except].
  rewrite Hj.
  do 6 (destruct k as [|k];
        [run_consumer; unfold raw_lines; cbn [firstn];
         rewrite <- ?app_assoc, ?app_nil_r; reflexivity |]).
  lia.
Qed.

End ConsumerRecords.

(** X10: a record without a payload ends the run. *)
Theorem record_without_payload_exits
        {json : JsonLib} (env : Config.environ) (lib : Consumer.client)
        (topic_name : string) (pre rest : list Consumer.poll_event)
        (msg : Consumer.Message) (w0 w1 : Consumer.world) :
  Consumer.sigint w0 = None -> Consumer.close_fault lib = None ->
  Consumer.consume_messages env lib topic_name pre w0 = (Running, w1) ->
  Consumer.value msg = None -> Consumer.error msg = None ->
  exists w',
    Consumer.consume_messages env lib topic_name
      (pre ++ Consumer.Polled msg :: rest) w0 = (Raise (SystemExit 1), w')
    /\ Consumer.closes w' = S (Consumer.closes w0)
    /\ Consumer.message_count w' = (Consumer.message_count w1 + 1)%nat
    /\ Consumer.stdout w'
       = (Consumer.stdout w1
            ++ ["❌ Error: 'NoneType' object has no attribute 'decode'"])%list.
Proof.
  intros Hs Hcl Hrun Hv He.
  destruct (running_inversion env lib topic_name pre w0 w1 Hs Hrun)
    as (Hc & Hsub & Hloop).
  assert (Hl : Consumer.poll_loop (pre ++ Consumer.Polled msg :: rest)
                 (loop_entry env topic_name w0)
               = (Raise (Exception AttributeError
                           "'NoneType' object has no attribute 'decode'"),
                  Consumer.set_message_count (Consumer.message_count w1 + 1) w1)).
  { rewrite (poll_loop_app pre _ _ _ Hloop). cbn [Consumer.poll_loop].
    unfold bind. rewrite (iteration_polled msg w1 He).
    now rewrite (process_no_payload msg w1 Hv). }
  destruct (loop_exception_exits env lib topic_name _ w0 _ _ _
              Hs Hc Hsub Hcl Hl) as (w' & H & Hcl' & _ & Hm & Ho & _).
  exists w'. repeat split; assumption.
Qed.

Lemma record_without_payload_exits_witness :
  exists w',
    Consumer.consume_messages [] sound_client "payments"
      ([Consumer.Idle] ++ Consumer.Polled tombstone_record :: [])
      (Consumer.start None) = (Raise (SystemExit 1), w')
    /\ Consumer.closes w' = S (Consumer.closes (Consumer.start None))
    /\ Consumer.message_count w'
       = (Consumer.message_count
            (snd (Consumer.consume_messages [] sound_client "payments"
                    [Consumer.Idle] (Consumer.start None))) + 1)%nat
    /\ Consumer.stdout w'
       = (Consumer.stdout
            (snd (Consumer.consume_messages [] sound_client "payments"
                    [Consumer.Idle] (Consumer.start None)))
            ++ ["❌ Error: 'NoneType' object has no attribute 'decode'"])%list.
Proof.
  apply (record_without_payload_exits [] sound_client "payments"
           [Consumer.Idle] [] tombstone_record (Consumer.start None)
           (snd (Consumer.consume_messages [] sound_client "payments"
                   [Consumer.Idle] (Consumer.start None))));
    [reflexivity | reflexivity | vm_compute; reflexivity | reflexivity
     | reflexivity].
Defined.

(** X11: a payload that is not UTF-8 ends the run before anything of the
    record is printed. *)
Theorem non_utf8_payload_exits
        {json : JsonLib} (env : Config.environ) (lib : Consumer.client)
        (topic_name : string) (pre rest : list Consumer.poll_event)
        (msg : Consumer.Message) (b : bytes) (w0 w1 : Consumer.world) :
  Consumer.sigint w0 = None -> Consumer.close_fault lib = None ->
  Consumer.consume_messages env lib topic_name pre w0 = (Running, w1) ->
  Consumer.value msg = Some b -> Consumer.error msg = None ->
  decode_utf8 b = None ->
  exists w',
    Consumer.consume_messages env lib topic_name
      (pre ++ Consumer.Polled msg :: rest) w0 = (Raise (SystemExit 1), w')
    /\ Consumer.closes w' = S (Consumer.closes w0)
    /\ Consumer.message_count w' = (Consumer.message_count w1 + 1)%nat
    /\ exists e,
         Consumer.stdout w'
         = (Consumer.stdout w1 ++ [("❌ Error: " ++ e)%string])%list.
Proof.
  intros Hs Hcl Hrun Hv He Hd.
  destruct (running_inversion env lib topic_name pre w0 w1 Hs Hrun)
    as (Hc & Hsub & Hloop).
  assert (Hl : Consumer.poll_loop (pre ++ Consumer.Polled msg :: rest)
                 (loop_entry env topic_name w0)
               = (Raise (Exception UnicodeDecodeError
                           "'utf-8' codec can't decode bytes"),
                  Consumer.set_message_count (Consumer.message_count w1 + 1) w1)).
  { rewrite (poll_loop_app pre _ _ _ Hloop). cbn [Consumer.poll_loop].
    unfold bind. rewrite (iteration_polled msg w1 He).
    now rewrite (process_undecodable msg b w1 Hv Hd). }
  destruct (loop_exception_exits env lib topic_name _ w0 _ _ _
              Hs Hc Hsub Hcl Hl) as (w' & H & Hcl' & _ & Hm & Ho & _).
  exists w'. repeat split; try assumption.
  exists "'utf-8' codec can't decode bytes". exact Ho.
Qed.

Lemma non_utf8_payload_exits_witness :
  exists w',
    Consumer.consume_messages [] sound_client "payments"
      ([Consumer.Idle] ++ Consumer.Polled invalid_utf8_record :: [])
      (Consumer.start None) = (Raise (SystemExit 1), w')
    /\ Consumer.closes w' = S (Consumer.closes (Consumer.start None))
    /\ Consumer.message_count w'
       = (Consumer.message_count
            (snd (Consumer.consume_messages [] sound_client "payments"
                    [Consumer.Idle] (Consumer.start None))) + 1)%nat
    /\ exists e,
         Consumer.stdout w'
         = (Consumer.stdout
              (snd (Consumer.consume_messages [] sound_client "payments"
                      [Consumer.Idle] (Consumer.start None)))
              ++ [("❌ Error: " ++ e)%string])%list.
Proof.
  apply (non_utf8_payload_exits [] sound_client "payments"
           [Consumer.Idle] [] invalid_utf8_record [xff] (Consumer.start None)
           (snd (Consumer.consume_messages [] sound_client "payments"
                   [Consumer.Idle] (Consumer.start None))));
    [reflexivity | reflexivity | vm_compute; reflexivity | reflexivity
     | reflexivity | reflexivity].
Defined.

Lemma plain_text_str (v : pyval) (t : string) :
  plain_text v = Some t -> str v = t.
Proof.
  destruct v as [| [|] | | | s | |]; cbn [plain_text str repr]; try discriminate;
    try (intros H; injection H as <-; reflexivity).
  destruct (utf8_valid (bytes_of s)); [| discriminate].
  intros H. injection H as <-. reflexivity.
Qed.

Lemma field_text_shown (d : dict) (key t : string) :
  field_text d key = Some t -> str (get_default d key (PStr "N/A")) = t.
Proof.
  unfold field_text, get_default.
  destruct (dict_get d key) as [v |]; [apply plain_text_str |].
  intros H. injection H as <-. reflexivity.
Qed.

(** X12: a payload that reads as an object whose [timestamp],
    [environment] and [message] are each absent, [None], a boolean or a
    text of well-formed UTF-8 is rendered field by field, [N/A] standing
    for an absent key, and the loop goes on; the other keys of the object
    do not matter. *)
Theorem object_payload_rendered_by_keys
        {json : JsonLib} (msg : Consumer.Message) (b : bytes) (text : string)
        (d : dict) (timestamp environment content : string)
        (rest : list Consumer.poll_event) (w : Consumer.world) :
  Consumer.value msg = Some b -> Consumer.error msg = None ->
  decode_utf8 b = Some text -> json_loads text = Some (PDict d) ->
  field_text d "timestamp" = Some timestamp ->
  field_text d "environment" = Some environment ->
  field_text d "message" = Some content ->
  Consumer.sigint w = None ->
  Consumer.poll_loop (Consumer.Polled msg :: rest) w
  = Consumer.poll_loop rest
      (Consumer.set_stdout
         (fun out =>
            (out ++ header_lines msg (Consumer.message_count w + 1)
                 ++ [ ("   Timestamp: " ++ timestamp)%string;
                      ("   Environment: " ++ environment)%string;
                      ("   Content: " ++ content)%string;
                      Consumer.separator ])%list)
         (Consumer.set_message_count (Consumer.message_count w + 1) w)).
Proof.
  intros Hv He Hd Hj Ht Hen Hc Hs. cbn [Consumer.poll_loop]. unfold bind.
  rewrite (iteration_polled msg w He).
  rewrite (process_structured msg b text d w Hv Hd Hj Hs).
  unfold json_lines, header_lines. cbn [app].
  rewrite (field_text_shown d "timestamp" timestamp Ht),
    (field_text_shown d "environment" environment Hen),
    (field_text_shown d "message" content Hc).
  reflexivity.
Qed.

Lemma object_payload_rendered_by_keys_witness :
  Consumer.poll_loop [Consumer.Polled partial_object_record] (Consumer.start None)
  = (Running,
     Consumer.set_stdout
       (fun _ => [ "📨 Message #1"; "   Topic: payments"; "   Partition: 0";
                   "   Offset: 12"; "   Timestamp: N/A"; "   Environment: None";
                   "   Content: hi"; Consumer.separator ])
       (Consumer.set_message_count 1 (Consumer.start None))).
Proof.
  exact (object_payload_rendered_by_keys partial_object_record
           (encode_utf8 (json_dumps (PDict partial_object)))
           (json_dumps (PDict partial_object)) partial_object
           "N/A" "None" "hi" [] (Consumer.start None)
           eq_refl eq_refl eq_refl eq_refl eq_refl eq_refl eq_refl eq_refl).
Defined.

(** X13: Ctrl+C in the middle of a fallback rendering: the record is
    counted, the lines printed so far stay, the rest of the script is not
    polled. *)
Theorem interrupt_cuts_fallback_rendering
        {json : JsonLib} (msg : Consumer.Message) (b : bytes) (text : string)
        (k : nat) (rest : list Consumer.poll_event) (w : Consumer.world) :
  Consumer.value msg = Some b -> Consumer.error msg = None ->
  decode_utf8 b = Some text -> json_loads text = None ->
  Consumer.sigint w = Some k -> (k < 6)%nat ->
  Consumer.poll_loop (Consumer.Polled msg :: rest) w
  = (Raise KeyboardInterrupt,
     Consumer.set_sigint None
       (Consumer.set_stdout
          (fun out =>
             (out ++ firstn k (raw_lines msg text (Consumer.message_count w + 1)))%list)
          (Consumer.set_message_count (Consumer.message_count w + 1) w))).
Proof.
  intros Hv He Hd Hj Hs Hk. cbn [Consumer.poll_loop]. unfold bind.
  rewrite (iteration_polled msg w He).
  now rewrite (process_raw_interrupted msg b text k w Hv Hd Hj Hs Hk).
Qed.

Lemma interrupt_cuts_fallback_rendering_witness :
  Consumer.poll_loop [Consumer.Polled plain_text_record; Consumer.Idle]
    (Consumer.start (Some 2))
  = (Raise KeyboardInterrupt,
     Consumer.set_stdout
       (fun _ => [ "📨 Message #1"; "   Topic: payments" ])
       (Consumer.set_message_count 1 (Consumer.start None))).
Proof.
  exact (interrupt_cuts_fallback_rendering plain_text_record
           (encode_utf8 "plain text") "plain text" 2 [Consumer.Idle]
           (Consumer.start (Some 2))
           eq_refl eq_refl eq_refl eq_refl eq_refl
           (proj1 (Nat.leb_le 3 6) eq_refl)).
Defined.

(** ** [main] of the consumer and its configuration *)

Section ConsumerMain.

Lemma drop_spaces_nil (l : list (ascii * string)) :
  drop_spaces l = [] <-> forallb space_unit l = true.
Proof.
  induction l as [| u r IH]; cbn [drop_spaces forallb]; [tauto |].
  destruct (space_unit u); cbn [andb]; [exact IH |].
  split; intros H; discriminate H.
Qed.

Lemma drop_spaces_head (l r : list (ascii * string)) (u : ascii * string) :
  drop_spaces l = u :: r -> space_unit u = false.
Proof.
  induction l as [| v t IH]; cbn [drop_spaces]; [discriminate |].
  destruct (space_unit v) eqn:E; [exact IH |].
  intros H. injection H as -> _. exact E.
Qed.

Lemma drop_spaces_last (l : list (ascii * string)) (u : ascii * string) :
  space_unit u = false -> exists l', drop_spaces (l ++ [u]) = (l' ++ [u])%list.
Proof.
  intros Hu. induction l as [| v t IH]; cbn [drop_spaces app].
  - rewrite Hu. now exists [].
  - destruct (space_unit v); [exact IH |]. now exists (v :: t).
Qed.

(** [strip] leaves nothing exactly of the texts made of white space. *)
Lemma strip_empty (s : string) : strip s = EmptyString <-> blank s = true.
Proof.
  unfold strip, blank. rewrite <- drop_spaces_nil.
  destruct (drop_spaces (units s)) as [| u r] eqn:E.
  - split; reflexivity.
  - split; [| discriminate].
    apply drop_spaces_head in E.
    cbn [rev]. destruct (drop_spaces_last (rev r) u E) as [l' ->].
    rewrite rev_app_distr. cbn [rev app join_units]. discriminate.
Qed.

(** [strip] with ASCII and other white space at the ends, and inside. *)
Example strip_samples :
  strip "  payments " = "payments"
  /\ strip "a b" = "a b"
  /\ strip (encode_code_point 160 ++ "logs" ++ encode_code_point 8195) = "logs"
  /\ strip (encode_code_point 12288 ++ encode_code_point 133) = EmptyString
  /\ blank nbsp_topic = true
  /\ blank (encode_code_point 8203) = false.
Proof. vm_compute. repeat split. Qed.

Lemma dict_get_set_same {V} (d : list (string * V)) (k : string) (v : V) :
  dict_get (dict_set d k v) k = Some v.
Proof.
  induction d as [|[k' v'] r IH]; cbn [dict_set dict_get].
  - now rewrite String.eqb_refl.
  - destruct (String.eqb k' k) eqn:E; cbn [dict_get]; rewrite E; [reflexivity | exact IH].
Qed.

Lemma dict_get_set_other {V} (d : list (string * V)) (k k0 : string) (v : V) :
  k0 <> k -> dict_get (dict_set d k0 v) k = dict_get d k.
Proof.
  intros Hne. induction d as [|[k' v'] r IH]; cbn [dict_set dict_get].
  - destruct (String.eqb_spec k0 k); [contradiction | reflexivity].
  - destruct (String.eqb_spec k' k0) as [-> | Hk]; cbn [dict_get].
    + destruct (String.eqb_spec k0 k); [contradiction | reflexivity].
    + destruct (String.eqb k' k); [reflexivity | exact IH].
Qed.

Lemma dict_get_none_not_in {V} (d : list (string * V)) (k : string) :
  ~ In k (map fst d) -> dict_get d k = None.
Proof.
  induction d as [|[k' v'] r IH]; cbn [map fst dict_get In]; [reflexivity |].
  intros H. destruct (String.eqb_spec k' k) as [-> | _]; [tauto |].
  apply IH. tauto.
Qed.

(** [d.update(other)]: the keys of [other] get its values, the other
    keys keep theirs. *)
Lemma dict_get_update {V} (other : list (string * V)) :
  forall (d : list (string * V)) (k : string),
    NoDup (map fst other) ->
    dict_get (dict_update d other) k
    = match dict_get other k with
      | Some v => Some v
      | None => dict_get d k
      end.
Proof.
  unfold dict_update.
  induction other as [|[k0 v0] o IH]; intros d k Hnd; cbn [fold_left dict_get fst snd].
  - reflexivity.
  - cbn [map fst] in Hnd. inversion Hnd as [|? ? Hnin Hnd']; subst.
    rewrite (IH _ k Hnd').
    destruct (String.eqb_spec k0 k) as [-> | Hne].
    + rewrite (dict_get_none_not_in o k Hnin). apply dict_get_set_same.
    + destruct (dict_get o k); [reflexivity |].
      now apply dict_get_set_other.
Qed.

End ConsumerMain.

(** X14: the configuration handed to [Consumer(...)] has the five consumer
    settings and, for every other key, the value of the resolved profile. *)
Theorem consumer_config_lookup (env : Config.environ) (key : string) :
  dict_get (dict_update (Config.get_kafka_config env) Consumer.consumer_settings) key
  = match dict_get Consumer.consumer_settings key with
    | Some v => Some v
    | None => dict_get (Config.get_kafka_config env) key
    end.
Proof.
  apply dict_get_update. cbn.
  repeat (constructor; [cbn; intuition discriminate |]). constructor.
Qed.

(** X15: [main] without exactly one argument prints the usage and exits
    with status 1; no handle is opened. *)
Theorem main_wrong_arguments_usage
        {json : JsonLib} (env : Config.environ) (lib : Consumer.client)
        (argv : list string) (script : list Consumer.poll_event)
        (w : Consumer.world) :
  List.length argv <> 2%nat -> Consumer.sigint w = None ->
  Consumer.main env lib argv script w
  = (Raise (SystemExit 1),
     Consumer.set_stdout (fun out => (out ++ usage_lines)%list) w).
Proof.
  intros Hl Hs. unfold Consumer.main.
  destruct (Nat.eqb_spec (List.length argv) 2) as [E | _]; [contradiction |].
  cbn [negb]. destruct w as [out lg sg op sub cl bd n].
  cbn [Consumer.sigint] in Hs. subst sg. run_consumer.
  unfold usage_lines. rewrite <- !app_assoc. reflexivity.
Qed.

Lemma main_wrong_arguments_usage_witness :
  Consumer.main [] sound_client ["consumer.py"] [Consumer.Idle] (Consumer.start None)
  = (Raise (SystemExit 1),
     Consumer.set_stdout (fun out => (out ++ usage_lines)%list)
       (Consumer.start None)).
Proof.
  apply (main_wrong_arguments_usage [] sound_client ["consumer.py"]
           [Consumer.Idle] (Consumer.start None)); [cbn; lia | reflexivity].
Defined.

(** X16: [main] refuses exactly the topic names made of white space (the
    empty name among them), and consumes from the stripped name
    otherwise. *)
Theorem main_topic_validation
        {json : JsonLib} (env : Config.environ) (lib : Consumer.client)
        (prog topic_name : string) (script : list Consumer.poll_event)
        (w : Consumer.world) :
  Consumer.sigint w = None ->
  Consumer.main env lib [prog; topic_name] script w
  = if blank topic_name
    then (Raise (SystemExit 1),
          Consumer.set_stdout
            (fun out => (out ++ ["❌ Error: Topic name cannot be empty"])%list) w)
    else Consumer.consume_messages env lib (strip topic_name) script w.
Proof.
  intros Hs. unfold Consumer.main. cbn [List.length Nat.eqb negb nth].
  destruct (blank topic_name) eqn:Eb.
  - apply strip_empty in Eb. rewrite Eb. cbn [truthy negb].
    rewrite orb_true_r.
    destruct w as [out lg sg op sub cl bd n].
    cbn [Consumer.sigint] in Hs. subst sg. run_consumer. reflexivity.
  - assert (Hne : strip topic_name <> EmptyString).
    { intros E. apply strip_empty in E. congruence. }
    assert (Ht : topic_name <> EmptyString).
    { intros ->. apply Hne. reflexivity. }
    destruct topic_name as [|c r]; [contradiction |].
    destruct (strip (String c r)) as [|c' r'] eqn:E; [contradiction |].
    reflexivity.
Qed.

Lemma main_topic_validation_witness :
  Consumer.main [] sound_client ["consumer.py"; "   "] [Consumer.Idle]
    (Consumer.start None)
  = (Raise (SystemExit 1),
     Consumer.set_stdout
       (fun out => (out ++ ["❌ Error: Topic name cannot be empty"])%list)
       (Consumer.start None)).
Proof.
  exact (main_topic_validation [] sound_client "consumer.py" "   "
           [Consumer.Idle] (Consumer.start None) eq_refl).
Defined.

(** A topic argument that is one no-break space is refused. *)
Example main_refuses_nbsp_topic :
  Consumer.main [] sound_client ["consumer.py"; nbsp_topic] [Consumer.Idle]
    (Consumer.start None)
  = (Raise (SystemExit 1),
     Consumer.set_stdout
       (fun out => (out ++ ["❌ Error: Topic name cannot be empty"])%list)
       (Consumer.start None)).
Proof. vm_compute. reflexivity. Qed.

Example main_strips_topic :
  Consumer.subscriptions
    (snd (Consumer.main [] sound_client ["consumer.py"; "  payments "]
            [Consumer.Idle] (Consumer.start None)))
  = [["payments"]].
Proof. vm_compute. reflexivity. Qed.

(** ** The diagnostic, line by line *)

Section DiagnoseOutput.

Import Diagnose.

Variable net : network.

Lemma add_output_app (l1 l2 : list string) (w : world) :
  add_output l2 (add_output l1 w) = add_output (l1 ++ l2) w.
Proof. unfold add_output. cbn [stdout tcp_probes ssl_probes attempts]. now rewrite app_assoc. Qed.

Lemma print_adds (line : string) (w : world) :
  print line w = (Ret tt, add_output [line] w).
Proof. reflexivity. Qed.

Lemma print_each_adds (pre : string) (l : list string) :
  forall w, print_each pre l w = (Ret tt, add_output (map (fun t => pre ++ t) l) w).
Proof.
  induction l as [|x r IH]; intros w; cbn [print_each map].
  - destruct w. unfold add_output. cbn. now rewrite app_nil_r.
  - unfold bind. rewrite print_adds, IH, add_output_app. reflexivity.
Qed.

Lemma print_working_adds (l : list config_test) :
  forall w,
    print_working l w
    = (Ret tt,
       add_output (flat_map (fun c => [ "   - " ++ name c;
                                        "     " ++ repr (PDict (config c)) ]) l) w).
Proof.
  induction l as [|c r IH]; intros w; cbn [print_working flat_map].
  - destruct w. unfold add_output. cbn. now rewrite app_nil_r.
  - unfold bind. rewrite !print_adds, IH, !add_output_app. reflexivity.
Qed.

(** The "Results" part prints [report_lines] and nothing else. *)
Lemma report_adds (l : list config_test) (w : world) :
  report l w = (Ret tt, add_output (report_lines l) w).
Proof.
  unfold report, report_lines. destruct l as [|best more].
  - unfold bind. rewrite !print_adds, !add_output_app. reflexivity.
  - unfold bind. rewrite !print_adds, print_working_adds, !print_adds,
      !add_output_app.
    reflexivity.
Qed.

End DiagnoseOutput.

Section DiagnoseAttempts.

Import Diagnose.

Variable net : network.

(** X17: a probe that opens, answers and closes returns [True] and lists at
    most five topic names, the first five, after the full count. *)
Theorem successful_probe_lists_five_topics (cfg : dict) (config_name : string)
      (topics : list string) (w : world) :
  new_producer net cfg = None -> list_topics net cfg = inl topics ->
  close_producer net cfg = None ->
  test_kafka_config net cfg config_name w
  = (Ret true,
     add_output (topics_lines topics)
       (add_attempt cfg (add_output (attempt_lines cfg config_name) w))).
Proof.
  intros Hn Hl Hc. unfold test_kafka_config, try_except.
  unfold bind at 1. rewrite print_adds. unfold bind at 1. rewrite print_adds.
  rewrite add_output_app.
  unfold Producer_new, producer_list_topics, producer_close.
  rewrite Hn, Hl, Hc. unfold bind at 1. unfold bind at 1. cbn [modify ret].
  fold (add_attempt cfg (add_output ([newline ++ "🔍 Testing " ++ config_name
                                        ++ " configuration:"]
                                      ++ ["   Config: " ++ repr (PDict cfg)]) w)).
  unfold bind at 1. cbn [ret]. unfold bind at 1. rewrite print_adds.
  destruct topics as [|t ts].
  - unfold bind. rewrite print_adds, add_output_app. reflexivity.
  - unfold bind. rewrite print_adds, print_each_adds, !add_output_app. reflexivity.
Qed.

(** X18: a handle whose [close] raises turns the probe into a failure after
    its success lines have been printed. *)
Theorem close_fault_fails_probe (cfg : dict) (config_name : string)
      (topics : list string) (c : exception_class) (m : string) (w : world) :
  new_producer net cfg = None -> list_topics net cfg = inl topics ->
  close_producer net cfg = Some (c, m) ->
  test_kafka_config net cfg config_name w
  = (Ret false,
     add_output (topics_lines topics ++ [("   ❌ Failed: " ++ m)%string])
       (add_attempt cfg (add_output (attempt_lines cfg config_name) w))).
Proof.
  intros Hn Hl Hc. unfold test_kafka_config, try_except.
  unfold bind at 1. rewrite print_adds. unfold bind at 1. rewrite print_adds.
  rewrite add_output_app.
  unfold Producer_new, producer_list_topics, producer_close.
  rewrite Hn, Hl, Hc. unfold bind at 1. unfold bind at 1. cbn [modify ret].
  unfold bind at 1. cbn [ret]. unfold bind at 1. rewrite print_adds.
  destruct topics as [|t ts].
  - unfold bind. rewrite print_adds. cbn [raise_fault raise fst snd except_Exception].
    unfold bind. rewrite print_adds, !add_output_app. reflexivity.
  - unfold bind. rewrite print_adds, print_each_adds.
    cbn [raise_fault raise fst snd except_Exception].
    unfold bind. rewrite print_adds, !add_output_app.
    cbn [app]. rewrite <- ?app_assoc. reflexivity.
Qed.

(** X19: a fault when the handle is opened or the metadata is requested is
    caught: the probe prints the text of the fault and returns [False]. *)
Theorem faulty_probe_reports_failure (cfg : dict) (config_name m : string)
      (w : world) :
  probe_fault net cfg = Some m ->
  test_kafka_config net cfg config_name w
  = (Ret false,
     add_output [("   ❌ Failed: " ++ m)%string]
       (add_attempt cfg (add_output (attempt_lines cfg config_name) w))).
Proof.
  unfold probe_fault. intros Hf. unfold test_kafka_config, try_except.
  unfold bind at 1. rewrite print_adds. unfold bind at 1. rewrite print_adds.
  rewrite add_output_app.
  unfold Producer_new, producer_list_topics.
  destruct (new_producer net cfg) as [[c e]|].
  - injection Hf as ->. unfold bind at 1. unfold bind at 1. cbn [modify].
    cbn [raise_fault raise fst snd except_Exception].
    unfold bind. rewrite print_adds. reflexivity.
  - destruct (list_topics net cfg) as [topics | [c e]]; [discriminate Hf |].
    injection Hf as ->. unfold bind at 1. unfold bind at 1. cbn [modify ret].
    unfold bind at 1. cbn [raise_fault raise fst snd except_Exception].
    unfold bind. rewrite print_adds. reflexivity.
Qed.

End DiagnoseAttempts.

Lemma successful_probe_lists_five_topics_witness :
  Diagnose.test_kafka_config busy_broker
    (Diagnose.config (Diagnose.plaintext_no_api "localhost" 9092))
    "PLAINTEXT (no API version request)" Diagnose.start
  = (Ret true,
     add_output
       [ "   ✅ Success! Found 7 topics"; "   📋 Available topics:";
         "      - a"; "      - b"; "      - c"; "      - d"; "      - e" ]
       (add_attempt (Diagnose.config (Diagnose.plaintext_no_api "localhost" 9092))
          (add_output
             (attempt_lines
                (Diagnose.config (Diagnose.plaintext_no_api "localhost" 9092))
                "PLAINTEXT (no API version request)")
             Diagnose.start))).
Proof.
  exact (successful_probe_lists_five_topics busy_broker
           (Diagnose.config (Diagnose.plaintext_no_api "localhost" 9092))
           "PLAINTEXT (no API version request)" seven_topics Diagnose.start
           eq_refl eq_refl eq_refl).
Defined.

Lemma close_fault_fails_probe_witness :
  fst (Diagnose.test_kafka_config no_close_client
         (Diagnose.config (Diagnose.plaintext_current "localhost" 9092))
         "PLAINTEXT (current)" Diagnose.start)
  = Ret false.
Proof.
  rewrite (close_fault_fails_probe no_close_client
             (Diagnose.config (Diagnose.plaintext_current "localhost" 9092))
             "PLAINTEXT (current)" seven_topics AttributeError
             "'cimpl.Producer' object has no attribute 'close'" Diagnose.start
             eq_refl eq_refl eq_refl).
  reflexivity.
Defined.

Lemma faulty_probe_reports_failure_witness :
  Diagnose.test_kafka_config unreachable
    (Diagnose.config (Diagnose.plaintext_current "localhost" 9092))
    "PLAINTEXT (current)" Diagnose.start
  = (Ret false,
     add_output ["   ❌ Failed: Local: Broker transport failure"]
       (add_attempt (Diagnose.config (Diagnose.plaintext_current "localhost" 9092))
          (add_output
             (attempt_lines
                (Diagnose.config (Diagnose.plaintext_current "localhost" 9092))
                "PLAINTEXT (current)")
             Diagnose.start))).
Proof.
  exact (faulty_probe_reports_failure unreachable
           (Diagnose.config (Diagnose.plaintext_current "localhost" 9092))
           "PLAINTEXT (current)" "Local: Broker transport failure" Diagnose.start
           eq_refl).
Defined.

(** X20: the two socket probes never raise.  The TCP probe answers [True]
    exactly when [connect_ex] returns 0; the SSL probe answers [True]
    exactly when the handshake does not raise; an exception is printed and
    gives [False]. *)
Theorem socket_probes_never_raise
        (net : Diagnose.network) (host : string) (port : Z) (w : Diagnose.world) :
  Diagnose.test_connection net host port w
  = match Diagnose.connect_ex net host port with
    | inl errno =>
        (Ret (errno =? 0)%Z,
         {| Diagnose.stdout := Diagnose.stdout w;
            Diagnose.tcp_probes := S (Diagnose.tcp_probes w);
            Diagnose.ssl_probes := Diagnose.ssl_probes w;
            Diagnose.attempts := Diagnose.attempts w |})
    | inr (_, e) =>
        (Ret false,
         {| Diagnose.stdout :=
              (Diagnose.stdout w ++ [("Connection test failed: " ++ e)%string])%list;
            Diagnose.tcp_probes := S (Diagnose.tcp_probes w);
            Diagnose.ssl_probes := Diagnose.ssl_probes w;
            Diagnose.attempts := Diagnose.attempts w |})
    end
  /\ Diagnose.test_ssl_connection net host port w
     = match Diagnose.tls_connect net host port with
       | None =>
           (Ret true,
            {| Diagnose.stdout := Diagnose.stdout w;
               Diagnose.tcp_probes := Diagnose.tcp_probes w;
               Diagnose.ssl_probes := S (Diagnose.ssl_probes w);
               Diagnose.attempts := Diagnose.attempts w |})
       | Some (_, e) =>
           (Ret false,
            {| Diagnose.stdout :=
                 (Diagnose.stdout w
                    ++ [("SSL connection test failed: " ++ e)%string])%list;
               Diagnose.tcp_probes := Diagnose.tcp_probes w;
               Diagnose.ssl_probes := S (Diagnose.ssl_probes w);
               Diagnose.attempts := Diagnose.attempts w |})
       end.
Proof.
  split.
  - unfold Diagnose.test_connection. run_diag.
    destruct (Diagnose.connect_ex net host port) as [errno | [c e]]; reflexivity.
  - unfold Diagnose.test_ssl_connection. run_diag.
    destruct (Diagnose.tls_connect net host port) as [[c e]|]; reflexivity.
Qed.

(** X21: once the TCP probe has succeeded, the run ends with the "Results"
    part for the variants that worked, in list order: the recommendation
    is the first of them, and the troubleshooting list is printed when
    there is none. *)
Theorem diagnostic_ends_with_report (net : Diagnose.network) :
  fst (Diagnose.test_connection net "localhost" 9092 Diagnose.start) = Ret true ->
  exists before w',
    Diagnose.main net Diagnose.start
    = (Ret (Some (filter (fun c => probe_ok net (Diagnose.config c))
                    (Diagnose.configs_to_test "localhost" 9092
                       (ssl_ok net "localhost" 9092)))), w')
    /\ Diagnose.stdout w'
       = (before
            ++ report_lines
                 (filter (fun c => probe_ok net (Diagnose.config c))
                    (Diagnose.configs_to_test "localhost" 9092
                       (ssl_ok net "localhost" 9092))))%list.
Proof.
  intros Hok. apply tcp_ok_from_run in Hok. unfold Diagnose.main. run_diag.
  match goal with
  | |- context [Diagnose.test_connection net ?h ?p ?w0] =>
      destruct (test_connection_outcome net h p w0) as (w1 & H1 & _)
  end.
  rewrite H1, Hok. run_diag.
  match goal with
  | |- context [Diagnose.test_ssl_connection net ?h ?p ?w0] =>
      destruct (test_ssl_connection_outcome net h p w0) as (w2 & H2 & _)
  end.
  rewrite H2.
  destruct (ssl_ok net "localhost" 9092); run_diag;
    match goal with
    | |- context [Diagnose.try_configs net ?l ?s0 ?w0] =>
        destruct (try_configs_all net l s0 w0) as (w3 & H3 & _)
    end;
    rewrite H3; cbn [app]; rewrite report_adds;
    eexists; eexists; (split; [reflexivity |]); reflexivity.
Qed.

Lemma diagnostic_ends_with_report_witness :
  exists before w',
    Diagnose.main picky_broker Diagnose.start
    = (Ret (Some (filter (fun c => probe_ok picky_broker (Diagnose.config c))
                    (Diagnose.configs_to_test "localhost" 9092
                       (ssl_ok picky_broker "localhost" 9092)))), w')
    /\ Diagnose.stdout w'
       = (before
            ++ report_lines
                 (filter (fun c => probe_ok picky_broker (Diagnose.config c))
                    (Diagnose.configs_to_test "localhost" 9092
                       (ssl_ok picky_broker "localhost" 9092))))%list.
Proof.
  apply (diagnostic_ends_with_report picky_broker). reflexivity.
Defined.

Example picky_broker_recommendation :
  last (Diagnose.stdout (snd (Diagnose.main picky_broker Diagnose.start))) EmptyString
  = "LOCAL_CONFIG = {'bootstrap.servers': 'localhost:9092', 'security.protocol': 'PLAINTEXT', 'api.version.request': False}".
Proof. vm_compute. reflexivity. Qed.

Example unreachable_broker_checklist :
  last (Diagnose.stdout
          (snd (Diagnose.main
                  {| Diagnose.connect_ex := fun _ _ => inl 0%Z;
                     Diagnose.tls_connect := Diagnose.tls_connect unreachable;
                     Diagnose.new_producer := Diagnose.new_producer unreachable;
                     Diagnose.list_topics := Diagnose.list_topics unreachable;
                     Diagnose.close_producer := Diagnose.close_producer unreachable |}
                  Diagnose.start))) EmptyString
  = "   4. Try different ports (9093, 9094) if your Kafka uses different mapping".
Proof. vm_compute. reflexivity. Qed.

(** ** The test script *)

Section TestScriptRequests.

Variable srv : TestScript.server.

Ltac run_script :=
  cbv beta iota delta
    [TestScript.send_one TestScript.check_producer_health
     TestScript.print TestScript.requests_get TestScript.time_sleep
     bind ret raise modify
     TestScript.stdout TestScript.requests TestScript.sleeps].

Lemma send_one_effects (i total : nat) (m : list (string * string))
      (w : TestScript.world) :
  exists w',
    TestScript.send_one srv i total m w = (Ret (negb (refused srv m)), w')
    /\ TestScript.requests w'
       = (TestScript.requests w ++ [produce_request m])%list
    /\ TestScript.sleeps w' = TestScript.sleeps w.
Proof.
  unfold refused, produce_request. run_script.
  destruct (srv (TestScript.base_url ++ "/produce") m)
    as [code [[| | | | | |] | e] text | msg | msg];
    try destruct (code =? 200)%Z;
    try match goal with
        | |- context [if TestScript.truth ?v then _ else _] =>
            destruct (TestScript.truth v)
        end;
    eexists; split; try reflexivity; split; reflexivity.
Qed.

Lemma send_all_effects (todo : list (list (string * string))) :
  forall (i total : nat) (w : TestScript.world),
  exists w',
    TestScript.send_all srv i total todo w = (Ret tt, w')
    /\ TestScript.requests w'
       = (TestScript.requests w
          ++ List.map produce_request (until_refused srv todo))%list
    /\ TestScript.sleeps w' = TestScript.sleeps w + answered srv todo.
Proof.
  unfold answered.
  induction todo as [| m rest IH]; intros i total w.
  - exists w. cbn. rewrite app_nil_r. repeat split; lia.
  - destruct (send_one_effects i total m w) as (w1 & Hrun & Hreq & Hsl).
    change (TestScript.send_all srv i total (m :: rest) w)
      with (bind (TestScript.send_one srv i total m)
                 (fun go_on => if go_on
                               then bind TestScript.time_sleep
                                      (fun _ => TestScript.send_all srv (S i) total rest)
                               else ret tt) w).
    unfold bind at 1. rewrite Hrun.
    cbn [until_refused].
    destruct (refused srv m) eqn:Href; cbn [negb].
    + exists w1. cbn [List.map List.filter List.length]. rewrite Href.
      cbn. repeat split; [exact Hreq | lia].
    + cbv beta iota delta [bind TestScript.time_sleep modify].
      destruct (IH (S i) total
                  {| TestScript.stdout := TestScript.stdout w1;
                     TestScript.requests := TestScript.requests w1;
                     TestScript.sleeps := S (TestScript.sleeps w1) |})
        as (w2 & Hrun2 & Hreq2 & Hsl2).
      exists w2. rewrite Hrun2. split; [reflexivity |].
      cbn [TestScript.requests TestScript.sleeps] in Hreq2, Hsl2.
      cbn [List.map List.filter List.length]. rewrite Href. cbn [negb List.length].
      rewrite Hreq2, Hreq, Hsl2, Hsl, <- app_assoc. split; [reflexivity | lia].
Qed.

Lemma test_producer_api_effects (w : TestScript.world) :
  exists w',
    TestScript.test_producer_api srv w = (Ret tt, w')
    /\ TestScript.requests w'
       = (TestScript.requests w
          ++ List.map produce_request
               (until_refused srv TestScript.test_messages))%list
    /\ TestScript.sleeps w'
       = TestScript.sleeps w + answered srv TestScript.test_messages
    /\ List.last (TestScript.stdout w') EmptyString = "🏁 Test completed!".
Proof.
  unfold TestScript.test_producer_api.
  cbv beta iota delta [bind TestScript.print modify] .
  match goal with
  | |- context [TestScript.send_all srv ?i ?t ?l ?w0] =>
      destruct (send_all_effects l i t w0) as (w1 & Hrun & Hreq & Hsl)
  end.
  rewrite Hrun. cbn [TestScript.requests TestScript.sleeps] in Hreq, Hsl.
  eexists. split; [reflexivity |].
  cbn [TestScript.requests TestScript.sleeps TestScript.stdout].
  repeat split; [exact Hreq | exact Hsl | apply last_last].
Qed.

Lemma check_producer_health_effects (w : TestScript.world) :
  exists w',
    TestScript.check_producer_health srv w = (Ret (healthy srv), w')
    /\ TestScript.requests w'
       = (TestScript.requests w ++ [health_request])%list
    /\ TestScript.sleeps w' = TestScript.sleeps w.
Proof.
  unfold healthy, health_request. run_script.
  destruct (srv "http://localhost:5000/health" [])
    as [code [[| | | | | |] | e] text | msg | msg];
    try destruct (code =? 200)%Z;
    eexists; split; try reflexivity; split; reflexivity.
Qed.

End TestScriptRequests.

(** X22: [test_producer_api] never raises, whatever the service answers: it
    sends the sample messages in order up to and including the first one
    that meets a connection error, sleeps once after each message that did
    not, and ends by printing the completion line. *)
Theorem test_requests_stop_at_connection_error (srv : TestScript.server) :
  exists w',
    TestScript.test_producer_api srv TestScript.start = (Ret tt, w')
    /\ TestScript.requests w'
       = List.map produce_request (until_refused srv TestScript.test_messages)
    /\ TestScript.sleeps w' = answered srv TestScript.test_messages
    /\ List.last (TestScript.stdout w') EmptyString = "🏁 Test completed!".
Proof.
  destruct (test_producer_api_effects srv TestScript.start)
    as (w' & Hrun & Hreq & Hsl & Hlast).
  exists w'. repeat split; assumption.
Qed.

Lemma until_refused_all (srv : TestScript.server)
      (todo : list (list (string * string))) :
  (forall m, In m todo -> refused srv m = false) ->
  until_refused srv todo = todo
  /\ answered srv todo = List.length todo.
Proof.
  unfold answered.
  induction todo as [| m rest IH]; intros Hall; [split; reflexivity |].
  cbn [until_refused]. rewrite (Hall m (or_introl eq_refl)).
  destruct IH as [IH1 IH2]; [intros m' Hm'; apply Hall; right; exact Hm' |].
  cbn [List.filter]. rewrite (Hall m (or_introl eq_refl)). cbn [negb List.length].
  rewrite IH1 in *. rewrite IH2. split; reflexivity.
Qed.

(** X23: when no sample message meets a connection error, every one of the
    five is sent, in the order of the list, whatever else goes wrong with a
    request (an HTTP error status, a body that is not JSON, a JSON value
    that is not an object, another exception of the HTTP library), and the
    script sleeps after each. *)
Theorem other_failures_do_not_stop_tests (srv : TestScript.server)
        (Hconn : forall m, In m TestScript.test_messages -> refused srv m = false) :
  exists w',
    TestScript.test_producer_api srv TestScript.start = (Ret tt, w')
    /\ TestScript.requests w'
       = List.map produce_request TestScript.test_messages
    /\ TestScript.sleeps w' = 5.
Proof.
  destruct (test_producer_api_effects srv TestScript.start)
    as (w' & Hrun & Hreq & Hsl & _).
  destruct (until_refused_all srv TestScript.test_messages Hconn) as [Hu Ha].
  exists w'. rewrite Hu in Hreq. rewrite Ha in Hsl.
  repeat split; assumption.
Qed.

(** X24: [check_producer_health] never raises and makes exactly one request,
    to the health URL; it returns [True] exactly when the answer has status
    200 and a body that is a JSON object. *)
Theorem health_check_verdict (srv : TestScript.server) (w : TestScript.world) :
  exists w',
    TestScript.check_producer_health srv w = (Ret (healthy srv), w')
    /\ TestScript.requests w'
       = (TestScript.requests w ++ [health_request])%list.
Proof.
  destruct (check_producer_health_effects srv w) as (w' & Hrun & Hreq & _).
  exists w'. split; assumption.
Qed.

(** X25: when the health check fails, [main] exits with status 1 after the
    one health request: no sample message is sent. *)
Theorem unhealthy_producer_exits_1 (srv : TestScript.server)
        (Hdown : healthy srv = false) :
  exists w',
    TestScript.main srv TestScript.start = (Raise (SystemExit 1), w')
    /\ TestScript.requests w' = [health_request]
    /\ List.last (TestScript.stdout w') EmptyString = "   docker-compose up -d".
Proof.
  unfold TestScript.main.
  cbv beta iota delta [bind TestScript.print modify].
  match goal with
  | |- context [TestScript.check_producer_health srv ?w0] =>
      destruct (check_producer_health_effects srv w0) as (w1 & Hrun & Hreq & _)
  end.
  rewrite Hrun, Hdown. cbn [negb]. cbv beta iota delta [raise].
  eexists. split; [reflexivity |].
  cbn [TestScript.requests TestScript.stdout] in *.
  split; [exact Hreq | apply last_last].
Qed.

(** X26: when the health check succeeds, [main] returns normally, and its
    requests are the health request followed by the sample messages up to
    the first connection error. *)
Theorem healthy_producer_runs_tests (srv : TestScript.server)
        (Hup : healthy srv = true) :
  exists w',
    TestScript.main srv TestScript.start = (Ret tt, w')
    /\ TestScript.requests w'
       = health_request
         :: List.map produce_request
              (until_refused srv TestScript.test_messages).
Proof.
  unfold TestScript.main.
  cbv beta iota delta [bind TestScript.print modify].
  match goal with
  | |- context [TestScript.check_producer_health srv ?w0] =>
      destruct (check_producer_health_effects srv w0) as (w1 & Hrun & Hreq & _)
  end.
  rewrite Hrun, Hup. cbn [negb].
  destruct (test_producer_api_effects srv w1) as (w2 & Hrun2 & Hreq2 & _).
  rewrite Hrun2.
  eexists. split; [reflexivity |].
  cbn [TestScript.requests] in *. rewrite Hreq2, Hreq. reflexivity.
Qed.

Lemma other_failures_do_not_stop_tests_witness :
  exists w',
    TestScript.test_producer_api unavailable TestScript.start = (Ret tt, w')
    /\ TestScript.requests w'
       = List.map produce_request TestScript.test_messages
    /\ TestScript.sleeps w' = 5.
Proof.
  exact (other_failures_do_not_stop_tests unavailable (fun m _ => eq_refl)).
Defined.

Lemma unhealthy_producer_exits_1_witness :
  exists w',
    TestScript.main down TestScript.start = (Raise (SystemExit 1), w')
    /\ TestScript.requests w' = [health_request]
    /\ List.last (TestScript.stdout w') EmptyString = "   docker-compose up -d".
Proof.
  exact (unhealthy_producer_exits_1 down eq_refl).
Defined.

Lemma healthy_producer_runs_tests_witness :
  exists w',
    TestScript.main flaky TestScript.start = (Ret tt, w')
    /\ TestScript.requests w'
       = health_request
         :: List.map produce_request
              (until_refused flaky TestScript.test_messages).
Proof.
  exact (healthy_producer_runs_tests flaky eq_refl).
Defined.

(** The run against the flaky service: the fourth message is the last one
    sent, the third one is reported with its status. *)
(** Float literals in an [if]: zeros, an underflow, the least positive
    float, the two sides of [2^-1075], and the literals without digits. *)
Example float_truth :
  map (fun lexeme => TestScript.truth (PFloat lexeme))
    [ "0.0"; "-0.0"; "0e5"; "1e-400"; "4.9e-324";
      "2.4703282292062327e-324"; "2.4703282292062328e-324";
      "1.5"; "1E400"; "NaN"; "-Infinity" ]
  = [ false; false; false; false; true; false; true; true; true; true; true ].
Proof. vm_compute. reflexivity. Qed.

Example flaky_run :
  let w := snd (TestScript.main flaky TestScript.start) in
  List.length (TestScript.requests w) = 5
  /\ TestScript.sleeps w = 3
  /\ In "   ❌ HTTP Error: 500" (TestScript.stdout w)
  /\ In "   Response: Internal Server Error" (TestScript.stdout w)
  /\ In "   ❌ Connection Error: Make sure the producer is running on port 5000"
        (TestScript.stdout w)
  /\ List.nth 2 (TestScript.stdout w) EmptyString = "✅ Producer API is healthy"
  /\ List.nth 3 (TestScript.stdout w) EmptyString = "   Environment: local".
Proof.
  vm_compute. intuition.
Qed.

(** ** Witnesses for the path from the endpoint to the consumer *)

Lemma produced_payload_reads_back_witness :
  exists payload,
    Producer.produce_calls
      (snd (Producer.produce_message [] confirming_transport payments_request
              sample_now Producer.initial))
    = (Producer.produce_calls Producer.initial ++ [("payments", payload)])%list
    /\ json_loads payload
       = Some (PDict (envelope "hello" sample_now (Config.get_environment []))).
Proof.
  apply (produced_payload_reads_back
           [] confirming_transport payments_request sample_now
           "payments" "hello" Producer.initial
           (snd (Producer.produce_message [] confirming_transport
                   payments_request sample_now Producer.initial))
           (Producer.jsonify
              (success_body "payments"
                 (envelope "hello" sample_now (Config.get_environment [])))));
    try discriminate; vm_compute; reflexivity.
Defined.

Lemma produced_record_renders_structured_witness :
  Consumer.process
    (record_of (encode_utf8 (json_dumps
                  (PDict (envelope "hello" sample_now "local")))) 3)
    (Consumer.start None)
  = (Ret tt,
     Consumer.set_stdout
       (fun out =>
          (out ++ header_lines
                    (record_of (encode_utf8 (json_dumps
                                  (PDict (envelope "hello" sample_now "local")))) 3)
                    (Consumer.message_count (Consumer.start None) + 1)
               ++ [ ("   Timestamp: " ++ sample_now)%string;
                    ("   Environment: " ++ "local")%string;
                    ("   Content: " ++ "hello")%string;
                    Consumer.separator ])%list)
       (Consumer.set_message_count
          (Consumer.message_count (Consumer.start None) + 1)
          (Consumer.start None))).
Proof.
  apply (produced_record_renders_structured
           (record_of (encode_utf8 (json_dumps
                         (PDict (envelope "hello" sample_now "local")))) 3)
           "hello" sample_now "local" (Consumer.start None));
    vm_compute; reflexivity.
Defined.
